(** * Silver-layer ETL of the health-data pipeline

    A shallow embedding of [src/glue_jobs/silver-layer-etl.py]: the fragment
    of the Spark DataFrame API the job uses ([Spark]), the calendar behind
    [to_date] and [datediff] ([Calendar]), and the job itself ([Silver]),
    branch by branch, with its [try]/[except] blocks and its log. *)

From Stdlib Require Import List String Ascii ZArith Bool Lia Permutation Sorted.
From Stdlib Require Import Floats.
Import ListNotations.
Local Open Scope string_scope.
Local Open Scope list_scope.
Local Open Scope Z_scope.

(** ** The calendar of [DateType]

    A date is its number of days since 1970-01-01 in the proleptic Gregorian
    calendar, which is how [DateType] stores it. *)
Module Calendar.

Definition is_leap (y : Z) : bool :=
  ((y mod 4 =? 0) && negb (y mod 100 =? 0)) || (y mod 400 =? 0).

Definition days_in_month (y m : Z) : Z :=
  if m =? 2 then (if is_leap y then 29 else 28)
  else if (m =? 4) || (m =? 6) || (m =? 9) || (m =? 11) then 30
  else 31.

Definition days_from_civil (y m d : Z) : Z :=
  let y' := if m <=? 2 then y - 1 else y in
  let era := y' / 400 in
  let yoe := y' - era * 400 in
  let mp := (m + 9) mod 12 in
  let doy := (153 * mp + 2) / 5 + d - 1 in
  let doe := yoe * 365 + yoe / 4 - yoe / 100 + doy in
  era * 146097 + doe - 719468.

Definition civil_from_days (z : Z) : Z * Z * Z :=
  let z := z + 719468 in
  let era := z / 146097 in
  let doe := z - era * 146097 in
  let yoe := (doe - doe / 1460 + doe / 36524 - doe / 146096) / 365 in
  let doy := doe - (365 * yoe + yoe / 4 - yoe / 100) in
  let mp := (5 * doy + 2) / 153 in
  let d := doy - (153 * mp + 2) / 5 + 1 in
  let m := if mp <? 10 then mp + 3 else mp - 9 in
  let y := yoe + era * 400 in
  (if m <=? 2 then y + 1 else y, m, d).

(** A calendar date of the years 1 to 9999, or nothing. *)
Definition make_date (y m d : Z) : option Z :=
  if (1 <=? y) && (y <=? 9999) && (1 <=? m) && (m <=? 12)
     && (1 <=? d) && (d <=? days_in_month y m)
  then Some (days_from_civil y m d) else None.

Definition digit_of_ascii (c : ascii) : option Z :=
  let n := Z.of_nat (nat_of_ascii c) in
  if (48 <=? n) && (n <=? 57) then Some (n - 48) else None.

Fixpoint digits_value (acc : Z) (s : string) : option Z :=
  match s with
  | EmptyString => Some acc
  | String c s' =>
      match digit_of_ascii c with
      | Some d => digits_value (10 * acc + d) s'
      | None => None
      end
  end.

(** The pattern ['yyyyMMdd']: eight digits that name a calendar date. *)
Definition parse_yyyyMMdd (s : string) : option Z :=
  if Nat.eqb (String.length s) 8 then
    match digits_value 0 (substring 0 4 s),
          digits_value 0 (substring 4 2 s),
          digits_value 0 (substring 6 2 s) with
    | Some y, Some m, Some d => make_date y m d
    | _, _, _ => None
    end
  else None.

(** The ISO form [yyyy-MM-dd] that [to_date] reads when no pattern is given. *)
Definition parse_iso (s : string) : option Z :=
  if Nat.eqb (String.length s) 10
     && String.eqb (substring 4 1 s) "-" && String.eqb (substring 7 1 s) "-" then
    match digits_value 0 (substring 0 4 s),
          digits_value 0 (substring 5 2 s),
          digits_value 0 (substring 8 2 s) with
    | Some y, Some m, Some d => make_date y m d
    | _, _, _ => None
    end
  else None.

Definition year_of (d : Z) : Z := fst (fst (civil_from_days d)).
Definition month_of (d : Z) : Z := snd (fst (civil_from_days d)).
Definition quarter_of (d : Z) : Z := (month_of d - 1) / 3 + 1.

End Calendar.

(** ** Doubles

    [DoubleType] is IEEE binary64, here Rocq's primitive [float]. The order is
    Spark's: NaN equals NaN and is greater than every other value. *)
Module Dbl.

Definition is_nan (x : float) : bool := negb (PrimFloat.eqb x x).

Definition gt (x y : float) : bool :=
  if is_nan x then negb (is_nan y) else PrimFloat.ltb y x.

Definition of_Z (n : Z) : float := SF2Prim (binary_normalize prec emax n 0 false).

(** Ascending sort order, read on the representation: NaN last. *)
Definition sf_leb (a b : spec_float) : bool :=
  match SFcompare a b with
  | Some Gt => false
  | Some _ => true
  | None => match b with S754_nan => true | _ => false end
  end.

Definition leb (x y : float) : bool := sf_leb (Prim2SF x) (Prim2SF y).

Definition sf_eqb (a b : spec_float) : bool :=
  match a, b with
  | S754_zero s, S754_zero t | S754_infinity s, S754_infinity t => Bool.eqb s t
  | S754_nan, S754_nan => true
  | S754_finite s m e, S754_finite t n f => Bool.eqb s t && Pos.eqb m n && Z.eqb e f
  | _, _ => false
  end.

(** The same double, as a grouping key. *)
Definition same (x y : float) : bool := sf_eqb (Prim2SF x) (Prim2SF y).

(** [floor] of a double as an integer; 0 for NaN and the infinities, whose
    saturation the job never meets. *)
Definition floor (x : float) : Z :=
  match Prim2SF x with
  | S754_finite s m e => Z.shiftl (if s then Z.neg m else Z.pos m) e
  | _ => 0
  end.

(** Rounding towards zero, as the cast of a double to an integer does: NaN
    is 0, and an infinity lies beyond every [int], so that the cast, which
    saturates, gives the least or the greatest [int]. *)
Definition trunc (x : float) : Z :=
  match Prim2SF x with
  | S754_finite s m e =>
      let a := Z.shiftl (Z.pos m) e in if s then - a else a
  | S754_infinity s => if s then - Z.shiftl 1 1024 else Z.shiftl 1 1024
  | _ => 0
  end.

End Dbl.

(** ** The DataFrame fragment

    Cells are nullable values ([None] is SQL NULL); a row is the ordered list
    of its named fields, as [pyspark.sql.Row]; a DataFrame is a schema (its
    column names, in order) and rows. An operation that the analyzer rejects
    (an unresolved column, a union of different widths) raises
    [AnalysisException] when the operation is called: it returns [None].

    Two things the analyzer does are outside the fragment. It resolves a name
    without regard to case, where [col] takes the exact name: the two agree on
    the names of the catalog, which are in lower case, as are the names in the
    job. And it gives a column one type, coercing the branches of a [when] and
    the sides of a [union] to a common type or rejecting them: here a value
    carries its own type, and the branches of a [when] and the columns of a
    [union] are taken to be of one type. *)
Module Spark.

Inductive value : Type :=
| VStr (s : string)
| VInt (n : Z)
| VDbl (x : float)
| VDate (d : Z)
| VTs (t : Z)
| VBool (b : bool).

Definition cell : Type := option value.
Definition Row : Type := list (string * cell).

Record DataFrame : Type := mkDF { columns : list string; rows : list Row }.

Definition count (df : DataFrame) : nat := List.length (rows df).

(** *** Rows and schemas *)

Fixpoint get (r : Row) (c : string) : cell :=
  match r with
  | [] => None
  | (k, v) :: r' => if String.eqb k c then v else get r' c
  end.

Fixpoint set_field (c : string) (v : cell) (r : Row) : Row :=
  match r with
  | [] => [(c, v)]
  | (k, x) :: r' => if String.eqb k c then (c, v) :: r' else (k, x) :: set_field c v r'
  end.

(** [c in df.columns] *)
Definition has_column (c : string) (schema : list string) : bool :=
  existsb (String.eqb c) schema.

Definition add_column (c : string) (schema : list string) : list string :=
  if has_column c schema then schema else schema ++ [c].

(** A row that carries exactly the fields of the schema, in order. *)
Definition row_fits (schema : list string) (r : Row) : bool :=
  if list_eq_dec string_dec (map fst r) schema then true else false.

Definition well_formed (df : DataFrame) : bool :=
  forallb (row_fits (columns df)) (rows df).

(** *** Values: equality, order, arithmetic *)

Definition value_eqb (a b : value) : bool :=
  match a, b with
  | VStr x, VStr y => String.eqb x y
  | VInt x, VInt y | VDate x, VDate y | VTs x, VTs y => x =? y
  | VDbl x, VDbl y => Dbl.same x y
  | VBool x, VBool y => Bool.eqb x y
  | _, _ => false
  end.

(** Equality of grouping keys: NULL groups with NULL. *)
Definition cell_eqb (a b : cell) : bool :=
  match a, b with
  | None, None => true
  | Some x, Some y => value_eqb x y
  | _, _ => false
  end.

Definition type_rank (a : value) : Z :=
  match a with
  | VStr _ => 0 | VInt _ => 1 | VDbl _ => 2 | VDate _ => 3 | VTs _ => 4 | VBool _ => 5
  end.

Definition value_leb (a b : value) : bool :=
  match a, b with
  | VStr x, VStr y => String.leb x y
  | VInt x, VInt y | VDate x, VDate y | VTs x, VTs y => x <=? y
  | VDbl x, VDbl y => Dbl.leb x y
  | VBool x, VBool y => implb x y
  | _, _ => type_rank a <=? type_rank b
  end.

(** Ascending sort order: NULL first. *)
Definition cell_leb (a b : cell) : bool :=
  match a, b with
  | None, _ => true
  | Some _, None => false
  | Some x, Some y => value_leb x y
  end.

(** Java's [int]: 32 bits, two's complement. *)
Definition wrap32 (n : Z) : Z := (n + 2147483648) mod 4294967296 - 2147483648.

Definition dbl_eq (x y : float) : bool :=
  if Dbl.is_nan x then Dbl.is_nan y else PrimFloat.eqb x y.

(** A string that meets an integer in a comparison is cast to an integer,
    as [UTF8String.toInt] reads it: blanks and control characters trimmed at
    both ends, an optional sign, decimal digits, and an optional fraction,
    which is dropped; anything else, and a number that is no [int], is NULL. *)
Definition is_blank (c : ascii) : bool :=
  let n := nat_of_ascii c in (n <=? 32)%nat || (n =? 127)%nat.

Fixpoint trim_left (l : list ascii) : list ascii :=
  match l with
  | c :: l' => if is_blank c then trim_left l' else l
  | [] => []
  end.

Definition trim (l : list ascii) : list ascii :=
  List.rev (trim_left (List.rev (trim_left l))).

Definition is_digit (c : ascii) : bool :=
  match Calendar.digit_of_ascii c with Some _ => true | None => false end.

Fixpoint integral_part (acc : Z) (l : list ascii) : option Z :=
  match l with
  | [] => Some acc
  | c :: l' =>
      if Ascii.eqb c "."%char
      then (if forallb is_digit l' then Some acc else None)
      else match Calendar.digit_of_ascii c with
           | Some d => integral_part (10 * acc + d) l'
           | None => None
           end
  end.

Definition signed (negative : bool) (digits : list ascii) : option Z :=
  match digits with
  | [] => None
  | _ :: _ =>
      match integral_part 0 digits with
      | Some n =>
          let v := if negative then - n else n in
          if (-2147483648 <=? v) && (v <=? 2147483647) then Some v else None
      | None => None
      end
  end.

Definition string_to_int (s : string) : option Z :=
  match trim (list_ascii_of_string s) with
  | [] => None
  | c :: l =>
      if Ascii.eqb c "-"%char then signed true l
      else if Ascii.eqb c "+"%char then signed false l
      else signed false (c :: l)
  end.

Definition eq_int_string (n : Z) (s : string) : cell :=
  option_map (fun m => VBool (n =? m)) (string_to_int s).

(** [==]: NULL when an operand is NULL. Operands of one type, or numeric
    ones, or an integer and a string, which is cast to an integer. For another
    pair of types (a double, a date, a timestamp or a boolean with a string)
    the analyzer inserts a cast that is not modelled: the result is NULL, and
    nothing is stated of the job on such operands. *)
Definition sql_eq (a b : cell) : cell :=
  match a, b with
  | Some (VStr x), Some (VStr y) => Some (VBool (String.eqb x y))
  | Some (VInt x), Some (VStr y) => eq_int_string x y
  | Some (VStr x), Some (VInt y) => eq_int_string y x
  | Some (VInt x), Some (VInt y)
  | Some (VDate x), Some (VDate y)
  | Some (VTs x), Some (VTs y) => Some (VBool (x =? y))
  | Some (VBool x), Some (VBool y) => Some (VBool (Bool.eqb x y))
  | Some (VDbl x), Some (VDbl y) => Some (VBool (dbl_eq x y))
  | Some (VDbl x), Some (VInt y) => Some (VBool (dbl_eq x (Dbl.of_Z y)))
  | Some (VInt x), Some (VDbl y) => Some (VBool (dbl_eq (Dbl.of_Z x) y))
  | _, _ => None
  end.

Definition sql_not (a : cell) : cell :=
  match a with
  | Some (VBool b) => Some (VBool (negb b))
  | _ => None
  end.

(** [>] on numbers: an integer meets a double as a double. *)
Definition sql_gt (a b : cell) : cell :=
  match a, b with
  | Some (VInt x), Some (VInt y) => Some (VBool (y <? x))
  | Some (VDbl x), Some (VDbl y) => Some (VBool (Dbl.gt x y))
  | Some (VDbl x), Some (VInt y) => Some (VBool (Dbl.gt x (Dbl.of_Z y)))
  | Some (VInt x), Some (VDbl y) => Some (VBool (Dbl.gt (Dbl.of_Z x) y))
  | _, _ => None
  end.

(** [&], three-valued: false wins over NULL. *)
Definition sql_and (a b : cell) : cell :=
  match a, b with
  | Some (VBool false), _ | _, Some (VBool false) => Some (VBool false)
  | Some (VBool true), Some (VBool true) => Some (VBool true)
  | _, _ => None
  end.

(** [+]: integers wrap as Java's [int]. *)
Definition sql_add (a b : cell) : cell :=
  match a, b with
  | Some (VInt x), Some (VInt y) => Some (VInt (wrap32 (x + y)))
  | Some (VDbl x), Some (VDbl y) => Some (VDbl (x + y)%float)
  | Some (VDbl x), Some (VInt y) => Some (VDbl (x + Dbl.of_Z y)%float)
  | Some (VInt x), Some (VDbl y) => Some (VDbl (Dbl.of_Z x + y)%float)
  | _, _ => None
  end.

Definition as_double (a : value) : option float :=
  match a with
  | VDbl x => Some x
  | VInt n => Some (Dbl.of_Z n)
  | _ => None
  end.

Definition is_zero (a : value) : bool :=
  match a with
  | VInt n => n =? 0
  | VDbl x => PrimFloat.eqb x 0%float
  | _ => false
  end.

(** [/] is the division of doubles; a zero divisor gives NULL (an integer
    is zero as a double exactly when it is zero). *)
Definition sql_div (a b : cell) : cell :=
  match a, b with
  | Some x, Some y =>
      match as_double x, as_double y with
      | Some p, Some q => if is_zero y then None else Some (VDbl (p / q)%float)
      | _, _ => None
      end
  | _, _ => None
  end.

Definition sql_floor (a : cell) : cell :=
  match a with
  | Some (VDbl x) => Some (VInt (Dbl.floor x))
  | Some (VInt n) => Some (VInt n)
  | _ => None
  end.

Definition is_null (a : cell) : bool :=
  match a with None => true | Some _ => false end.

Definition is_true (a : cell) : bool :=
  match a with Some (VBool true) => true | _ => false end.

(** *** Dates *)

Definition micros_per_day : Z := 86400000000.

(** [to_date(c, 'yyyyMMdd')]: a string is parsed, an integer is read through
    its decimal digits, a date is kept; what does not parse is NULL. This is
    the engine's reading of NULL and of eight digits that name a date of the
    years 1 to 9999. Of another string the engine may still make a date (the
    year 0) or raise when the row is evaluated (seven or nine digits, a blank
    at the end), which fails the write that evaluates it. *)
Definition to_date_yyyyMMdd (a : cell) : cell :=
  match a with
  | Some (VStr s) => option_map VDate (Calendar.parse_yyyyMMdd s)
  | Some (VInt n) =>
      if (10000000 <=? n) && (n <=? 99999999)
      then option_map VDate (Calendar.make_date (n / 10000) ((n / 100) mod 100) (n mod 100))
      else None
  | Some (VDate d) => Some (VDate d)
  | Some (VTs t) => Some (VDate (t / micros_per_day))
  | _ => None
  end.

(** [to_date(c)] *)
Definition to_date_iso (a : cell) : cell :=
  match a with
  | Some (VStr s) => option_map VDate (Calendar.parse_iso s)
  | Some (VDate d) => Some (VDate d)
  | Some (VTs t) => Some (VDate (t / micros_per_day))
  | _ => None
  end.

(** [datediff(end, start)], an [int]. *)
Definition sql_datediff (e s : cell) : cell :=
  match e, s with
  | Some (VDate x), Some (VDate y) => Some (VInt (x - y))
  | _, _ => None
  end.

Definition date_part (f : Z -> Z) (a : cell) : cell :=
  match a with
  | Some (VDate d) => Some (VInt (f d))
  | _ => None
  end.

(** *** Casts

    How [Cast] reads a number in a string is the engine's
    ([UTF8String.toInt], [Double.parseDouble]): it is a parameter here. A
    string that does not parse is NULL. *)
Section Casts.

Variable parse_int : string -> option Z.
Variable parse_double : string -> option float.

Definition cast_int (a : cell) : cell :=
  match a with
  | Some (VStr s) => option_map VInt (parse_int s)
  | Some (VInt n) => Some (VInt (wrap32 n))
  | Some (VDbl x) =>
      Some (VInt (Z.max (-2147483648) (Z.min 2147483647 (Dbl.trunc x))))
  | Some (VBool b) => Some (VInt (if b then 1 else 0))
  | _ => None
  end.

Definition cast_double (a : cell) : cell :=
  match a with
  | Some (VStr s) => option_map VDbl (parse_double s)
  | Some (VInt n) => Some (VDbl (Dbl.of_Z n))
  | Some (VDbl x) => Some (VDbl x)
  | Some (VBool b) => Some (VDbl (if b then 1%float else 0%float))
  | _ => None
  end.

End Casts.

(** *** Column expressions

    A [Column] is resolved against a schema: it fails when it names a column
    the schema lacks, and is otherwise a function of the row. *)
Definition Column : Type := list string -> option (Row -> cell).

Definition col (c : string) : Column :=
  fun schema => if has_column c schema then Some (fun r => get r c) else None.

Definition lit (v : cell) : Column := fun _ => Some (fun _ => v).

Definition lift1 (f : cell -> cell) (a : Column) : Column :=
  fun schema =>
    match a schema with
    | Some fa => Some (fun r => f (fa r))
    | None => None
    end.

Definition lift2 (f : cell -> cell -> cell) (a b : Column) : Column :=
  fun schema =>
    match a schema, b schema with
    | Some fa, Some fb => Some (fun r => f (fa r) (fb r))
    | _, _ => None
    end.

Definition isNull : Column -> Column := lift1 (fun a => Some (VBool (is_null a))).
Definition isNotNull : Column -> Column := lift1 (fun a => Some (VBool (negb (is_null a)))).
Definition eq_ : Column -> Column -> Column := lift2 sql_eq.
Definition neq_ : Column -> Column -> Column := lift2 (fun a b => sql_not (sql_eq a b)).
Definition gt_ : Column -> Column -> Column := lift2 sql_gt.
Definition and_ : Column -> Column -> Column := lift2 sql_and.
Definition add_ : Column -> Column -> Column := lift2 sql_add.
Definition div_ : Column -> Column -> Column := lift2 sql_div.
Definition floor_ : Column -> Column := lift1 sql_floor.
Definition to_date_fmt : Column -> Column := lift1 to_date_yyyyMMdd.
Definition to_date : Column -> Column := lift1 to_date_iso.
Definition datediff : Column -> Column -> Column := lift2 sql_datediff.
Definition year : Column -> Column := lift1 (date_part Calendar.year_of).
Definition month : Column -> Column := lift1 (date_part Calendar.month_of).
Definition quarter : Column -> Column := lift1 (date_part Calendar.quarter_of).

(** [when(c1, v1).when(c2, v2)...otherwise(d)]: the first branch whose
    condition is true; a NULL condition is not true. *)
Fixpoint case_rows (bs : list ((Row -> cell) * (Row -> cell))) (d : Row -> cell)
  (r : Row) : cell :=
  match bs with
  | [] => d r
  | (c, v) :: bs' => if is_true (c r) then v r else case_rows bs' d r
  end.

Fixpoint resolve_branches (bs : list (Column * Column)) (schema : list string)
  : option (list ((Row -> cell) * (Row -> cell))) :=
  match bs with
  | [] => Some []
  | (c, v) :: bs' =>
      match c schema, v schema, resolve_branches bs' schema with
      | Some fc, Some fv, Some fs => Some ((fc, fv) :: fs)
      | _, _, _ => None
      end
  end.

Definition case_when (bs : list (Column * Column)) (d : Column) : Column :=
  fun schema =>
    match resolve_branches bs schema, d schema with
    | Some fs, Some fd => Some (case_rows fs fd)
    | _, _ => None
    end.

Definition when_otherwise (c v d : Column) : Column := case_when [(c, v)] d.

(** *** DataFrame operations *)

Definition withColumn (c : string) (e : Column) (df : DataFrame) : option DataFrame :=
  match e (columns df) with
  | Some f =>
      Some (mkDF (add_column c (columns df))
                 (map (fun r => set_field c (f r) r) (rows df)))
  | None => None
  end.

Fixpoint resolve_all (es : list (string * Column)) (schema : list string)
  : option (list (string * (Row -> cell))) :=
  match es with
  | [] => Some []
  | (n, e) :: es' =>
      match e schema, resolve_all es' schema with
      | Some f, Some fs => Some ((n, f) :: fs)
      | _, _ => None
      end
  end.

Definition project (fs : list (string * (Row -> cell))) (r : Row) : Row :=
  map (fun nf => (fst nf, snd nf r)) fs.

(** [df.select(e1.alias(n1), ...)] *)
Definition select (es : list (string * Column)) (df : DataFrame) : option DataFrame :=
  match resolve_all es (columns df) with
  | Some fs => Some (mkDF (map fst es) (map (project fs) (rows df)))
  | None => None
  end.

(** A column selected under its own name. *)
Definition named (c : string) : string * Column := (c, col c).

Definition filter_ (e : Column) (df : DataFrame) : option DataFrame :=
  match e (columns df) with
  | Some f => Some (mkDF (columns df) (filter (fun r => is_true (f r)) (rows df)))
  | None => None
  end.

(** The values of a row in schema order, under the names of another schema. *)
Definition relabel (target source : list string) (r : Row) : Row :=
  combine target (map (get r) source).

(** [a.union(b)]: by position, duplicates kept; the widths must agree. *)
Definition union (a b : DataFrame) : option DataFrame :=
  if Nat.eqb (List.length (columns a)) (List.length (columns b))
  then Some (mkDF (columns a)
                  (rows a ++ map (relabel (columns a) (columns b)) (rows b)))
  else None.

(** *** The window [Window.partitionBy(p).orderBy(o)] and [lead] *)

Fixpoint insert_by (o : string) (r : Row) (l : list Row) : list Row :=
  match l with
  | [] => [r]
  | x :: l' =>
      if cell_leb (get r o) (get x o) then r :: l else x :: insert_by o r l'
  end.

(** Rows in ascending order of column [o]; rows with equal keys keep their
    order (Spark leaves the order of ties open). *)
Fixpoint window_order (o : string) (l : list Row) : list Row :=
  match l with
  | [] => []
  | r :: l' => insert_by o r (window_order o l')
  end.

Fixpoint distinct_keys (l : list cell) : list cell :=
  match l with
  | [] => []
  | k :: l' => if existsb (cell_eqb k) l' then distinct_keys l' else k :: distinct_keys l'
  end.

Definition partition_of (p : string) (k : cell) (l : list Row) : list Row :=
  filter (fun r => cell_eqb (get r p) k) l.

(** [lead(src)] along an ordered partition: the value of the next row, NULL
    on the last. *)
Fixpoint lead_rows (c src : string) (l : list Row) : list Row :=
  match l with
  | [] => []
  | r :: l' =>
      set_field c (match l' with [] => None | n :: _ => get n src end) r
        :: lead_rows c src l'
  end.

(** [df.withColumn(c, lead(col(src)).over(Window.partitionBy(p).orderBy(o)))]:
    the rows come out partition by partition, each in window order. *)
Definition withColumn_lead (c src p o : string) (df : DataFrame) : option DataFrame :=
  if has_column src (columns df) && has_column p (columns df) && has_column o (columns df)
  then Some (mkDF (add_column c (columns df))
                  (flat_map (fun k => lead_rows c src (window_order o (partition_of p k (rows df))))
                            (distinct_keys (map (fun r => get r p) (rows df)))))
  else None.

End Spark.

(** ** The job *)
Module Silver.
Import Spark.

(** *** What the job prints

    The result lines of the job, by their glyph: a check mark is [Info], a
    warning sign [Warning], a cross [Error]. Banners and headings are left
    out. *)
Inductive severity : Type := Info | Warning | Error.

Inductive message : Type :=
| Loaded (table_name : string) (n : nat)
| CouldNotLoad (table_name : string)
| BeneficiaryProcessed (n : nat)
| BeneficiaryError
| CleaningError (claim_type : string)
| Added (claim_type : string) (n : nat)
| UnifiedCreated (n : nat)
| NoClaimsToUnify
| UnifiedError
| PrescriptionsProcessed (n : nat)
| PrescriptionError
| DiagnosesNormalized (n : nat)
| NoDiagnosisCodes
| NoDiagnosisColumns
| DiagnosisError.

Definition severity_of (m : message) : severity :=
  match m with
  | Loaded _ _ | BeneficiaryProcessed _ | Added _ _ | UnifiedCreated _
  | PrescriptionsProcessed _ | DiagnosesNormalized _ => Info
  | CouldNotLoad _ | NoClaimsToUnify | NoDiagnosisCodes | NoDiagnosisColumns => Warning
  | BeneficiaryError | CleaningError _ | UnifiedError | PrescriptionError
  | DiagnosisError => Error
  end.

(** *** Blocks that may raise

    The body of a [try]: what it printed, and its value unless it raised. *)
Definition Try (A : Type) : Type := (option A * list message)%type.

Definition ret {A} (a : A) : Try A := (Some a, []).
Definition print (m : message) : Try unit := (Some tt, [m]).
(** An engine call: [None] is an exception. *)
Definition call {A} (o : option A) : Try A := (o, []).

Definition bind {A B} (x : Try A) (f : A -> Try B) : Try B :=
  match fst x with
  | Some a => let y := f a in (fst y, snd x ++ snd y)
  | None => (None, snd x)
  end.

Notation "x <- e ;; k" := (bind e (fun x => k))
  (at level 61, e at next level, right associativity).
Notation "e ;;; k" := (bind e (fun _ => k))
  (at level 61, right associativity).

(** [try: body  except Exception: print(m); result = None] *)
Definition try_except {A} (body : Try A) (m : message) : option A * list message :=
  match fst body with
  | Some a => (Some a, snd body)
  | None => (None, snd body ++ [m])
  end.

Definition str (s : string) : Column := lit (Some (VStr s)).
Definition int (n : Z) : Column := lit (Some (VInt n)).
Definition dbl (x : float) : Column := lit (Some (VDbl x)).
Definition boolean (b : bool) : Column := lit (Some (VBool b)).

(** What surrounds a run: the engine's reading of numbers in strings, the
    bronze catalog (the DataFrame of a table, unless loading it raises),
    whether the overwrite of a dataset under the target prefix goes through,
    and [current_date()]. *)
Record Env : Type := mkEnv {
  parse_int : string -> option Z;
  parse_double : string -> option float;
  catalog : string -> option DataFrame;
  sink_ok : string -> bool;
  today : Z
}.

Definition write (E : Env) (dataset : string) (df : DataFrame) : Try unit :=
  if sink_ok E dataset then ret tt else call None.

Definition load_bronze_table (E : Env) (table_name : string)
  : option DataFrame * list message :=
  match catalog E table_name with
  | Some df => (Some df, [Loaded table_name (count df)])
  | None => (None, [CouldNotLoad table_name])
  end.

(** *** Beneficiary (SCD type 2) *)

Definition chronic_cols : list string :=
  ["sp_alzhdmta"; "sp_chf"; "sp_chrnkidn"; "sp_cncr"; "sp_copd";
   "sp_depressn"; "sp_diabetes"; "sp_ischmcht"; "sp_osteoprs";
   "sp_ra_oa"; "sp_strketia"].

(** [when(col(c) == '1', 1).otherwise(0)] *)
Definition chronic_flag (c : string) : Column :=
  when_otherwise (eq_ (col c) (str "1")) (int 1) (int 0).

Definition chronic_expr (first : string) (others : list string) : Column :=
  fold_left (fun e c => add_ e (chronic_flag c)) others (chronic_flag first).

Definition with_chronic_condition_count (df : DataFrame) : option DataFrame :=
  let existing_chronic_cols :=
    filter (fun c => has_column c (columns df)) chronic_cols in
  match existing_chronic_cols with
  | c :: others => withColumn "chronic_condition_count" (chronic_expr c others) df
  | [] => withColumn "chronic_condition_count" (int 0) df
  end.

Definition sentinel : Column := to_date (str "9999-12-31").

(** The four statements that build [beneficiary_scd], in the order of the
    source: the dates, the derived columns, the chronic conditions, and the
    versions. *)
Definition standardize_dates (beneficiary_df : DataFrame) : Try DataFrame :=
  d <- call (withColumn "bene_birth_dt" (to_date_fmt (col "bene_birth_dt")) beneficiary_df) ;;
  call (withColumn "bene_death_dt"
          (when_otherwise (isNotNull (col "bene_death_dt"))
             (to_date_fmt (col "bene_death_dt")) (lit None)) d).

Definition derived_columns (E : Env) (beneficiary_clean : DataFrame) : Try DataFrame :=
  d <- call (withColumn "age"
               (floor_ (div_ (datediff (lit (Some (VDate (today E)))) (col "bene_birth_dt"))
                             (dbl 365.25%float))) beneficiary_clean) ;;
  d <- call (withColumn "is_deceased" (isNotNull (col "bene_death_dt")) d) ;;
  d <- call (withColumn "gender"
               (case_when [(eq_ (col "bene_sex_ident_cd") (str "1"), str "Male");
                           (eq_ (col "bene_sex_ident_cd") (str "2"), str "Female")]
                  (str "Unknown")) d) ;;
  call (withColumn "race"
          (case_when [(eq_ (col "bene_race_cd") (str "1"), str "White");
                      (eq_ (col "bene_race_cd") (str "2"), str "Black");
                      (eq_ (col "bene_race_cd") (str "3"), str "Other");
                      (eq_ (col "bene_race_cd") (str "5"), str "Hispanic")]
             (str "Unknown")) d).

(** SCD type 2 over [Window.partitionBy('desynpuf_id').orderBy('bronze_load_timestamp')]. *)
Definition scd_type2 (beneficiary_clean : DataFrame) : Try DataFrame :=
  d <- call (withColumn "effective_start_date" (col "bronze_load_date") beneficiary_clean) ;;
  d <- call (withColumn_lead "effective_end_date" "bronze_load_date"
               "desynpuf_id" "bronze_load_timestamp" d) ;;
  d <- call (withColumn "is_current"
               (when_otherwise (isNull (col "effective_end_date"))
                  (boolean true) (boolean false)) d) ;;
  call (withColumn "effective_end_date"
          (when_otherwise (isNull (col "effective_end_date"))
             sentinel (col "effective_end_date")) d).

Definition beneficiary_body (E : Env) (beneficiary_df : DataFrame) : Try DataFrame :=
  beneficiary_clean <- standardize_dates beneficiary_df ;;
  beneficiary_clean <- derived_columns E beneficiary_clean ;;
  beneficiary_clean <- call (with_chronic_condition_count beneficiary_clean) ;;
  beneficiary_scd <- scd_type2 beneficiary_clean ;;
  write E "beneficiary_clean" beneficiary_scd ;;;
  print (BeneficiaryProcessed (count beneficiary_scd)) ;;;
  ret beneficiary_scd.

Definition beneficiary_branch (E : Env) (beneficiary_df : option DataFrame)
  : option DataFrame * list message :=
  match beneficiary_df with
  | Some df => try_except (beneficiary_body E df) BeneficiaryError
  | None => (None, [])
  end.

(** *** Claims *)

Definition clean_claims_body (E : Env) (df : DataFrame) (claim_type : string) : Try DataFrame :=
  d <- call (withColumn "clm_from_dt" (to_date_fmt (col "clm_from_dt")) df) ;;
  d <- call (withColumn "clm_thru_dt" (to_date_fmt (col "clm_thru_dt")) d) ;;
  d <- call (withColumn "claim_type" (str claim_type) d) ;;
  d <- call (withColumn "claim_duration_days"
               (add_ (datediff (col "clm_thru_dt") (col "clm_from_dt")) (int 1)) d) ;;
  d <- call (withColumn "claim_year" (year (col "clm_from_dt")) d) ;;
  d <- call (withColumn "claim_month" (month (col "clm_from_dt")) d) ;;
  d <- call (withColumn "claim_quarter" (quarter (col "clm_from_dt")) d) ;;
  if has_column "clm_pmt_amt" (columns d)
  then call (withColumn "payment_amount"
               (lift1 (cast_double (parse_double E)) (col "clm_pmt_amt")) d)
  else call (withColumn "payment_amount" (dbl 0%float) d).

Definition clean_claims_data (E : Env) (df : option DataFrame) (claim_type : string)
  : option DataFrame * list message :=
  match df with
  | None => (None, [])
  | Some df => try_except (clean_claims_body E df claim_type) (CleaningError claim_type)
  end.

Definition common_cols : list string :=
  ["desynpuf_id"; "clm_id"; "clm_from_dt"; "clm_thru_dt";
   "claim_type"; "claim_duration_days"; "claim_year"; "claim_month";
   "payment_amount"; "bronze_load_timestamp"].

(** The projection of a cleansed type onto the common columns its schema has:
    [select] of [c for c in common_cols if c in clean.columns]. *)
Definition subset_of (clean : DataFrame) : option DataFrame :=
  select (map named (filter (fun c => has_column c (columns clean)) common_cols)) clean.

Definition add_claims (clean : option DataFrame) (claim_type : string)
  (claims_dfs : list DataFrame) : Try (list DataFrame) :=
  match clean with
  | Some c =>
      subset <- call (subset_of c) ;;
      print (Added claim_type (count subset)) ;;;
      ret (claims_dfs ++ [subset])
  | None => ret claims_dfs
  end.

Fixpoint union_all (acc : DataFrame) (dfs : list DataFrame) : option DataFrame :=
  match dfs with
  | [] => Some acc
  | df :: dfs' =>
      match union acc df with
      | Some u => union_all u dfs'
      | None => None
      end
  end.

(** [when(col('payment_amount') > 10000, True).otherwise(False)] *)
Definition is_high_cost : Column :=
  when_otherwise (gt_ (col "payment_amount") (int 10000)) (boolean true) (boolean false).

Definition claims_unified_body (E : Env) (inpatient_clean outpatient_clean carrier_clean : option DataFrame)
  : Try (option DataFrame) :=
  claims_dfs <- add_claims inpatient_clean "inpatient" [] ;;
  claims_dfs <- add_claims outpatient_clean "outpatient" claims_dfs ;;
  claims_dfs <- add_claims carrier_clean "carrier" claims_dfs ;;
  match claims_dfs with
  | df0 :: dfs =>
      u <- call (union_all df0 dfs) ;;
      claims_unified <- call (withColumn "is_high_cost" is_high_cost u) ;;
      write E "claims_unified" claims_unified ;;;
      print (UnifiedCreated (count claims_unified)) ;;;
      ret (Some claims_unified)
  | [] =>
      print NoClaimsToUnify ;;;
      ret None
  end.

Definition claims_unified_branch (E : Env) (inpatient_clean outpatient_clean carrier_clean : option DataFrame)
  : option DataFrame * list message :=
  let r := try_except (claims_unified_body E inpatient_clean outpatient_clean carrier_clean)
             UnifiedError in
  (match fst r with Some o => o | None => None end, snd r).

(** *** Prescriptions *)

Definition prescription_body (E : Env) (prescription_df : DataFrame) : Try DataFrame :=
  d <- call (withColumn "srvc_dt" (to_date_fmt (col "srvc_dt")) prescription_df) ;;
  d <- call (withColumn "prescription_year" (year (col "srvc_dt")) d) ;;
  d <- call (withColumn "prescription_month" (month (col "srvc_dt")) d) ;;
  d <- call (withColumn "qty_dispensed" (lift1 (cast_int (parse_int E)) (col "qty_dspnsd_num")) d) ;;
  d <- call (withColumn "days_supply" (lift1 (cast_int (parse_int E)) (col "days_suply_num")) d) ;;
  d <- call (withColumn "total_cost" (lift1 (cast_double (parse_double E)) (col "tot_rx_cst_amt")) d) ;;
  d <- call (withColumn "patient_pay"
               (when_otherwise (isNotNull (col "ptnt_pay_amt"))
                  (lift1 (cast_double (parse_double E)) (col "ptnt_pay_amt"))
                  (dbl 0%float)) d) ;;
  prescription_clean <- call (withColumn "cost_per_day"
               (when_otherwise
                  (and_ (gt_ (col "days_supply") (int 0)) (gt_ (col "total_cost") (int 0)))
                  (div_ (col "total_cost") (col "days_supply"))
                  (dbl 0%float)) d) ;;
  write E "prescriptions_clean" prescription_clean ;;;
  print (PrescriptionsProcessed (count prescription_clean)) ;;;
  ret prescription_clean.

Definition prescription_branch (E : Env) (prescription_df : option DataFrame)
  : option DataFrame * list message :=
  match prescription_df with
  | Some df => try_except (prescription_body E df) PrescriptionError
  | None => (None, [])
  end.

(** *** Diagnosis codes *)

(** [enumerate(l, start=k)] *)
Fixpoint enumerate {A} (k : Z) (l : list A) : list (Z * A) :=
  match l with
  | [] => []
  | a :: l' => (k, a) :: enumerate (k + 1) l'
  end.

(** [df.select(es).filter(e)]: the condition may name a column of [df] that
    the projection has dropped or renamed; the analyzer then resolves it
    against [df] itself, and the condition is read on the row of [df]. *)
Definition select_filter (es : list (string * Column)) (e : Column) (df : DataFrame)
  : option DataFrame :=
  match resolve_all es (columns df), e (map fst es ++ columns df) with
  | Some fs, Some f =>
      Some (mkDF (map fst es)
                 (map (project fs)
                      (filter (fun r => is_true (f (project fs r ++ r))) (rows df))))
  | _, _ => None
  end.

Definition diag_df (inpatient_clean : DataFrame) (idx : Z) (diag_col : string)
  : option DataFrame :=
  select_filter
    [named "desynpuf_id"; named "clm_id"; named "clm_from_dt";
     ("diagnosis_code", col diag_col); ("diagnosis_sequence", int idx)]
    (and_ (isNotNull (col diag_col)) (neq_ (col diag_col) (str "")))
    inpatient_clean.

Fixpoint diagnosis_records_of (inpatient_clean : DataFrame) (slots : list (Z * string))
  : option (list DataFrame) :=
  match slots with
  | [] => Some []
  | (idx, diag_col) :: slots' =>
      match diag_df inpatient_clean idx diag_col,
            diagnosis_records_of inpatient_clean slots' with
      | Some d, Some ds => Some (d :: ds)
      | _, _ => None
      end
  end.

Definition diagnosis_body (E : Env) (inpatient_clean : DataFrame) : Try (option DataFrame) :=
  let diagnosis_cols :=
    filter (fun c => String.prefix "icd9_dgns_cd_" c) (columns inpatient_clean) in
  match diagnosis_cols with
  | _ :: _ =>
      diagnosis_records <- call (diagnosis_records_of inpatient_clean
                                   (enumerate 1 diagnosis_cols)) ;;
      match diagnosis_records with
      | df0 :: dfs =>
          diagnosis_normalized <- call (union_all df0 dfs) ;;
          write E "diagnosis_normalized" diagnosis_normalized ;;;
          print (DiagnosesNormalized (count diagnosis_normalized)) ;;;
          ret (Some diagnosis_normalized)
      | [] =>
          print NoDiagnosisCodes ;;;
          ret None
      end
  | [] =>
      print NoDiagnosisColumns ;;;
      ret None
  end.

Definition diagnosis_branch (E : Env) (inpatient_clean : option DataFrame)
  : option DataFrame * list message :=
  match inpatient_clean with
  | Some df =>
      let r := try_except (diagnosis_body E df) DiagnosisError in
      (match fst r with Some o => o | None => None end, snd r)
  | None => (None, [])
  end.

(** *** The run *)

Record Outputs : Type := mkOutputs {
  beneficiary_scd : option DataFrame;
  inpatient_clean : option DataFrame;
  outpatient_clean : option DataFrame;
  carrier_clean : option DataFrame;
  claims_unified : option DataFrame;
  prescription_clean : option DataFrame;
  diagnosis_normalized : option DataFrame;
  log : list message
}.

(** The job from the loading of the bronze tables to the last branch; each
    output is the value of the variable of that name when the job ends.  The
    creation of the silver database and the printed summary, which come
    after and change none of these variables, are left out. *)
Definition run (E : Env) : Outputs :=
  let beneficiary_df := load_bronze_table E "beneficiary" in
  let inpatient_df := load_bronze_table E "inpatient" in
  let outpatient_df := load_bronze_table E "outpatient" in
  let carrier_df := load_bronze_table E "carrier" in
  let prescription_df := load_bronze_table E "prescription" in
  let b := beneficiary_branch E (fst beneficiary_df) in
  let i := clean_claims_data E (fst inpatient_df) "inpatient" in
  let o := clean_claims_data E (fst outpatient_df) "outpatient" in
  let c := clean_claims_data E (fst carrier_df) "carrier" in
  let u := claims_unified_branch E (fst i) (fst o) (fst c) in
  let p := prescription_branch E (fst prescription_df) in
  let g := diagnosis_branch E (fst i) in
  mkOutputs (fst b) (fst i) (fst o) (fst c) (fst u) (fst p) (fst g)
    (snd beneficiary_df ++ snd inpatient_df ++ snd outpatient_df ++ snd carrier_df
       ++ snd prescription_df
       ++ snd b ++ snd i ++ snd o ++ snd c ++ snd u ++ snd p ++ snd g).

End Silver.

(** ** What the claims speak of

    The notions the theorems are stated with: what the specification says of
    an output, and the names of the intermediate results. *)
Module Properties.
Import Spark Silver.

Definition payment_exceeds (p : cell) : bool :=
  match p with
  | Some (VDbl x) => Dbl.gt x 10000%float
  | Some (VInt n) => 10000 <? n
  | _ => false
  end.

Definition cost_per_day_of (days_supply total_cost : cell) : cell :=
  match days_supply, total_cost with
  | Some (VInt n), Some (VDbl x) =>
      if (0 <? n) && Dbl.gt x 0%float
      then Some (VDbl (x / Dbl.of_Z n)%float)
      else Some (VDbl 0%float)
  | _, _ => Some (VDbl 0%float)
  end.

(** The days of supply and the total cost of a prescription event of the
    source, as the branch casts them. *)
Definition days_supply_of (E : Env) (s : Row) : cell :=
  cast_int (parse_int E) (get s "days_suply_num").

Definition total_cost_of (E : Env) (s : Row) : cell :=
  cast_double (parse_double E) (get s "tot_rx_cst_amt").

(** A source row with the row that comes out of it, position by position. *)
Definition events (df out : DataFrame) : list (Row * Row) :=
  combine (rows df) (rows out).

Definition in_range (d : Z) : bool := (-719162 <=? d) && (d <=? 2932896).

(** A cleansed claim of the run, of any of the three types. *)
Definition cleansed (E : Env) (out : DataFrame) : Prop :=
  inpatient_clean (run E) = Some out \/ outpatient_clean (run E) = Some out
  \/ carrier_clean (run E) = Some out.

(** Ascending in column [o], row after row. *)
Definition ascending (o : string) : list Row -> Prop :=
  Sorted (fun r r' => cell_leb (get r o) (get r' o) = true).

(** [d'] is [d] with the columns [touched] set row by row. *)
Definition rowwise (touched : list string) (d d' : DataFrame) : Prop :=
  exists g : Row -> Row,
    rows d' = map g (rows d)
    /\ (forall r c, has_column c touched = false -> get (g r) c = get r c)
    /\ (forall c, has_column c (columns d') = has_column c (columns d) || has_column c touched).

(** The "present" marker of an indicator: "1" in a string column, 1 in an
    integer column. *)
Definition present (a : cell) : bool :=
  cell_eqb a (Some (VStr "1")) || cell_eqb a (Some (VInt 1)).

(** An indicator as a bronze table carries it: a string or an integer, or
    NULL. *)
Definition indicator_code (a : cell) : bool :=
  match a with
  | None | Some (VStr _) | Some (VInt _) => true
  | Some _ => false
  end.

Definition coded_indicators (df : DataFrame) : bool :=
  forallb (fun r => forallb (fun c => indicator_code (get r c)) chronic_cols) (rows df).

(** The number of whitelisted indicators that the schema has and the row
    marks present. *)
Definition chronic_count (schema : list string) (r : Row) : Z :=
  Z.of_nat (List.length
              (filter (fun c => has_column c schema && present (get r c)) chronic_cols)).

Definition flag_value (a : cell) : cell :=
  if is_true (sql_eq a (Some (VStr "1"))) then Some (VInt 1) else Some (VInt 0).

(** 9999-12-31 *)
Definition far_future : Z := 2932896.

Definition start_version (r : Row) : Row :=
  set_field "effective_start_date" (get r "bronze_load_date") r.

Definition close_version (r : Row) : Row :=
  set_field "effective_end_date"
    (if is_null (get r "effective_end_date") then Some (VDate far_future)
     else get r "effective_end_date")
    (set_field "is_current" (Some (VBool (is_null (get r "effective_end_date")))) r).

Definition lead_over_window (l : list Row) : list Row :=
  flat_map (fun k => lead_rows "effective_end_date" "bronze_load_date"
                       (window_order "bronze_load_timestamp" (partition_of "desynpuf_id" k l)))
           (distinct_keys (map (fun r => get r "desynpuf_id") l)).

Definition required_beneficiary_columns : list string :=
  ["desynpuf_id"; "bene_birth_dt"; "bene_death_dt"; "bene_sex_ident_cd";
   "bene_race_cd"; "bronze_load_timestamp"; "bronze_load_date"].

Definition has_columns (cs schema : list string) : bool :=
  forallb (fun c => has_column c schema) cs.

Definition beneficiary_touched : list string :=
  ["bene_birth_dt"; "bene_death_dt"; "age"; "is_deceased"; "gender"; "race";
   "chronic_condition_count"].

Definition snapshots_of (b : cell) (df : DataFrame) : list Row :=
  partition_of "desynpuf_id" b (rows df).

(** The snapshots of a beneficiary in the order of the window. *)
Definition ordered_snapshots (b : cell) (df : DataFrame) : list Row :=
  window_order "bronze_load_timestamp" (snapshots_of b df).

Definition is_date (a : cell) : bool :=
  match a with Some (VDate _) => true | _ => false end.

(** What a version says: its start, its end, whether it is current. *)
Definition version_of (v : Row) : cell * cell * cell :=
  (get v "effective_start_date", get v "effective_end_date", get v "is_current").

(** The versions the specification asks for, from the ordered snapshots of
    one beneficiary: each starts at its own load date and ends at the load
    date of the next snapshot, the last one at the far-future date, and only
    the last one is current. *)
Fixpoint versions (w : list Row) : list (cell * cell * cell) :=
  match w with
  | [] => []
  | s :: w' =>
      (get s "bronze_load_date",
       match w' with
       | [] => Some (VDate far_future)
       | n :: _ => get n "bronze_load_date"
       end,
       Some (VBool (match w' with [] => true | _ :: _ => false end)))
        :: versions w'
  end.

Definition current (t : cell * cell * cell) : bool := is_true (snd t).

(** Load dates that do not decrease along the ordered snapshots. *)
Definition nondecreasing_dates (w : list Row) : Prop :=
  forall i j si sj di dj, (i < j)%nat ->
    nth_error w i = Some si -> nth_error w j = Some sj ->
    get si "bronze_load_date" = Some (VDate di) ->
    get sj "bronze_load_date" = Some (VDate dj) -> di <= dj.

(** No version runs into a later one: it ends by the day the later starts. *)
Definition no_overlap (vs : list Row) : Prop :=
  forall i j vi vj, (i < j)%nat ->
    nth_error vs i = Some vi -> nth_error vs j = Some vj ->
    exists e s, get vi "effective_end_date" = Some (VDate e)
                /\ get vj "effective_start_date" = Some (VDate s) /\ e <= s.

(** *** The unpivot *)
Definition diagnosis_slot (c : string) : bool := String.prefix "icd9_dgns_cd_" c.

(** A code that is there: not NULL and not the empty string. *)
Definition nonempty_code (a : cell) : bool :=
  match a with
  | Some (VStr s) => negb (String.eqb s "")
  | _ => false
  end.

Definition assignment (k : Z) (c : string) (r : Row) : Row :=
  [("desynpuf_id", get r "desynpuf_id"); ("clm_id", get r "clm_id");
   ("clm_from_dt", get r "clm_from_dt"); ("diagnosis_code", get r c);
   ("diagnosis_sequence", Some (VInt k))].

(** One assignment per slot and claim row whose code is there, slot by slot. *)
Definition unpivot (slots : list (Z * string)) (l : list Row) : list Row :=
  flat_map (fun kc => map (assignment (fst kc) (snd kc))
                          (filter (fun r => nonempty_code (get r (snd kc))) l))
           slots.

Definition diagnosis_schema : list string :=
  ["desynpuf_id"; "clm_id"; "clm_from_dt"; "diagnosis_code"; "diagnosis_sequence"].

Definition clean_touched : list string :=
  ["clm_from_dt"; "clm_thru_dt"; "claim_type"; "claim_duration_days";
   "claim_year"; "claim_month"; "claim_quarter"; "payment_amount"].

(** The common columns a schema has, in the order of [common_cols]. *)
Definition present_common (schema : list string) : list string :=
  filter (fun c => has_column c schema) common_cols.

Definition common_fields (schema : list string) (r : Row) : Row :=
  map (fun c => (c, get r c)) (present_common schema).

(** The mark of the unifier on a row. *)
Definition with_is_high_cost (r : Row) : Row :=
  set_field "is_high_cost" (Some (VBool (payment_exceeds (get r "payment_amount")))) r.

(** The environment with another answer of the catalog for one table. *)
Definition with_table (E : Env) (t : string) (o : option DataFrame) : Env :=
  mkEnv (parse_int E) (parse_double E)
        (fun n => if String.eqb n t then o else catalog E n)
        (sink_ok E) (today E).

(** The environment with another fate for the write of one dataset. *)
Definition with_sink (E : Env) (n : string) (b : bool) : Env :=
  mkEnv (parse_int E) (parse_double E) (catalog E)
        (fun m => if String.eqb m n then b else sink_ok E m) (today E).

(** The schemas agree on which of these columns they have. *)
Definition same_columns (cs s1 s2 : list string) : bool :=
  forallb (fun c => Bool.eqb (has_column c s1) (has_column c s2)) cs.

Definition optional_common : list string :=
  ["desynpuf_id"; "clm_id"; "bronze_load_timestamp"].

(** A source that cannot be loaded leaves the outputs that read it absent. *)
Definition unavailable_is_absent (E : Env) : Prop :=
  (forall t, catalog E t = None ->
     load_bronze_table E t = (None, [CouldNotLoad t])
     /\ severity_of (CouldNotLoad t) = Warning)
  /\ (catalog E "beneficiary" = None -> beneficiary_scd (run E) = None)
  /\ (catalog E "prescription" = None -> prescription_clean (run E) = None)
  /\ (catalog E "inpatient" = None ->
      inpatient_clean (run E) = None /\ diagnosis_normalized (run E) = None)
  /\ (catalog E "outpatient" = None -> outpatient_clean (run E) = None)
  /\ (catalog E "carrier" = None -> carrier_clean (run E) = None).

(** A branch whose body raises returns nothing and prints its error. *)
Definition raising_is_absent (E : Env) : Prop :=
  (forall df, fst (beneficiary_body E df) = None ->
     beneficiary_branch E (Some df)
     = (None, snd (beneficiary_body E df) ++ [BeneficiaryError]))
  /\ (forall df ct, fst (clean_claims_body E df ct) = None ->
     clean_claims_data E (Some df) ct
     = (None, snd (clean_claims_body E df ct) ++ [CleaningError ct]))
  /\ (forall i o c, fst (claims_unified_body E i o c) = None ->
     claims_unified_branch E i o c
     = (None, snd (claims_unified_body E i o c) ++ [UnifiedError]))
  /\ (forall df, fst (prescription_body E df) = None ->
     prescription_branch E (Some df)
     = (None, snd (prescription_body E df) ++ [PrescriptionError]))
  /\ (forall i, fst (diagnosis_body E i) = None ->
     diagnosis_branch E (Some i)
     = (None, snd (diagnosis_body E i) ++ [DiagnosisError])).

(** An output is the same whatever happens to a table it does not read or
    to the write of another dataset. *)
Definition others_unaffected (E : Env) : Prop :=
  forall t o n b,
    let E' := with_sink (with_table E t o) n b in
    (String.eqb "beneficiary" t = false -> String.eqb "beneficiary_clean" n = false ->
       beneficiary_scd (run E') = beneficiary_scd (run E))
    /\ (String.eqb "prescription" t = false -> String.eqb "prescriptions_clean" n = false ->
       prescription_clean (run E') = prescription_clean (run E))
    /\ (String.eqb "inpatient" t = false -> String.eqb "diagnosis_normalized" n = false ->
       diagnosis_normalized (run E') = diagnosis_normalized (run E))
    /\ (String.eqb "inpatient" t = false -> String.eqb "outpatient" t = false ->
        String.eqb "carrier" t = false -> String.eqb "claims_unified" n = false ->
       claims_unified (run E') = claims_unified (run E)).

End Properties.

(** ** A small run *)
Module Examples.
Import Spark Silver Properties.

(** Whole numbers, for the engine's reading of numbers in strings. *)
Definition whole_number (s : string) : option Z :=
  match s with
  | EmptyString => None
  | _ => Calendar.digits_value 0 s
  end.

Definition whole_double (s : string) : option float :=
  option_map Dbl.of_Z (whole_number s).

Definition text (s : string) : cell := Some (VStr s).

(** A snapshot of a beneficiary: two indicators present, one not, the others
    not in the schema. *)
Definition snapshot (id : string) (ts day : Z) : Row :=
  [("desynpuf_id", text id); ("bene_birth_dt", text "19400101");
   ("bene_death_dt", None); ("bene_sex_ident_cd", text "1");
   ("bene_race_cd", text "2"); ("sp_chf", text "1"); ("sp_copd", text "1");
   ("sp_diabetes", text "2");
   ("bronze_load_timestamp", Some (VTs ts)); ("bronze_load_date", Some (VDate day))].

Definition beneficiary : DataFrame :=
  mkDF ["desynpuf_id"; "bene_birth_dt"; "bene_death_dt"; "bene_sex_ident_cd";
        "bene_race_cd"; "sp_chf"; "sp_copd"; "sp_diabetes";
        "bronze_load_timestamp"; "bronze_load_date"]
       [snapshot "A" 300 14003; snapshot "B" 100 14001;
        snapshot "A" 100 14001; snapshot "A" 200 14002].

Definition claim (id : string) (from thru : string) (pmt : cell) (ts : Z) : Row :=
  [("desynpuf_id", text "A"); ("clm_id", text id); ("clm_from_dt", text from);
   ("clm_thru_dt", text thru); ("clm_pmt_amt", pmt);
   ("bronze_load_timestamp", Some (VTs ts))].

Definition claim_columns : list string :=
  ["desynpuf_id"; "clm_id"; "clm_from_dt"; "clm_thru_dt"; "clm_pmt_amt";
   "bronze_load_timestamp"].

Definition inpatient : DataFrame :=
  mkDF (claim_columns ++ ["icd9_dgns_cd_1"; "icd9_dgns_cd_2"])
       [claim "1" "20080101" "20080105" (text "15000") 100
          ++ [("icd9_dgns_cd_1", text "250.00"); ("icd9_dgns_cd_2", text "")]].

Definition outpatient : DataFrame :=
  mkDF claim_columns
       [claim "2" "20080301" "20080301" (text "500") 100;
        claim "3" "20080401" "20080402" None 100].

Definition prescription : DataFrame :=
  mkDF ["desynpuf_id"; "pde_id"; "srvc_dt"; "qty_dspnsd_num"; "days_suply_num";
        "tot_rx_cst_amt"; "ptnt_pay_amt"]
       [[("desynpuf_id", text "A"); ("pde_id", text "1"); ("srvc_dt", text "20080101");
         ("qty_dspnsd_num", text "30"); ("days_suply_num", text "0");
         ("tot_rx_cst_amt", text "300"); ("ptnt_pay_amt", None)];
        [("desynpuf_id", text "A"); ("pde_id", text "2"); ("srvc_dt", text "20080201");
         ("qty_dspnsd_num", text "30"); ("days_suply_num", text "30");
         ("tot_rx_cst_amt", text "300"); ("ptnt_pay_amt", text "5")]].

(** The carrier claims cannot be loaded. *)
Definition tables (t : string) : option DataFrame :=
  if String.eqb t "beneficiary" then Some beneficiary
  else if String.eqb t "inpatient" then Some inpatient
  else if String.eqb t "outpatient" then Some outpatient
  else if String.eqb t "prescription" then Some prescription
  else None.

Definition env : Env := mkEnv whole_number whole_double tables (fun _ => true) 20000.

Definition or_empty (o : option DataFrame) : DataFrame :=
  match o with Some d => d | None => mkDF [] [] end.

Definition unified : DataFrame := Eval vm_compute in or_empty (claims_unified (run env)).
Definition inpatient_cleansed : DataFrame :=
  Eval vm_compute in or_empty (inpatient_clean (run env)).
Definition prescriptions : DataFrame :=
  Eval vm_compute in or_empty (prescription_clean (run env)).

Definition first_row (d : DataFrame) : Row := hd [] (rows d).
Definition last_row (d : DataFrame) : Row := last (rows d) [].

(** The prescriptions without the patient-pay column. *)
Definition drop_column (c : string) (d : DataFrame) : DataFrame :=
  mkDF (filter (fun k => negb (String.eqb k c)) (columns d))
       (map (filter (fun kv => negb (String.eqb (fst kv) c))) (rows d)).

Definition env_without_patient_pay : Env :=
  with_table env "prescription" (Some (drop_column "ptnt_pay_amt" prescription)).

(** The inpatient claims without the load timestamp. *)
Definition env_without_inpatient_timestamp : Env :=
  with_table env "inpatient" (Some (drop_column "bronze_load_timestamp" inpatient)).

End Examples.

(** ** The summary of the run

    The four counts that the job prints when it ends: the records of each
    written output, 0 for an output that is absent. *)
Module Report.
Import Spark Silver.

Definition count_or_zero (o : option DataFrame) : nat :=
  match o with
  | Some d => count d
  | None => 0%nat
  end.

Record Summary : Type := mkSummary {
  beneficiary_scd_records : nat;
  unified_claims : nat;
  prescriptions : nat;
  normalized_diagnoses : nat
}.

Definition summary (o : Outputs) : Summary :=
  mkSummary (count_or_zero (beneficiary_scd o)) (count_or_zero (claims_unified o))
            (count_or_zero (prescription_clean o)) (count_or_zero (diagnosis_normalized o)).

End Report.

(** ** What the branches do to a row

    The notions in which the behaviour of the branches is stated, beyond the
    claims of the specification. *)
Module Behaviour.
Import Spark Silver Properties.

(** A source row with the row that comes out of it, position by position. *)
Definition paired (df out : DataFrame) : list (Row * Row) :=
  combine (rows df) (rows out).

(** A row seen through some of its columns. *)
Definition restrict (cs : list string) (r : Row) : Row :=
  map (fun c => (c, get r c)) cs.

Definition claim_date_columns : list string := ["clm_from_dt"; "clm_thru_dt"].

Definition required_prescription_columns : list string :=
  ["srvc_dt"; "qty_dspnsd_num"; "days_suply_num"; "tot_rx_cst_amt"; "ptnt_pay_amt"].

Definition prescription_touched : list string :=
  ["srvc_dt"; "prescription_year"; "prescription_month"; "qty_dispensed";
   "days_supply"; "total_cost"; "patient_pay"; "cost_per_day"].

(** The columns that the beneficiary branch sets. *)
Definition beneficiary_set : list string :=
  beneficiary_touched ++ ["effective_start_date"; "effective_end_date"; "is_current"].

Definition gender_of (code : string) : string :=
  if String.eqb code "1" then "Male"
  else if String.eqb code "2" then "Female"
  else "Unknown".

Definition race_of (code : string) : string :=
  if String.eqb code "1" then "White"
  else if String.eqb code "2" then "Black"
  else if String.eqb code "3" then "Other"
  else if String.eqb code "5" then "Hispanic"
  else "Unknown".

(** [floor(datediff(current_date(), birth) / 365.25)] *)
Definition age_of (today : Z) (birth : cell) : cell :=
  sql_floor (sql_div (sql_datediff (Some (VDate today)) birth) (Some (VDbl 365.25%float))).

(** The date that a date code names: its year, month and day digits. *)
Definition date_digits (s : string) : option (Z * Z * Z) :=
  if Nat.eqb (String.length s) 8 then
    match Calendar.digits_value 0 (substring 0 4 s),
          Calendar.digits_value 0 (substring 4 2 s),
          Calendar.digits_value 0 (substring 6 2 s) with
    | Some y, Some m, Some d => Some (y, m, d)
    | _, _, _ => None
    end
  else None.

(** A date of the calendar, in the years that [DateType] reads. *)
Definition calendar_date (y m d : Z) : bool :=
  (1 <=? y) && (y <=? 9999) && (1 <=? m) && (m <=? 12)
  && (1 <=? d) && (d <=? Calendar.days_in_month y m).

(** A name in lower case: ASCII, with no capital letter. *)
Definition lower_case (c : string) : bool :=
  forallb (fun a => let n := nat_of_ascii a in
                    (n <? 128)%nat && negb ((65 <=? n)%nat && (n <=? 90)%nat))
          (list_ascii_of_string c).

Fixpoint distinct (l : list string) : bool :=
  match l with
  | [] => true
  | c :: l' => negb (has_column c l') && distinct l'
  end.

(** Column names as the catalog has them: in lower case, each once. The
    analyzer resolves a name without regard to case and rejects a name that
    two columns answer to; on such names it resolves as [col] does, by the
    exact name. *)
Definition catalog_names (schema : list string) : bool :=
  forallb lower_case schema && distinct schema.

(** A date column: its values are dates or NULL, and a date at least once. *)
Definition date_or_null (a : cell) : bool :=
  match a with
  | None | Some (VDate _) => true
  | Some _ => false
  end.

Definition date_column (c : string) (df : DataFrame) : bool :=
  forallb (fun r => date_or_null (get r c)) (rows df)
  && existsb (fun r => is_date (get r c)) (rows df).

(** [patient_pay] of the patient-pay amount of the source. *)
Definition patient_pay_of (E : Env) (amount : cell) : cell :=
  if is_null amount then Some (VDbl 0%float) else cast_double (parse_double E) amount.

(** The columns of a claim that the unpivoter copies. *)
Definition diagnosis_key_columns : list string := ["desynpuf_id"; "clm_id"; "clm_from_dt"].

(** The cleansed types that are there, in the order of the unifier. *)
Definition available (l : list (option DataFrame)) : list DataFrame :=
  flat_map (fun o => match o with Some d => [d] | None => [] end) l.

(** The rows of a cleansed type on the common columns that it has. *)
Definition projection (d : DataFrame) : list Row :=
  map (common_fields (columns d)) (rows d).

(** The projection of a cleansed type, as the unifier selects it. *)
Definition projected (d : DataFrame) : DataFrame :=
  mkDF (present_common (columns d)) (projection d).

(** The cleansed types of a run that are there. *)
Definition cleansed_types (o : Outputs) : list DataFrame :=
  available [inpatient_clean o; outpatient_clean o; carrier_clean o].

(** The type names of the rows of the cleansed types, type after type. *)
Definition type_labels (o : Outputs) : list cell :=
  flat_map (fun p => match fst p with
                     | Some d => repeat (Some (VStr (snd p))) (count d)
                     | None => []
                     end)
           [(inpatient_clean o, "inpatient"); (outpatient_clean o, "outpatient");
            (carrier_clean o, "carrier")].

(** A cleansed type: it has the columns that cleansing sets, and its rows
    carry the name of the type. *)
Definition typed (ct : string) (d : DataFrame) : Prop :=
  (forall c, has_column c clean_touched = true -> has_column c (columns d) = true)
  /\ forall r, In r (rows d) -> get r "claim_type" = Some (VStr ct).

Definition total_count (l : list DataFrame) : nat :=
  fold_right (fun d n => (count d + n)%nat) 0%nat l.

(** The lines that the unifier prints for the types it adds. *)
Definition added (i o c : option DataFrame) : list message :=
  flat_map (fun p => match fst p with
                     | Some d => [Added (snd p) (count d)]
                     | None => []
                     end)
           [(i, "inpatient"); (o, "outpatient"); (c, "carrier")].

(** The rows of a table of the catalog, 0 for a table that is not loaded. *)
Definition loaded (E : Env) (t : string) : nat := Report.count_or_zero (catalog E t).

(** The line of [load_bronze_table] for a table. *)
Definition load_line (E : Env) (t : string) : message :=
  match catalog E t with
  | Some df => Loaded t (count df)
  | None => CouldNotLoad t
  end.

(** The columns of a claims source that the job reads in every type. *)
Definition claim_source_columns : list string :=
  ["desynpuf_id"; "clm_id"; "clm_from_dt"; "clm_thru_dt"; "bronze_load_timestamp"].

(** Sources that have all that the job reads: the five tables are loaded,
    each with the columns that its branch names, the inpatient claims with a
    diagnosis slot, and every write goes through. *)
Definition conforming (E : Env) (b i o c p : DataFrame) : Prop :=
  catalog E "beneficiary" = Some b /\ catalog E "inpatient" = Some i
  /\ catalog E "outpatient" = Some o /\ catalog E "carrier" = Some c
  /\ catalog E "prescription" = Some p
  /\ has_columns required_beneficiary_columns (columns b) = true
  /\ has_columns claim_source_columns (columns i) = true
  /\ has_columns claim_source_columns (columns o) = true
  /\ has_columns claim_source_columns (columns c) = true
  /\ filter diagnosis_slot (columns i) <> []
  /\ has_columns required_prescription_columns (columns p) = true
  /\ forall n, sink_ok E n = true.

(** The integers [a], [a + 1], ..., [a + n - 1]. *)
Definition zrange (a : Z) (n : nat) : list Z := map (fun i => a + Z.of_nat i) (seq 0 n).

(** One cycle of 400 years of the calendar, date by date: the day number of
    a date falls in the cycle and reads back as the date. *)
Definition cycle_date_ok (yoe m d : Z) : bool :=
  let y := yoe + (if m <=? 2 then 1 else 0) in
  if d <=? Calendar.days_in_month y m then
    let z := Calendar.days_from_civil y m d in
    (0 <=? z + 719468) && (z + 719468 <? 146097)
    && (let '(y', m', d') := Calendar.civil_from_days z in
        (y' =? y) && (m' =? m) && (d' =? d))
  else true.

End Behaviour.

(** ** More runs *)
Module Cases.
Import Spark Silver Properties.

(** A claim without a from-date code. *)
Definition undated : DataFrame :=
  mkDF Examples.claim_columns
       [[("desynpuf_id", Examples.text "A"); ("clm_id", Examples.text "7");
         ("clm_from_dt", None); ("clm_thru_dt", Examples.text "20080131");
         ("clm_pmt_amt", Examples.text "500"); ("bronze_load_timestamp", Some (VTs 100))]].

(** Two beneficiaries: one with a death date, a gender code "2" and a race
    code that is not listed; one with an empty birth and death date code and
    no gender code. *)
Definition registrant (id birth death : string) (sex : cell) (race : string) : Row :=
  [("desynpuf_id", Examples.text id); ("bene_birth_dt", Examples.text birth);
   ("bene_death_dt", Examples.text death); ("bene_sex_ident_cd", sex);
   ("bene_race_cd", Examples.text race);
   ("bronze_load_timestamp", Some (VTs 100)); ("bronze_load_date", Some (VDate 14001))].

Definition registrants : DataFrame :=
  mkDF ["desynpuf_id"; "bene_birth_dt"; "bene_death_dt"; "bene_sex_ident_cd";
        "bene_race_cd"; "bronze_load_timestamp"; "bronze_load_date"]
       [registrant "C" "19400101" "20090215" (Examples.text "2") "4";
        registrant "D" "" "" None "5"].

(** A beneficiary with two snapshots, the later one without a load date. *)
Definition late_loads : DataFrame :=
  mkDF (columns registrants)
       [[("desynpuf_id", Examples.text "F"); ("bene_birth_dt", Examples.text "19400101");
         ("bene_death_dt", None); ("bene_sex_ident_cd", Examples.text "1");
         ("bene_race_cd", Examples.text "1");
         ("bronze_load_timestamp", Some (VTs 100)); ("bronze_load_date", Some (VDate 14001))];
        [("desynpuf_id", Examples.text "F"); ("bene_birth_dt", Examples.text "19400101");
         ("bene_death_dt", None); ("bene_sex_ident_cd", Examples.text "1");
         ("bene_race_cd", Examples.text "1");
         ("bronze_load_timestamp", Some (VTs 200)); ("bronze_load_date", None)]].

Definition late_load_versions : DataFrame :=
  Eval vm_compute in
    Examples.or_empty (fst (beneficiary_branch Examples.env (Some late_loads))).

Definition registrant_versions : DataFrame :=
  Eval vm_compute in
    Examples.or_empty (fst (beneficiary_branch Examples.env (Some registrants))).

(** A beneficiary whose indicators are integers: two present, one not. *)
Definition coded_snapshot : Row :=
  [("desynpuf_id", Examples.text "E"); ("bene_birth_dt", Examples.text "19400101");
   ("bene_death_dt", None); ("bene_sex_ident_cd", Examples.text "1");
   ("bene_race_cd", Examples.text "2"); ("sp_chf", Some (VInt 1));
   ("sp_copd", Some (VInt 1)); ("sp_diabetes", Some (VInt 2));
   ("bronze_load_timestamp", Some (VTs 100)); ("bronze_load_date", Some (VDate 14001))].

Definition coded_beneficiary : DataFrame :=
  mkDF (columns Examples.beneficiary) [coded_snapshot].

Definition env_coded : Env :=
  with_table Examples.env "beneficiary" (Some coded_beneficiary).

(** The run of the examples with carrier claims. *)
Definition env_with_carrier : Env :=
  with_table Examples.env "carrier" (Some Examples.outpatient).

Definition undated_cleansed : DataFrame :=
  Eval vm_compute in
    Examples.or_empty (fst (clean_claims_data Examples.env (Some undated) "outpatient")).

End Cases.

(** ** Facts about the DataFrame fragment *)
Module SparkFacts.
Import Spark Properties.

Lemma get_set_field c v r c' :
  get (set_field c v r) c' = if String.eqb c c' then v else get r c'.
Proof.
  induction r as [|[k x] r IH]; simpl.
  - reflexivity.
  - destruct (String.eqb_spec k c) as [->|Hkc]; simpl.
    + destruct (String.eqb c c'); reflexivity.
    + rewrite IH. destruct (String.eqb_spec k c') as [->|Hkc'].
      * destruct (String.eqb_spec c c') as [->|_]; [congruence|reflexivity].
      * reflexivity.
Qed.

Lemma has_column_app c s t : has_column c (s ++ t) = has_column c s || has_column c t.
Proof. unfold has_column. apply existsb_app. Qed.

Lemma has_column_add_column c' c s :
  has_column c' (add_column c s) = has_column c' s || String.eqb c' c.
Proof.
  unfold add_column. destruct (has_column c s) eqn:Hc.
  - destruct (String.eqb_spec c' c) as [->|_].
    + rewrite Hc. reflexivity.
    + now rewrite orb_false_r.
  - rewrite has_column_app. simpl. now rewrite orb_false_r.
Qed.

Lemma withColumn_Some c e df d :
  withColumn c e df = Some d ->
  exists f, e (columns df) = Some f /\
    d = mkDF (add_column c (columns df)) (map (fun r => set_field c (f r) r) (rows df)).
Proof.
  unfold withColumn. destruct (e (columns df)) as [f|]; [|discriminate].
  intros [= <-]. now exists f.
Qed.

(** *** Grouping keys: [cell_eqb] is an equivalence *)
Lemma sf_eqb_eq a b : Dbl.sf_eqb a b = true <-> a = b.
Proof.
  destruct a, b; cbn; try (split; [discriminate|congruence]);
    try (rewrite Bool.eqb_true_iff; split; congruence).
  - tauto.
  - rewrite !andb_true_iff, Bool.eqb_true_iff, Pos.eqb_eq, Z.eqb_eq.
    split; [intros [[-> ->] ->]; reflexivity | intros [= -> -> ->]; auto].
Qed.

Lemma value_eqb_refl a : value_eqb a a = true.
Proof.
  destruct a; cbn; auto using String.eqb_refl, Z.eqb_refl, Bool.eqb_reflx.
  now apply sf_eqb_eq.
Qed.

Lemma value_eqb_sym a b : value_eqb a b = value_eqb b a.
Proof.
  destruct a, b; cbn; auto using String.eqb_sym, Z.eqb_sym.
  - unfold Dbl.same. apply eq_true_iff_eq. rewrite !sf_eqb_eq. split; congruence.
  - now destruct b, b0.
Qed.

Lemma value_eqb_trans a b c :
  value_eqb a b = true -> value_eqb b c = true -> value_eqb a c = true.
Proof.
  destruct a, b; cbn; try discriminate; destruct c; cbn; try discriminate.
  - rewrite !String.eqb_eq. congruence.
  - rewrite !Z.eqb_eq. congruence.
  - unfold Dbl.same. rewrite !sf_eqb_eq. congruence.
  - rewrite !Z.eqb_eq. congruence.
  - rewrite !Z.eqb_eq. congruence.
  - rewrite !Bool.eqb_true_iff. congruence.
Qed.

Lemma cell_eqb_refl a : cell_eqb a a = true.
Proof. destruct a; cbn; auto using value_eqb_refl. Qed.

Lemma cell_eqb_sym a b : cell_eqb a b = cell_eqb b a.
Proof. destruct a, b; cbn; auto using value_eqb_sym. Qed.

Lemma cell_eqb_trans a b c :
  cell_eqb a b = true -> cell_eqb b c = true -> cell_eqb a c = true.
Proof.
  destruct a, b; cbn; try discriminate; destruct c; cbn; try discriminate; auto.
  apply value_eqb_trans.
Qed.

(** Cells of one group are interchangeable as keys. *)
Lemma cell_eqb_congr a b c : cell_eqb a b = true -> cell_eqb c a = cell_eqb c b.
Proof.
  intros Hab. destruct (cell_eqb c a) eqn:Hca.
  - symmetry. eapply cell_eqb_trans; eauto.
  - destruct (cell_eqb c b) eqn:Hcb; [|reflexivity].
    rewrite cell_eqb_sym in Hab. rewrite <- Hca. eapply cell_eqb_trans; eauto.
Qed.

Lemma distinct_keys_count b l :
  List.length (filter (cell_eqb b) (distinct_keys l))
  = if existsb (cell_eqb b) l then 1%nat else 0%nat.
Proof.
  induction l as [|k l IH]; [reflexivity|]. cbn [distinct_keys existsb].
  destruct (existsb (cell_eqb k) l) eqn:Hk.
  - rewrite IH. destruct (cell_eqb b k) eqn:Hbk; [|reflexivity].
    cbn. apply existsb_exists in Hk as (x & Hx & Hkx).
    replace (existsb (cell_eqb b) l) with true; [reflexivity|].
    symmetry. apply existsb_exists. exists x. split; [exact Hx|].
    eapply cell_eqb_trans; eauto.
  - cbn [filter]. destruct (cell_eqb b k) eqn:Hbk; cbn [orb].
    + cbn [List.length]. rewrite IH.
      destruct (existsb (cell_eqb b) l) eqn:Hb; [|reflexivity].
      apply existsb_exists in Hb as (x & Hx & Hbx).
      assert (existsb (cell_eqb k) l = true); [|congruence].
      apply existsb_exists. exists x. split; [exact Hx|].
      rewrite cell_eqb_sym in Hbk. eapply cell_eqb_trans; eauto.
    + exact IH.
Qed.

Lemma flat_map_one {A B} (sel : A -> bool) (H : A -> list B) (X : list B) ks :
  (forall k, In k ks -> H k = if sel k then X else []) ->
  flat_map H ks = List.concat (map (fun _ => X) (filter sel ks)).
Proof.
  induction ks as [|k ks IH]; intros Hk; [reflexivity|].
  cbn [flat_map filter]. rewrite Hk by now left.
  rewrite IH by (intros; apply Hk; now right).
  now destruct (sel k).
Qed.

Lemma filter_flat_map {A B} (f : B -> bool) (G : A -> list B) ks :
  filter f (flat_map G ks) = flat_map (fun k => filter f (G k)) ks.
Proof.
  induction ks as [|k ks IH]; [reflexivity|]. cbn. now rewrite filter_app, IH.
Qed.

Lemma partition_of_eq p a b l :
  cell_eqb a b = true -> partition_of p a l = partition_of p b l.
Proof.
  intros Hab. unfold partition_of. apply filter_ext. intros r.
  now apply cell_eqb_congr.
Qed.

Lemma filter_all {A} (f : A -> bool) l : (forall x, In x l -> f x = true) -> filter f l = l.
Proof.
  induction l as [|x l IH]; intros H; [reflexivity|]. cbn.
  rewrite H by now left. f_equal. apply IH. intros; apply H; now right.
Qed.

Lemma filter_none {A} (f : A -> bool) l : (forall x, In x l -> f x = false) -> filter f l = [].
Proof.
  induction l as [|x l IH]; intros H; [reflexivity|]. cbn.
  rewrite H by now left. apply IH. intros; apply H; now right.
Qed.

Lemma partition_of_In p k l r :
  In r (partition_of p k l) <-> In r l /\ cell_eqb (get r p) k = true.
Proof. apply filter_In. Qed.

(** A partition-wise operation [F] that keeps the key of the rows it is given
    can be read partition by partition. *)
Lemma partition_of_flat_map p b (F : list Row -> list Row) l :
  F [] = [] ->
  (forall k r, In r (F (partition_of p k l)) -> cell_eqb (get r p) k = true) ->
  partition_of p b
    (flat_map (fun k => F (partition_of p k l)) (distinct_keys (map (fun r => get r p) l)))
  = F (partition_of p b l).
Proof.
  intros Hnil Hkey. unfold partition_of at 1. rewrite filter_flat_map.
  rewrite (flat_map_one (cell_eqb b) _ (F (partition_of p b l))).
  - pose proof (distinct_keys_count b (map (fun r => get r p) l)) as Hc.
    destruct (filter (cell_eqb b) _) as [|k [|k' ks]] eqn:Hf.
    + cbn. destruct (existsb _ _) eqn:Hex; [discriminate Hc|].
      symmetry. replace (partition_of p b l) with (@nil Row); [exact Hnil|].
      symmetry. apply filter_none. intros r Hr.
      destruct (cell_eqb (get r p) b) eqn:Hrb; [|reflexivity].
      assert (existsb (cell_eqb b) (map (fun r => get r p) l) = true); [|congruence].
      apply existsb_exists. exists (get r p). split; [exact (in_map (fun r => get r p) l r Hr)|].
      now rewrite cell_eqb_sym.
    + cbn. now rewrite app_nil_r.
    + destruct (existsb _ _); discriminate Hc.
  - intros k _. destruct (cell_eqb b k) eqn:Hbk.
    + rewrite (partition_of_eq p b k l Hbk). apply filter_all. intros r Hr.
      apply Hkey in Hr. rewrite cell_eqb_sym in Hbk. eapply cell_eqb_trans; eauto.
    + apply filter_none. intros r Hr. apply Hkey in Hr.
      destruct (cell_eqb (get r p) b) eqn:Hrb; [|reflexivity].
      assert (cell_eqb b k = true); [|congruence].
      rewrite cell_eqb_sym in Hrb. eapply cell_eqb_trans; eauto.
Qed.

Lemma sf_leb_total a b : Dbl.sf_leb a b = false -> Dbl.sf_leb b a = true.
Proof.
  unfold Dbl.sf_leb.
  destruct a as [s|s| |s m e], b as [t|t| |t n f]; cbn;
    try destruct s; try destruct t; cbn; try congruence.
  all: pose proof (Pos.compare_cont_antisym m n Eq) as Hp; cbn in Hp; rewrite <- Hp.
  all: rewrite (Z.compare_antisym e f); destruct (e ?= f); cbn; try congruence.
  all: destruct (Pos.compare_cont Eq m n); cbn; congruence.
Qed.

Lemma dbl_leb_total x y : Dbl.leb x y = false -> Dbl.leb y x = true.
Proof. apply sf_leb_total. Qed.

Lemma value_leb_total a b : value_leb a b = false -> value_leb b a = true.
Proof.
  destruct a, b; cbn; try discriminate; try reflexivity; try lia.
  - destruct (String.leb_total s s0); congruence.
  - apply dbl_leb_total.
  - destruct b, b0; cbn; congruence.
Qed.

Lemma cell_leb_total a b : cell_leb a b = false -> cell_leb b a = true.
Proof.
  destruct a, b; cbn; try discriminate; try reflexivity. apply value_leb_total.
Qed.

Lemma insert_by_perm o r l : Permutation (insert_by o r l) (r :: l).
Proof.
  induction l as [|x l IH]; cbn; [reflexivity|].
  destruct (cell_leb _ _); [reflexivity|].
  rewrite IH. apply perm_swap.
Qed.

Lemma window_order_perm o l : Permutation (window_order o l) l.
Proof.
  induction l as [|r l IH]; cbn; [reflexivity|].
  rewrite insert_by_perm. now constructor.
Qed.

Lemma insert_by_ascending o r l : ascending o l -> ascending o (insert_by o r l).
Proof.
  unfold ascending. induction l as [|x l IH]; intros Hs; cbn.
  - repeat constructor.
  - destruct (cell_leb (get r o) (get x o)) eqn:Hrx.
    + constructor; [exact Hs|]. now constructor.
    + apply cell_leb_total in Hrx. inversion Hs as [|? ? Hs' Hhd]; subst.
      constructor; [now apply IH|].
      destruct l as [|y l]; cbn.
      * now constructor.
      * destruct (cell_leb (get r o) (get y o)); constructor; trivial.
        now inversion Hhd.
Qed.

Lemma window_order_ascending o l : ascending o (window_order o l).
Proof.
  induction l as [|r l IH]; cbn; [constructor|]. now apply insert_by_ascending.
Qed.

Lemma insert_by_map o (h : Row -> Row) r l :
  (forall x, get (h x) o = get x o) ->
  insert_by o (h r) (map h l) = map h (insert_by o r l).
Proof.
  intros Hh. induction l as [|x l IH]; cbn; [reflexivity|].
  rewrite !Hh. destruct (cell_leb _ _); cbn; [reflexivity|]. now rewrite IH.
Qed.

Lemma window_order_map o (h : Row -> Row) l :
  (forall x, get (h x) o = get x o) ->
  window_order o (map h l) = map h (window_order o l).
Proof.
  intros Hh. induction l as [|r l IH]; cbn; [reflexivity|].
  now rewrite IH, insert_by_map.
Qed.

Lemma partition_of_map p k (h : Row -> Row) l :
  (forall x, get (h x) p = get x p) ->
  partition_of p k (map h l) = map h (partition_of p k l).
Proof.
  intros Hh. unfold partition_of. induction l as [|r l IH]; cbn; [reflexivity|].
  rewrite Hh. destruct (cell_eqb _ _); cbn; now rewrite IH.
Qed.

Lemma lead_rows_In c src l r :
  In r (lead_rows c src l) -> exists r0 v, In r0 l /\ r = set_field c v r0.
Proof.
  induction l as [|x l IH]; cbn; [tauto|]. intros [<-|H].
  - eauto.
  - apply IH in H as (r0 & v & ? & ?). eauto.
Qed.

Lemma withColumn_lead_Some c src p o df d :
  withColumn_lead c src p o df = Some d ->
  has_column src (columns df) = true /\ has_column p (columns df) = true
  /\ has_column o (columns df) = true
  /\ d = mkDF (add_column c (columns df))
         (flat_map (fun k => lead_rows c src (window_order o (partition_of p k (rows df))))
                   (distinct_keys (map (fun r => get r p) (rows df)))).
Proof.
  unfold withColumn_lead. destruct (_ && _) eqn:Hb; [|discriminate].
  apply andb_prop in Hb as [Hb ?]. apply andb_prop in Hb as [? ?].
  intros [= <-]. auto.
Qed.

(** The rows of one key, after [lead] over the window. *)
Lemma partition_of_lead c src p o b l :
  String.eqb c p = false ->
  partition_of p b
    (flat_map (fun k => lead_rows c src (window_order o (partition_of p k l)))
              (distinct_keys (map (fun r => get r p) l)))
  = lead_rows c src (window_order o (partition_of p b l)).
Proof.
  intros Hcp.
  apply (partition_of_flat_map p b (fun x => lead_rows c src (window_order o x))).
  - reflexivity.
  - intros k r Hr. apply lead_rows_In in Hr as (r0 & v & Hr0 & ->).
    rewrite get_set_field, Hcp.
    apply (Permutation_in _ (window_order_perm o _)) in Hr0.
    now apply partition_of_In in Hr0.
Qed.

Lemma filter_filter {A} (f g : A -> bool) l :
  filter f (filter g l) = filter (fun x => g x && f x) l.
Proof.
  induction l as [|x l IH]; [reflexivity|]. cbn.
  destruct (g x); cbn; [destruct (f x)|]; now rewrite IH.
Qed.

Lemma filter_map_length {A B} (f : A -> B) (p : B -> bool) l :
  List.length (filter (fun x => p (f x)) l) = List.length (filter p (map f l)).
Proof.
  induction l as [|x l IH]; [reflexivity|]. cbn. destruct (p (f x)); cbn; now rewrite IH.
Qed.

Lemma lead_rows_In_source c src l r0 :
  In r0 l -> exists v, In (set_field c v r0) (lead_rows c src l).
Proof.
  induction l as [|x l IH]; cbn; [tauto|]. intros [->|H].
  - eexists. left. reflexivity.
  - destruct (IH H) as [v Hv]. exists v. now right.
Qed.

(** *** Unions of DataFrames of one schema *)
Lemma relabel_fits s r : NoDup s -> map fst r = s -> relabel s s r = r.
Proof.
  intros Hnd <-. unfold relabel. induction r as [|[k v] r IH]; [reflexivity|].
  cbn [map fst combine get]. inversion Hnd as [|? ? Hk Hnd']; subst.
  rewrite String.eqb_refl. f_equal. rewrite <- (IH Hnd') at 3. f_equal.
  apply map_ext_in. intros c Hc. cbn [get].
  destruct (String.eqb_spec k c) as [->|_]; [contradiction|reflexivity].
Qed.

Lemma get_app l1 l2 c :
  get (l1 ++ l2) c = if has_column c (map fst l1) then get l1 c else get l2 c.
Proof.
  induction l1 as [|[k v] l1 IH]; [reflexivity|].
  cbn [app get map fst]. unfold has_column in *. cbn [existsb].
  rewrite (String.eqb_sym c k). destruct (String.eqb k c); [reflexivity|]. exact IH.
Qed.

End SparkFacts.

(** ** The job meets its specification *)
Module SilverFacts.
Import Spark Silver Properties SparkFacts.

Lemma bind_call_Some {A B} (a : A) (k : A -> Try B) : bind (call (Some a)) k = k a.
Proof. unfold bind, call. simpl. now destruct (k a). Qed.

Lemma bind_call_None {A B} (k : A -> Try B) : bind (call None) k = (None, []).
Proof. reflexivity. Qed.

Lemma fst_bind_Some {A B} (x : Try A) (k : A -> Try B) b :
  fst (bind x k) = Some b -> exists a, fst x = Some a /\ fst (k a) = Some b.
Proof.
  unfold bind. destruct (fst x) as [a|]; simpl; [|discriminate].
  intros H. now exists a.
Qed.

Lemma fst_try_except {A} (x : Try A) m : fst (try_except x m) = fst x.
Proof. unfold try_except. now destruct (fst x). Qed.

Lemma fst_branch_Some {A} (x : Try (option A)) m (a : A) :
  match fst (try_except x m) with Some o => o | None => None end = Some a ->
  fst x = Some (Some a).
Proof.
  rewrite fst_try_except. destruct (fst x) as [[b|]|]; congruence.
Qed.

Lemma fst_call {A} (o : option A) : fst (call o) = o.
Proof. reflexivity. Qed.

Lemma fst_write_Some E n d u : fst (write E n d) = Some u -> sink_ok E n = true.
Proof. unfold write. destruct (sink_ok E n); simpl; congruence. Qed.

(** Where the unified output comes from. *)
Lemma claims_unified_branch_Some E i o c u :
  fst (claims_unified_branch E i o c) = Some u ->
  exists l1 l2 df0 dfs u0,
    fst (add_claims i "inpatient" []) = Some l1 /\
    fst (add_claims o "outpatient" l1) = Some l2 /\
    fst (add_claims c "carrier" l2) = Some (df0 :: dfs) /\
    union_all df0 dfs = Some u0 /\
    withColumn "is_high_cost" is_high_cost u0 = Some u /\
    sink_ok E "claims_unified" = true.
Proof.
  unfold claims_unified_branch. cbn [fst]. intros H.
  apply fst_branch_Some in H. unfold claims_unified_body in H.
  apply fst_bind_Some in H as (l1 & H1 & H).
  apply fst_bind_Some in H as (l2 & H2 & H).
  apply fst_bind_Some in H as (l3 & H3 & H).
  destruct l3 as [|df0 dfs]; [discriminate H|].
  apply fst_bind_Some in H as (u0 & Hu & H).
  apply fst_bind_Some in H as (u' & Hw & H).
  apply fst_bind_Some in H as (? & Hs & H).
  apply fst_bind_Some in H as (? & _ & H).
  cbn in H. injection H as <-.
  exists l1, l2, df0, dfs, u0. rewrite fst_call in Hu, Hw.
  repeat split; trivial. eapply fst_write_Some; eauto.
Qed.

Lemma is_true_bool b : is_true (Some (VBool b)) = b.
Proof. now destruct b. Qed.

Lemma exceeds_10000 p :
  is_true (sql_gt p (Some (VInt 10000))) = payment_exceeds p.
Proof.
  destruct p as [[]|]; try reflexivity; cbn -[Z.ltb Dbl.gt]; apply is_true_bool.
Qed.

Lemma is_high_cost_Some s f :
  is_high_cost s = Some f ->
  forall r, f r = Some (VBool (payment_exceeds (get r "payment_amount"))).
Proof.
  unfold is_high_cost, when_otherwise, case_when, gt_, lift2, col, int, boolean, lit.
  cbn [resolve_branches]. destruct (has_column "payment_amount" s); [|discriminate].
  intros [= <-] r. cbn [case_rows]. rewrite exceeds_10000.
  now destruct (payment_exceeds _).
Qed.

Lemma unified_row_high_cost E u r :
  claims_unified (run E) = Some u -> In r (rows u) ->
  get r "is_high_cost" = Some (VBool (payment_exceeds (get r "payment_amount"))).
Proof.
  unfold run. cbn [claims_unified]. intros H Hr.
  apply claims_unified_branch_Some in H as (l1 & l2 & df0 & dfs & u0 & _ & _ & _ & _ & H & _).
  apply withColumn_Some in H as (f & Hf & ->). cbn [rows] in Hr.
  apply in_map_iff in Hr as (r0 & <- & _).
  rewrite !get_set_field. cbn. now apply is_high_cost_Some with (s := columns u0).
Qed.

(** C7. On every row of the unified claims, [is_high_cost] is true exactly
    when [payment_amount] is greater than 10000, strictly: a payment of
    exactly 10000 is not high cost, one of 15000 is and one of 500 is not. *)
Theorem unified_is_high_cost_iff E u r :
  claims_unified (run E) = Some u -> In r (rows u) ->
  get r "is_high_cost" = Some (VBool (payment_exceeds (get r "payment_amount")))
  /\ (forall x, get r "payment_amount" = Some (VDbl x) -> Dbl.is_nan x = false ->
      (get r "is_high_cost" = Some (VBool true) <-> PrimFloat.ltb 10000 x = true))
  /\ payment_exceeds (Some (VDbl 10000)) = false
  /\ payment_exceeds (Some (VDbl 15000)) = true
  /\ payment_exceeds (Some (VDbl 500)) = false.
Proof.
  intros H Hr. pose proof (unified_row_high_cost E u r H Hr) as Hv.
  split; [exact Hv|]. split; [|repeat split].
  intros x Hx Hnan. rewrite Hv, Hx. cbn [payment_exceeds]. unfold Dbl.gt. rewrite Hnan.
  split; [intros [= Hlt]; exact Hlt | intros ->; reflexivity].
Qed.

(** C10. A unified row whose [payment_amount] is NULL, as the cast of a
    missing or unreadable amount leaves it, has [is_high_cost] false; on
    every unified row [is_high_cost] is a boolean, never NULL. *)
Theorem unified_null_payment_not_high_cost E u r :
  claims_unified (run E) = Some u -> In r (rows u) ->
  (get r "payment_amount" = None -> get r "is_high_cost" = Some (VBool false))
  /\ (exists b, get r "is_high_cost" = Some (VBool b))
  /\ cast_double (parse_double E) None = None
  /\ (forall s, parse_double E s = None -> cast_double (parse_double E) (Some (VStr s)) = None).
Proof.
  intros H Hr. pose proof (unified_row_high_cost E u r H Hr) as Hv.
  repeat split.
  - intros Hp. now rewrite Hv, Hp.
  - eauto.
  - intros s Hs. cbn. now rewrite Hs.
Qed.

Ltac step H d :=
  match type of H with
  | fst (bind (call ?o) _) = Some _ =>
      let Hd := fresh "H" d in
      destruct o as [d|] eqn:Hd;
      [rewrite bind_call_Some in H | rewrite bind_call_None in H; discriminate H]
  end.

Ltac analyze H :=
  unfold isNull, isNotNull, eq_, neq_, gt_, and_, add_, div_, floor_, to_date_fmt,
    to_date, datediff, year, month, quarter, when_otherwise, case_when,
    str, int, dbl, boolean, lift1, lift2, col, lit in H;
  cbn [resolve_branches] in H;
  repeat match type of H with
         | context [has_column ?c ?s] =>
             destruct (has_column c s) eqn:?; cbn [resolve_branches] in H
         end;
  try discriminate H.

Ltac with_column H :=
  let f := fresh "f" in
  let Hf := fresh "Hf" in
  apply withColumn_Some in H as (f & Hf & ->); analyze Hf;
  try (injection Hf as <-).

Lemma fst_tail_Some {A} E n (d : DataFrame) m (a b : A) :
  fst (write E n d ;;; print m ;;; ret a) = Some b -> a = b /\ sink_ok E n = true.
Proof.
  intros H. apply fst_bind_Some in H as (? & Hw & H).
  apply fst_bind_Some in H as (? & _ & H). cbn in H.
  split; [congruence|]. eapply fst_write_Some; eauto.
Qed.

Lemma cast_int_shape pi a :
  cast_int pi a = None \/ exists n, cast_int pi a = Some (VInt n).
Proof.
  destruct a as [[]|]; cbn; eauto. destruct (pi s); cbn; eauto.
Qed.

Lemma cast_double_shape pd a :
  cast_double pd a = None \/ exists x, cast_double pd a = Some (VDbl x).
Proof.
  destruct a as [[]|]; cbn; eauto. destruct (pd s); cbn; eauto.
Qed.

(** The guard of the quotient: the division is reached only with a positive
    number of days, and then divides doubles. *)
Lemma guarded_division d t :
  (d = None \/ exists n, d = Some (VInt n)) ->
  (t = None \/ exists x, t = Some (VDbl x)) ->
  (if is_true (sql_and (sql_gt d (Some (VInt 0))) (sql_gt t (Some (VInt 0))))
   then sql_div t d else Some (VDbl 0%float)) = cost_per_day_of d t.
Proof.
  intros [->|[n ->]] [->|[x ->]];
    cbn -[Z.ltb Z.eqb Dbl.gt Dbl.of_Z]; change (Dbl.of_Z 0) with 0%float.
  - reflexivity.
  - now destruct (Dbl.gt x 0).
  - now destruct (0 <? n).
  - destruct (Z.ltb_spec 0 n) as [Hn|Hn]; [|reflexivity].
    destruct (Dbl.gt x 0); cbn -[Z.eqb Dbl.of_Z]; [|reflexivity].
    destruct (Z.eqb_spec n 0); [lia|reflexivity].
Qed.

Lemma prescription_rows E df out :
  fst (prescription_body E df) = Some out ->
  forall r, In r (rows out) ->
    get r "cost_per_day" = cost_per_day_of (get r "days_supply") (get r "total_cost").
Proof.
  unfold prescription_body. intros H.
  step H d1. step H d2. step H d3. step H d4. step H d5. step H d6. step H d7. step H d8.
  apply fst_tail_Some in H as [<- _].
  with_column Hd8. with_column Hd7. with_column Hd6. with_column Hd5.
  clear - E. cbn [rows]. intros r Hr.
  apply in_map_iff in Hr as (r7 & <- & Hr).
  apply in_map_iff in Hr as (r6 & <- & Hr).
  apply in_map_iff in Hr as (r5 & <- & Hr).
  apply in_map_iff in Hr as (r4 & <- & Hr).
  rewrite !get_set_field. cbn -[cast_int cast_double sql_and sql_gt sql_div].
  apply guarded_division; [apply cast_int_shape | apply cast_double_shape].
Qed.

Lemma days_from_civil_range y m d :
  1 <= y <= 9999 -> 1 <= m <= 12 -> 1 <= d <= 31 ->
  -719162 <= Calendar.days_from_civil y m d <= 2932896.
Proof.
  intros Hy Hm Hd. unfold Calendar.days_from_civil.
  destruct (Z.leb_spec m 2); Z.div_mod_to_equations; lia.
Qed.

Lemma days_in_month_le y m : Calendar.days_in_month y m <= 31.
Proof.
  unfold Calendar.days_in_month.
  destruct (m =? 2); [destruct (Calendar.is_leap y); lia|].
  destruct ((m =? 4) || (m =? 6) || (m =? 9) || (m =? 11)); lia.
Qed.

Lemma make_date_range y m d z :
  Calendar.make_date y m d = Some z -> in_range z = true.
Proof.
  unfold Calendar.make_date, in_range.
  destruct (_ && _) eqn:Hb; [|discriminate]. intros [= <-].
  repeat (apply andb_prop in Hb as [Hb ?]).
  pose proof (days_in_month_le y m).
  pose proof (days_from_civil_range y m d). lia.
Qed.

Lemma parse_yyyyMMdd_range s z :
  Calendar.parse_yyyyMMdd s = Some z -> in_range z = true.
Proof.
  unfold Calendar.parse_yyyyMMdd. destruct (Nat.eqb _ _); [|discriminate].
  destruct (Calendar.digits_value 0 (substring 0 4 s)); [|discriminate].
  destruct (Calendar.digits_value 0 (substring 4 2 s)); [|discriminate].
  destruct (Calendar.digits_value 0 (substring 6 2 s)); [|discriminate].
  apply make_date_range.
Qed.

(** A date read from a date code is a date of the years 1 to 9999. *)
Lemma date_code_range a z :
  (exists s, a = Some (VStr s)) \/ (exists n, a = Some (VInt n)) ->
  to_date_yyyyMMdd a = Some (VDate z) -> in_range z = true.
Proof.
  intros [[s ->]|[n ->]]; cbn.
  - destruct (Calendar.parse_yyyyMMdd s) eqn:Hp; [|discriminate].
    intros [= <-]. eapply parse_yyyyMMdd_range; eauto.
  - destruct (_ && _); [|discriminate].
    destruct (Calendar.make_date _ _ _) eqn:Hp; [|discriminate].
    intros [= <-]. eapply make_date_range; eauto.
Qed.

Lemma wrap32_small n : -2147483648 <= n < 2147483648 -> wrap32 n = n.
Proof. intros H. unfold wrap32. Z.div_mod_to_equations. lia. Qed.

Lemma duration_of_dates f t :
  in_range f = true -> in_range t = true ->
  sql_add (sql_datediff (Some (VDate t)) (Some (VDate f))) (Some (VInt 1))
  = Some (VInt (t - f + 1)).
Proof.
  unfold in_range. intros Hf Ht. cbn -[wrap32]. rewrite wrap32_small; [reflexivity|lia].
Qed.

Lemma clean_claims_rows E df ct out :
  fst (clean_claims_body E df ct) = Some out ->
  forall r, In r (rows out) ->
    get r "claim_duration_days"
    = sql_add (sql_datediff (get r "clm_thru_dt") (get r "clm_from_dt")) (Some (VInt 1)).
Proof.
  unfold clean_claims_body. intros H.
  step H d1. step H d2. step H d3. step H d4. step H d5. step H d6. step H d7.
  assert (exists f, out = mkDF (add_column "payment_amount" (columns d7))
                           (map (fun r => set_field "payment_amount" (f r) r) (rows d7)))
    as [f8 ->].
  { destruct (has_column "clm_pmt_amt" (columns d7)); rewrite fst_call in H;
      apply withColumn_Some in H as (f & _ & ->); eauto. }
  clear H. with_column Hd7. with_column Hd6. with_column Hd5. with_column Hd4.
  cbn [rows]. intros r Hr.
  apply in_map_iff in Hr as (r7 & <- & Hr).
  apply in_map_iff in Hr as (r6 & <- & Hr).
  apply in_map_iff in Hr as (r5 & <- & Hr).
  apply in_map_iff in Hr as (r4 & <- & Hr).
  apply in_map_iff in Hr as (r3 & <- & Hr).
  rewrite !get_set_field. reflexivity.
Qed.

Lemma clean_claims_data_Some E src ct out :
  fst (clean_claims_data E src ct) = Some out ->
  exists df, src = Some df /\ fst (clean_claims_body E df ct) = Some out.
Proof.
  destruct src as [df|]; [|discriminate]. cbn [clean_claims_data].
  rewrite fst_try_except. eauto.
Qed.

(** C6. On every cleansed claim whose from and thru dates are read,
    [claim_duration_days] is thru - from + 1, both days counted; it is 0 or
    negative when thru is before from; from 2008-01-01 to 2008-01-05 it is 5.
    The dates are dates of the years 1 to 9999, as every date read from a
    date code is ([date_code_range]). *)
Theorem claim_duration_days_inclusive E out r f t :
  cleansed E out -> In r (rows out) ->
  get r "clm_from_dt" = Some (VDate f) -> get r "clm_thru_dt" = Some (VDate t) ->
  in_range f = true -> in_range t = true ->
  get r "claim_duration_days" = Some (VInt (t - f + 1))
  /\ (t < f -> t - f + 1 <= 0)
  /\ (f = Calendar.days_from_civil 2008 1 1 -> t = Calendar.days_from_civil 2008 1 5 ->
      get r "claim_duration_days" = Some (VInt 5)).
Proof.
  intros Hc Hr Hf Ht Rf Rt.
  assert (exists df ct, fst (clean_claims_body E df ct) = Some out) as (df & ct & Hb).
  { unfold cleansed, run in Hc. cbn [inpatient_clean outpatient_clean carrier_clean] in Hc.
    destruct Hc as [Hc|[Hc|Hc]]; apply clean_claims_data_Some in Hc as (df & _ & Hc); eauto. }
  pose proof (clean_claims_rows E df ct out Hb r Hr) as Hv.
  rewrite Hf, Ht, duration_of_dates in Hv by assumption.
  split; [exact Hv|]. split; [lia|].
  intros -> ->. exact Hv.
Qed.

Lemma rowwise_withColumn c e d d' : withColumn c e d = Some d' -> rowwise [c] d d'.
Proof.
  intros H. apply withColumn_Some in H as (f & _ & ->).
  exists (fun r => set_field c (f r) r). cbn [rows columns]. split; [reflexivity|]. split.
  - intros r c0 Hc. rewrite get_set_field. cbn in Hc. rewrite orb_false_r in Hc.
    rewrite String.eqb_sym in Hc. now rewrite Hc.
  - intros c0. rewrite has_column_add_column. cbn. now rewrite orb_false_r.
Qed.

Lemma rowwise_trans t1 t2 d1 d2 d3 :
  rowwise t1 d1 d2 -> rowwise t2 d2 d3 -> rowwise (t1 ++ t2) d1 d3.
Proof.
  intros (g1 & R1 & G1 & C1) (g2 & R2 & G2 & C2).
  exists (fun r => g2 (g1 r)). split; [|split].
  - now rewrite R2, R1, map_map.
  - intros r c Hc. rewrite has_column_app in Hc. apply orb_false_elim in Hc as [? ?].
    now rewrite G2, G1.
  - intros c. now rewrite C2, C1, has_column_app, orb_assoc.
Qed.

Ltac try_step H d :=
  match type of H with
  | fst (bind ?x _) = Some _ =>
      let Hd := fresh "H" d in
      apply fst_bind_Some in H as (d & Hd & H)
  end.

Lemma standardize_dates_rowwise df d :
  fst (standardize_dates df) = Some d -> rowwise ["bene_birth_dt"; "bene_death_dt"] df d.
Proof.
  unfold standardize_dates. intros H. try_step H d1.
  rewrite fst_call in *.
  apply (rowwise_trans ["bene_birth_dt"] ["bene_death_dt"] df d1 d);
    eapply rowwise_withColumn; eauto.
Qed.

Lemma derived_columns_rowwise E df d :
  fst (derived_columns E df) = Some d ->
  rowwise ["age"; "is_deceased"; "gender"; "race"] df d.
Proof.
  unfold derived_columns. intros H. try_step H d1. try_step H d2. try_step H d3.
  rewrite fst_call in *.
  apply (rowwise_trans ["age"] ["is_deceased"; "gender"; "race"] df d1 d);
    [eapply rowwise_withColumn; eauto|].
  apply (rowwise_trans ["is_deceased"] ["gender"; "race"] d1 d2 d);
    [eapply rowwise_withColumn; eauto|].
  apply (rowwise_trans ["gender"] ["race"] d2 d3 d); eapply rowwise_withColumn; eauto.
Qed.

(** Resolution of the expressions of a statement whose columns are there. *)
Ltac resolve_columns :=
  unfold withColumn, isNull, isNotNull, eq_, neq_, gt_, and_, add_, div_, floor_,
    to_date_fmt, to_date, datediff, year, month, quarter, when_otherwise, case_when,
    sentinel, str, int, dbl, boolean, lift1, lift2, col, lit;
  cbn [columns resolve_branches];
  rewrite ?has_column_add_column;
  cbn [String.eqb Ascii.eqb Bool.eqb];
  rewrite ?orb_false_r, ?orb_true_r;
  repeat match goal with
         | H : has_column ?c ?s = true |- context [has_column ?c ?s] => rewrite H
         end;
  cbn [orb andb].

Lemma standardize_dates_ok df :
  has_column "bene_birth_dt" (columns df) = true ->
  has_column "bene_death_dt" (columns df) = true ->
  exists d, fst (standardize_dates df) = Some d.
Proof.
  intros H1 H2. unfold standardize_dates.
  resolve_columns. rewrite bind_call_Some. resolve_columns. eexists. reflexivity.
Qed.

Lemma derived_columns_ok E df :
  has_column "bene_birth_dt" (columns df) = true ->
  has_column "bene_death_dt" (columns df) = true ->
  has_column "bene_sex_ident_cd" (columns df) = true ->
  has_column "bene_race_cd" (columns df) = true ->
  exists d, fst (derived_columns E df) = Some d.
Proof.
  intros H1 H2 H3 H4. unfold derived_columns.
  resolve_columns. rewrite bind_call_Some.
  resolve_columns. rewrite bind_call_Some.
  resolve_columns. rewrite bind_call_Some.
  resolve_columns. eexists. reflexivity.
Qed.

Lemma flag_value_present a : flag_value a = Some (VInt (if present a then 1 else 0)).
Proof.
  unfold flag_value, present. destruct a as [[s|n| | | |]|]; try reflexivity.
  - cbn. now destruct (String.eqb s "1").
  - change (sql_eq (Some (VInt n)) (Some (VStr "1"))) with (Some (VBool (n =? 1))).
    cbn -[Z.eqb]. now destruct (n =? 1).
Qed.

Lemma chronic_flag_resolves c s :
  has_column c s = true -> chronic_flag c s = Some (fun r => flag_value (get r c)).
Proof.
  intros H. unfold chronic_flag, when_otherwise, case_when, eq_, lift2, col, str, int, lit.
  cbn [resolve_branches]. rewrite H. reflexivity.
Qed.

Lemma chronic_fold_resolves s others :
  (forall c, In c others -> has_column c s = true) ->
  forall acc facc, acc s = Some facc ->
  exists f, fold_left (fun e c => add_ e (chronic_flag c)) others acc s = Some f
    /\ forall r, f r = fold_left (fun v c => sql_add v (flag_value (get r c))) others (facc r).
Proof.
  induction others as [|c others IH]; intros Hs acc facc Hacc; cbn [fold_left].
  - eauto.
  - apply (IH (fun c' Hc' => Hs c' (or_intror Hc'))
              (add_ acc (chronic_flag c))
              (fun r => sql_add (facc r) (flag_value (get r c)))).
    unfold add_, lift2. rewrite Hacc, chronic_flag_resolves by (apply Hs; now left).
    reflexivity.
Qed.

Lemma chronic_fold_value r others :
  forall k, 0 <= k -> k + Z.of_nat (List.length others) < 2147483648 ->
  fold_left (fun v c => sql_add v (flag_value (get r c))) others (Some (VInt k))
  = Some (VInt (k + Z.of_nat (List.length (filter (fun c => present (get r c)) others)))).
Proof.
  induction others as [|c others IH]; intros k Hk Hb; cbn [fold_left filter List.length].
  - now rewrite Z.add_0_r.
  - cbn [List.length] in Hb. rewrite flag_value_present.
    destruct (present (get r c)); cbn [sql_add List.length];
      rewrite wrap32_small by lia; rewrite IH by lia; do 2 f_equal; lia.
Qed.

Lemma with_chronic_condition_count_Some d :
  exists f,
    with_chronic_condition_count d
    = Some (mkDF (add_column "chronic_condition_count" (columns d))
                 (map (fun r => set_field "chronic_condition_count" (f r) r) (rows d)))
    /\ forall r, f r = Some (VInt (chronic_count (columns d) r)).
Proof.
  unfold with_chronic_condition_count.
  pose proof (filter_length_le (fun c => has_column c (columns d)) chronic_cols) as Hlen.
  change (List.length chronic_cols) with 11%nat in Hlen.
  assert (forall c, In c (filter (fun c => has_column c (columns d)) chronic_cols) ->
                    has_column c (columns d) = true) as Hin
    by (intros c Hc; now apply filter_In in Hc).
  assert (forall r, chronic_count (columns d) r
                    = Z.of_nat (List.length
                        (filter (fun c => present (get r c))
                           (filter (fun c => has_column c (columns d)) chronic_cols))))
    as Hcount by (intros r; unfold chronic_count; now rewrite filter_filter).
  destruct (filter (fun c => has_column c (columns d)) chronic_cols) as [|c others].
  - exists (fun _ => Some (VInt 0)). split; [reflexivity|].
    intros r. now rewrite Hcount.
  - destruct (chronic_fold_resolves (columns d) others
                (fun c' Hc' => Hin c' (or_intror Hc'))
                (chronic_flag c) (fun r => flag_value (get r c))) as (f & Hf & Hv).
    { apply chronic_flag_resolves, Hin. now left. }
    exists f. unfold withColumn, chronic_expr. rewrite Hf. split; [reflexivity|].
    intros r. rewrite Hv, Hcount, flag_value_present. cbn [List.length] in Hlen.
    rewrite chronic_fold_value by (destruct (present _); lia).
    cbn [filter]. destruct (present (get r c)); cbn [List.length]; do 2 f_equal; lia.
Qed.

Ltac run_call :=
  match goal with
  | |- fst (@bind ?A ?B (@call _ (Some ?a)) ?k) = _ =>
      let HH := fresh in pose proof (@bind_call_Some A B a k) as HH; rewrite HH; clear HH
  | |- @bind ?A ?B (@call _ (Some ?a)) ?k = _ =>
      let HH := fresh in pose proof (@bind_call_Some A B a k) as HH; rewrite HH; clear HH
  end.

Lemma snd_bind_call {A B} (o : option A) (k : A -> Try B) :
  snd (bind (call o) k) = match o with Some a => snd (k a) | None => [] end.
Proof. now destruct o. Qed.

Lemma snd_standardize_dates df : snd (standardize_dates df) = [].
Proof. unfold standardize_dates. rewrite snd_bind_call. now destruct (withColumn _ _ _). Qed.

Lemma snd_derived_columns E df : snd (derived_columns E df) = [].
Proof.
  unfold derived_columns.
  repeat (rewrite snd_bind_call; destruct (withColumn _ _ _); [|reflexivity]).
  reflexivity.
Qed.

Lemma snd_scd_type2 df : snd (scd_type2 df) = [].
Proof.
  unfold scd_type2.
  rewrite snd_bind_call; destruct (withColumn _ _ _); [|reflexivity].
  rewrite snd_bind_call; destruct (withColumn_lead _ _ _ _ _); [|reflexivity].
  rewrite snd_bind_call; destruct (withColumn _ _ _); reflexivity.
Qed.

Lemma scd_type2_spec d :
  has_column "bronze_load_date" (columns d) = true ->
  has_column "desynpuf_id" (columns d) = true ->
  has_column "bronze_load_timestamp" (columns d) = true ->
  exists out, fst (scd_type2 d) = Some out
    /\ rows out = map close_version (lead_over_window (map start_version (rows d))).
Proof.
  intros H1 H2 H3.
  assert (fst (scd_type2 d)
          = Some (mkDF (add_column "effective_end_date"
                          (add_column "is_current"
                             (add_column "effective_end_date"
                                (add_column "effective_start_date" (columns d)))))
                       (map close_version (lead_over_window (map start_version (rows d))))))
    as Hout; [|eauto].
  unfold scd_type2.
  resolve_columns. run_call.
  unfold withColumn_lead. cbn [columns rows]. rewrite !has_column_add_column, H1, H2, H3.
  cbn [orb andb]. run_call.
  resolve_columns. run_call.
  resolve_columns. cbn [fst call rows]. do 2 f_equal.
  rewrite map_map. apply map_ext. intros r.
  unfold close_version. cbn [case_rows]. rewrite !get_set_field.
  cbn [String.eqb Ascii.eqb Bool.eqb].
  change (to_date_iso (Some (VStr "9999-12-31"))) with (Some (VDate far_future)).
  now destruct (is_null (get r "effective_end_date")).
Qed.

Lemma chronic_count_ext s s' r r' :
  (forall c, In c chronic_cols -> has_column c s' = has_column c s) ->
  (forall c, In c chronic_cols -> get r' c = get r c) ->
  chronic_count s' r' = chronic_count s r.
Proof.
  intros Hs Hr. unfold chronic_count. do 2 f_equal.
  apply filter_ext_in. intros c Hc. now rewrite Hs, Hr.
Qed.

Ltac each_chronic_col H tac :=
  cbn in H;
  repeat (destruct H as [<-|H]; [tac|]); contradiction.

(** The beneficiary branch goes through as soon as the source has the
    columns it names, whatever chronic-condition indicators it carries. *)
Lemma beneficiary_body_spec E df :
  has_columns required_beneficiary_columns (columns df) = true ->
  sink_ok E "beneficiary_clean" = true ->
  exists (g : Row -> Row) out,
    beneficiary_body E df = (Some out, [BeneficiaryProcessed (count out)])
    /\ rows out = map close_version (lead_over_window (map start_version (map g (rows df))))
    /\ (forall r c, has_column c beneficiary_touched = false -> get (g r) c = get r c)
    /\ (forall r, get (g r) "chronic_condition_count"
                  = Some (VInt (chronic_count (columns df) r))).
Proof.
  intros Hc Hs. cbn in Hc. rewrite !andb_true_iff in Hc.
  destruct Hc as (C1 & C2 & C3 & C4 & C5 & C6 & C7 & _).
  destruct (standardize_dates_ok df C2 C3) as (d1 & Hd1).
  destruct (standardize_dates_rowwise df d1 Hd1) as (g1 & R1 & G1 & K1).
  destruct (derived_columns_ok E d1) as (d2 & Hd2);
    try (rewrite K1; cbn; rewrite ?C2, ?C3, ?C4, ?C5; reflexivity).
  destruct (derived_columns_rowwise E d1 d2 Hd2) as (g2 & R2 & G2 & K2).
  destruct (with_chronic_condition_count_Some d2) as (f & Hd3 & Hf).
  set (d3 := mkDF _ _) in Hd3.
  destruct (scd_type2_spec d3) as (out & Hout & Rout);
    try (unfold d3; cbn [columns]; rewrite has_column_add_column, K2, K1; cbn;
         rewrite ?C1, ?C6, ?C7; reflexivity).
  exists (fun r => set_field "chronic_condition_count" (f (g2 (g1 r))) (g2 (g1 r))), out.
  split; [|split; [|split]].
  - unfold beneficiary_body, bind, write, print, ret, call.
    rewrite Hd1, snd_standardize_dates, Hd2, snd_derived_columns, Hd3. cbn [fst snd].
    rewrite Hout, snd_scd_type2, Hs. reflexivity.
  - rewrite Rout. unfold d3. cbn [rows]. now rewrite R2, R1, !map_map.
  - intros r c Hc. rewrite get_set_field.
    change beneficiary_touched with
      (["bene_birth_dt"; "bene_death_dt"] ++ ["age"; "is_deceased"; "gender"; "race"]
         ++ ["chronic_condition_count"]) in Hc.
    rewrite !has_column_app in Hc.
    apply orb_false_elim in Hc as [Ha Hc]. apply orb_false_elim in Hc as [Hb Hc].
    cbn in Hc. rewrite orb_false_r, String.eqb_sym in Hc. rewrite Hc.
    now rewrite G2, G1.
  - intros r. rewrite get_set_field. cbn. rewrite Hf.
    do 2 f_equal. apply chronic_count_ext.
    + intros c Hc. rewrite K2, K1.
      each_chronic_col Hc ltac:(cbn; now rewrite !orb_false_r).
    + intros c Hc. each_chronic_col Hc ltac:(now rewrite G2, G1).
Qed.

Lemma get_close_version r c :
  has_column c ["effective_end_date"; "is_current"] = false ->
  get (close_version r) c = get r c.
Proof.
  intros Hc. cbn in Hc. rewrite orb_false_r in Hc. apply orb_false_elim in Hc as [H1 H2].
  unfold close_version. rewrite !get_set_field.
  rewrite String.eqb_sym, H1, String.eqb_sym, H2. reflexivity.
Qed.

Lemma get_start_version r c :
  String.eqb c "effective_start_date" = false -> get (start_version r) c = get r c.
Proof.
  intros Hc. unfold start_version. rewrite get_set_field, String.eqb_sym, Hc. reflexivity.
Qed.

(** The versions of one beneficiary, from its ordered snapshots. *)
Lemma versions_of_beneficiary (g : Row -> Row) out df b :
  rows out = map close_version (lead_over_window (map start_version (map g (rows df)))) ->
  (forall r c, has_column c beneficiary_touched = false -> get (g r) c = get r c) ->
  partition_of "desynpuf_id" b (rows out)
  = map close_version
      (lead_rows "effective_end_date" "bronze_load_date"
         (map (fun s => start_version (g s)) (ordered_snapshots b df))).
Proof.
  intros Hrows Hg. rewrite Hrows.
  rewrite partition_of_map by (intros x; now apply get_close_version).
  unfold lead_over_window. rewrite partition_of_lead by reflexivity.
  rewrite map_map.
  rewrite partition_of_map
    by (intros x; rewrite get_start_version by reflexivity; now apply Hg).
  rewrite window_order_map
    by (intros x; rewrite get_start_version by reflexivity; now apply Hg).
  reflexivity.
Qed.

Lemma versions_of_lead (g : Row -> Row) w :
  (forall r c, has_column c beneficiary_touched = false -> get (g r) c = get r c) ->
  forallb (fun r => is_date (get r "bronze_load_date")) w = true ->
  map version_of
    (map close_version
       (lead_rows "effective_end_date" "bronze_load_date"
          (map (fun s => start_version (g s)) w)))
  = versions w.
Proof.
  intros Hg. induction w as [|s w IH]; intros Hd; [reflexivity|].
  cbn [forallb] in Hd. apply andb_prop in Hd as [_ Hd].
  cbn [map lead_rows versions]. rewrite (IH Hd). f_equal.
  unfold version_of, close_version. rewrite !get_set_field.
  cbn [String.eqb Ascii.eqb Bool.eqb].
  replace (get (start_version (g s)) "effective_start_date")
    with (get s "bronze_load_date")
    by (unfold start_version; rewrite get_set_field, Hg; reflexivity).
  destruct w as [|n w]; [reflexivity|]. cbn [map].
  rewrite get_start_version, Hg by reflexivity.
  cbn [forallb] in Hd. apply andb_prop in Hd as [Hn _].
  now destruct (get n "bronze_load_date") as [[]|].
Qed.

Lemma versions_length w : List.length (versions w) = List.length w.
Proof. induction w as [|s w IH]; cbn; congruence. Qed.

Lemma versions_nth w i :
  nth_error (versions w) i
  = option_map
      (fun s => (get s "bronze_load_date",
                 match nth_error w (S i) with
                 | Some n => get n "bronze_load_date"
                 | None => Some (VDate far_future)
                 end,
                 Some (VBool (match nth_error w (S i) with None => true | Some _ => false end))))
      (nth_error w i).
Proof.
  revert i. induction w as [|s w IH]; intros [|i]; cbn [versions nth_error option_map];
    try reflexivity.
  - now destruct w.
  - apply IH.
Qed.

Lemma versions_one_current w :
  w <> [] -> List.length (filter current (versions w)) = 1%nat.
Proof.
  induction w as [|s w IH]; [congruence|]. intros _. cbn [versions filter].
  destruct w as [|n w]; [reflexivity|].
  unfold current at 1. cbn [snd is_true]. apply IH. discriminate.
Qed.

Lemma versions_no_overlap w vs :
  forallb (fun r => is_date (get r "bronze_load_date")) w = true ->
  map version_of vs = versions w ->
  nondecreasing_dates w -> no_overlap vs.
Proof.
  intros Hd Hv Hmono i j vi vj Hij Hi Hj.
  pose proof (map_nth_error version_of i vs Hi) as Vi.
  pose proof (map_nth_error version_of j vs Hj) as Vj.
  rewrite Hv, versions_nth in Vi, Vj.
  destruct (nth_error w i) as [si|] eqn:Wi; [|discriminate].
  destruct (nth_error w j) as [sj|] eqn:Wj; [|discriminate].
  rewrite forallb_forall in Hd.
  assert (exists dj, get sj "bronze_load_date" = Some (VDate dj)) as [dj Dj].
  { pose proof (Hd sj (nth_error_In _ _ Wj)) as D.
    destruct (get sj "bronze_load_date") as [[]|]; try discriminate. eauto. }
  destruct (nth_error w (S i)) as [n|] eqn:Wn.
  - assert (exists dn, get n "bronze_load_date" = Some (VDate dn)) as [dn Dn].
    { pose proof (Hd n (nth_error_In _ _ Wn)) as D.
      destruct (get n "bronze_load_date") as [[]|]; try discriminate. eauto. }
    cbn [option_map] in Vi, Vj. injection Vi as _ Ei _. injection Vj as Sj _ _.
    exists dn, dj. rewrite <- Ei, <- Sj. repeat split; trivial.
    destruct (Nat.eq_dec (S i) j) as [<-|Hne].
    + assert (dn = dj) by congruence. lia.
    + apply (Hmono (S i) j n sj dn dj); trivial. lia.
  - apply nth_error_None in Wn.
    assert (nth_error w j <> None) as Hj' by congruence.
    apply nth_error_Some in Hj'. lia.
Qed.

(** C1. For every beneficiary id, with its snapshots in the order of the
    window (ascending load timestamp), the history builder emits one version
    per snapshot: it starts at the load date of the snapshot, ends at the load
    date of the next snapshot, or at 9999-12-31 for the last one, and is
    current exactly when the snapshot is the last ([versions]). Hence exactly
    one version of a beneficiary is current; three snapshots with load dates
    d1 < d2 < d3 give the versions (d1, d2, false), (d2, d3, false) and
    (d3, 9999-12-31, true); and no version runs into a later one when the
    load dates do not decrease along the window. The source has the columns
    the branch names and a load date on every snapshot; rows with the same
    load timestamp keep the order of the source, which Spark leaves open. *)
Theorem beneficiary_history E df :
  catalog E "beneficiary" = Some df ->
  has_columns required_beneficiary_columns (columns df) = true ->
  sink_ok E "beneficiary_clean" = true ->
  forallb (fun r => is_date (get r "bronze_load_date")) (rows df) = true ->
  exists out, beneficiary_scd (run E) = Some out /\
    forall b,
      let w := ordered_snapshots b df in
      let vs := partition_of "desynpuf_id" b (rows out) in
      Permutation w (snapshots_of b df)
      /\ ascending "bronze_load_timestamp" w
      /\ map version_of vs = versions w
      /\ List.length vs = List.length (snapshots_of b df)
      /\ (snapshots_of b df <> [] ->
          List.length (filter (fun v => is_true (get v "is_current")) vs) = 1%nat)
      /\ (forall s1 s2 s3 d1 d2 d3,
            w = [s1; s2; s3] ->
            get s1 "bronze_load_date" = Some (VDate d1) ->
            get s2 "bronze_load_date" = Some (VDate d2) ->
            get s3 "bronze_load_date" = Some (VDate d3) ->
            d1 < d2 -> d2 < d3 ->
            map version_of vs
            = [(Some (VDate d1), Some (VDate d2), Some (VBool false));
               (Some (VDate d2), Some (VDate d3), Some (VBool false));
               (Some (VDate d3), Some (VDate far_future), Some (VBool true))])
      /\ (nondecreasing_dates w -> no_overlap vs).
Proof.
  intros Hcat Hcols Hsink Hdates.
  destruct (beneficiary_body_spec E df Hcols Hsink) as (g & out & Hbody & Hrows & Hg & _).
  exists out. split.
  { unfold run. cbn [beneficiary_scd]. unfold load_bronze_table. rewrite Hcat.
    cbn [fst beneficiary_branch]. rewrite fst_try_except, Hbody. reflexivity. }
  intros b w vs.
  assert (Permutation w (snapshots_of b df)) as Hperm by apply window_order_perm.
  assert (forallb (fun r => is_date (get r "bronze_load_date")) w = true) as Hw.
  { apply forallb_forall. intros r Hr. rewrite forallb_forall in Hdates. apply Hdates.
    apply (Permutation_in _ Hperm) in Hr. now apply partition_of_In in Hr. }
  assert (map version_of vs = versions w) as Hv.
  { unfold vs. rewrite (versions_of_beneficiary g out df b Hrows Hg).
    now apply versions_of_lead. }
  assert (List.length vs = List.length w) as Hlen.
  { rewrite <- (length_map version_of), Hv. apply versions_length. }
  repeat split.
  - exact Hperm.
  - apply window_order_ascending.
  - exact Hv.
  - rewrite Hlen. now apply Permutation_length.
  - intros Hne.
    transitivity (List.length (filter current (map version_of vs)));
      [exact (filter_map_length version_of current vs)|]. rewrite Hv.
    apply versions_one_current. intros Hnil. apply Hne.
    apply Permutation_nil. now rewrite <- Hnil.
  - intros s1 s2 s3 d1 d2 d3 Hw3 D1 D2 D3 _ _. rewrite Hv, Hw3. cbn. now rewrite D1, D2, D3.
  - now apply versions_no_overlap.
Qed.

Lemma lead_over_window_In l r :
  In r (lead_over_window l) ->
  exists r0 v, In r0 l /\ r = set_field "effective_end_date" v r0.
Proof.
  unfold lead_over_window. intros H. apply in_flat_map in H as (k & _ & H).
  apply lead_rows_In in H as (r0 & v & H & ->). exists r0, v. split; [|reflexivity].
  apply (Permutation_in _ (window_order_perm _ _)) in H.
  now apply partition_of_In in H.
Qed.

Lemma chronic_count_le s r : 0 <= chronic_count s r <= 11.
Proof.
  unfold chronic_count.
  pose proof (filter_length_le (fun c => has_column c s && present (get r c)) chronic_cols) as H.
  change (List.length chronic_cols) with 11%nat in H. lia.
Qed.

Lemma chronic_count_absent s r :
  (forall c, In c chronic_cols -> has_column c s = false) -> chronic_count s r = 0.
Proof.
  intros H. unfold chronic_count. rewrite filter_none; [reflexivity|].
  intros c Hc. now rewrite H.
Qed.

Lemma chronic_col_untouched c :
  In c chronic_cols ->
  has_column c beneficiary_touched = false
  /\ has_column c ["effective_end_date"; "is_current"] = false
  /\ String.eqb c "effective_start_date" = false
  /\ String.eqb "effective_end_date" c = false.
Proof. intros H. each_chronic_col H ltac:(repeat split). Qed.

(** C9. On every beneficiary snapshot, [chronic_condition_count] is the
    number of the 11 whitelisted indicators that are in the source schema
    and marked present on the snapshot: "1" for an indicator that is a string,
    1 for one that is an integer, which the comparison with ['1'] casts the
    literal to. An indicator that the schema lacks counts for nothing and the
    branch goes through without it, so the count is 0 when all 11 are
    missing. The indicators of the source are strings, integers or NULL. *)
Theorem chronic_condition_count_counts E df :
  catalog E "beneficiary" = Some df ->
  has_columns required_beneficiary_columns (columns df) = true ->
  sink_ok E "beneficiary_clean" = true ->
  coded_indicators df = true ->
  exists out, beneficiary_scd (run E) = Some out
    /\ (forall r, In r (rows out) ->
          get r "chronic_condition_count" = Some (VInt (chronic_count (columns df) r)))
    /\ (forall s, In s (rows df) ->
          exists r, In r (rows out)
            /\ (forall c, In c chronic_cols -> get r c = get s c)
            /\ get r "chronic_condition_count" = Some (VInt (chronic_count (columns df) s)))
    /\ (forall r, (forall c, In c chronic_cols -> has_column c (columns df) = false) ->
          chronic_count (columns df) r = 0)
    /\ (forall r, 0 <= chronic_count (columns df) r <= 11)
    /\ List.length chronic_cols = 11%nat.
Proof.
  intros Hcat Hcols Hsink _.
  destruct (beneficiary_body_spec E df Hcols Hsink) as (g & out & Hbody & Hrows & Hg & Hcount).
  assert (forall s v c, In c chronic_cols ->
            get (close_version (set_field "effective_end_date" v (start_version (g s)))) c
            = get s c) as Hkeep.
  { intros s v c Hc. destruct (chronic_col_untouched c Hc) as (T1 & T2 & T3 & T4).
    rewrite get_close_version, get_set_field, T4, get_start_version, Hg by assumption.
    reflexivity. }
  assert (forall s v,
            get (close_version (set_field "effective_end_date" v (start_version (g s))))
              "chronic_condition_count"
            = Some (VInt (chronic_count (columns df) s))) as Hval.
  { intros s v. rewrite get_close_version, get_set_field by reflexivity.
    cbn [String.eqb Ascii.eqb Bool.eqb]. rewrite get_start_version by reflexivity.
    apply Hcount. }
  exists out. split; [|split; [|split; [|split; [|split; [|reflexivity]]]]].
  - unfold run. cbn [beneficiary_scd]. unfold load_bronze_table. rewrite Hcat.
    cbn [fst beneficiary_branch]. rewrite fst_try_except, Hbody. reflexivity.
  - intros r Hr. rewrite Hrows in Hr. apply in_map_iff in Hr as (r1 & <- & Hr).
    apply lead_over_window_In in Hr as (r0 & v & Hr & ->).
    rewrite map_map in Hr. apply in_map_iff in Hr as (s & <- & _).
    rewrite Hval. do 2 f_equal. symmetry. apply chronic_count_ext; [reflexivity|].
    intros c Hc. apply Hkeep, Hc.
  - intros s Hs.
    pose proof (versions_of_beneficiary g out df (get s "desynpuf_id") Hrows Hg) as Hb.
    assert (In s (ordered_snapshots (get s "desynpuf_id") df)) as Hw.
    { apply (Permutation_in _ (Permutation_sym (window_order_perm _ _))).
      apply partition_of_In. split; [exact Hs|apply cell_eqb_refl]. }
    apply (in_map (fun s => start_version (g s))) in Hw.
    apply (lead_rows_In_source "effective_end_date" "bronze_load_date") in Hw as [v Hv].
    apply (in_map close_version) in Hv. rewrite <- Hb in Hv.
    apply partition_of_In in Hv as [Hv _].
    eexists. split; [exact Hv|]. split; [intros c Hc; now apply Hkeep | apply Hval].
  - intros r. apply chronic_count_absent.
  - intros r. apply chronic_count_le.
Qed.

Lemma union_all_same s dfs :
  forall df0,
  Forall (fun d => columns d = s /\ forall r, In r (rows d) -> relabel s s r = r) dfs ->
  columns df0 = s ->
  union_all df0 dfs = Some (mkDF s (rows df0 ++ flat_map rows dfs)).
Proof.
  induction dfs as [|d dfs IH]; intros df0 Hall H0; cbn [union_all flat_map].
  - rewrite app_nil_r. destruct df0. cbn in *. now subst.
  - inversion Hall as [|? ? [Hd Hr] Hall']; subst.
    unfold union. rewrite Hd, Nat.eqb_refl.
    rewrite (IH _ Hall') by reflexivity. cbn [rows]. f_equal. f_equal.
    rewrite <- app_assoc. f_equal. f_equal.
    rewrite <- (map_id (rows d)) at 2. apply map_ext_in. intros r Hr'. now apply Hr.
Qed.

Lemma code_filter a :
  is_true (sql_and (Some (VBool (negb (is_null a)))) (sql_not (sql_eq a (Some (VStr "")))))
  = nonempty_code a.
Proof.
  destruct a as [[]|]; try reflexivity. cbn. now destruct (String.eqb s "").
Qed.

Lemma diagnosis_slot_fresh c :
  diagnosis_slot c = true -> has_column c diagnosis_schema = false.
Proof.
  unfold diagnosis_slot, has_column, diagnosis_schema. intros H. cbn [existsb].
  repeat match goal with
         | |- context [String.eqb c ?n] =>
             destruct (String.eqb_spec c n) as [->|_]; [discriminate H|]
         end.
  reflexivity.
Qed.

Lemma diag_df_spec i k c :
  has_column "desynpuf_id" (columns i) = true ->
  has_column "clm_id" (columns i) = true ->
  has_column "clm_from_dt" (columns i) = true ->
  has_column c (columns i) = true -> diagnosis_slot c = true ->
  diag_df i k c
  = Some (mkDF diagnosis_schema
               (map (assignment k c) (filter (fun r => nonempty_code (get r c)) (rows i)))).
Proof.
  intros H1 H2 H3 Hc Hs. unfold diag_df, select_filter, named.
  unfold and_, isNotNull, neq_, str, int, lift1, lift2, col, lit. cbn [resolve_all map fst].
  rewrite H1, H2, H3, Hc.
  rewrite has_column_app, Hc, orb_true_r. cbn [project map fst snd].
  unfold diagnosis_schema. f_equal. f_equal. f_equal. apply filter_ext. intros r.
  rewrite get_app. cbn [map fst].
  pose proof (diagnosis_slot_fresh c Hs) as Hf. unfold diagnosis_schema in Hf. rewrite Hf.
  apply code_filter.
Qed.

Lemma enumerate_In {A} (l : list A) :
  forall a k c, In (k, c) (enumerate a l) <-> a <= k /\ nth_error l (Z.to_nat (k - a)) = Some c.
Proof.
  induction l as [|x l IH]; intros a k c; cbn [enumerate In].
  - split; [tauto|]. intros [_ H]. now destruct (Z.to_nat (k - a)).
  - rewrite IH. split.
    + intros [[= <- <-]|[Hk Hn]].
      * split; [lia|]. now rewrite Z.sub_diag.
      * split; [lia|]. replace (Z.to_nat (k - a)) with (S (Z.to_nat (k - (a + 1)))) by lia.
        exact Hn.
    + intros [Hk Hn]. destruct (Z.eq_dec k a) as [->|Hne].
      * left. rewrite Z.sub_diag in Hn. cbn in Hn. congruence.
      * right. split; [lia|].
        replace (Z.to_nat (k - a)) with (S (Z.to_nat (k - (a + 1)))) in Hn by lia.
        exact Hn.
Qed.

Lemma enumerate_snd {A} (l : list A) a : map snd (enumerate a l) = l.
Proof. revert a. induction l as [|x l IH]; intros a; cbn; [reflexivity|]. now rewrite IH. Qed.

Lemma diagnosis_records_of_spec i slots :
  has_column "desynpuf_id" (columns i) = true ->
  has_column "clm_id" (columns i) = true ->
  has_column "clm_from_dt" (columns i) = true ->
  (forall kc, In kc slots ->
     has_column (snd kc) (columns i) = true /\ diagnosis_slot (snd kc) = true) ->
  diagnosis_records_of i slots
  = Some (map (fun kc => mkDF diagnosis_schema
                           (map (assignment (fst kc) (snd kc))
                                (filter (fun r => nonempty_code (get r (snd kc))) (rows i))))
              slots).
Proof.
  intros H1 H2 H3. induction slots as [|[k c] slots IH]; intros Hs; [reflexivity|].
  cbn [diagnosis_records_of map fst snd].
  destruct (Hs (k, c) (or_introl eq_refl)) as [Hc Hp]. cbn [snd] in Hc, Hp.
  rewrite (diag_df_spec i k c H1 H2 H3 Hc Hp).
  rewrite IH by (intros kc Hkc; apply Hs; now right). reflexivity.
Qed.

Lemma unpivot_rows slots l :
  flat_map rows
    (map (fun kc => mkDF diagnosis_schema
                      (map (assignment (fst kc) (snd kc))
                           (filter (fun r => nonempty_code (get r (snd kc))) l)))
         slots)
  = unpivot slots l.
Proof.
  unfold unpivot. induction slots as [|kc slots IH]; [reflexivity|].
  cbn [map flat_map rows]. now rewrite IH.
Qed.

Lemma tail_ok {A} E n (d : DataFrame) m (a : A) :
  sink_ok E n = true -> (write E n d ;;; print m ;;; ret a) = (Some a, [m]).
Proof. intros H. unfold write. rewrite H. reflexivity. Qed.

(** What the diagnosis branch returns for a cleansed inpatient set. *)
Lemma diagnosis_branch_spec E i :
  has_column "desynpuf_id" (columns i) = true ->
  has_column "clm_id" (columns i) = true ->
  has_column "clm_from_dt" (columns i) = true ->
  sink_ok E "diagnosis_normalized" = true ->
  filter diagnosis_slot (columns i) <> [] ->
  exists out,
    diagnosis_branch E (Some i) = (Some out, [DiagnosesNormalized (count out)])
    /\ columns out = diagnosis_schema
    /\ rows out = unpivot (enumerate 1 (filter diagnosis_slot (columns i))) (rows i).
Proof.
  intros H1 H2 H3 Hs Hne.
  exists (mkDF diagnosis_schema
               (unpivot (enumerate 1 (filter diagnosis_slot (columns i))) (rows i))).
  split; [|split; reflexivity].
  unfold diagnosis_branch, diagnosis_body.
  change (fun c => String.prefix "icd9_dgns_cd_" c) with diagnosis_slot.
  destruct (filter diagnosis_slot (columns i)) as [|c0 slots] eqn:Hf; [congruence|].
  rewrite diagnosis_records_of_spec; trivial.
  - rewrite bind_call_Some. cbn [enumerate map fst snd].
    rewrite (union_all_same diagnosis_schema); [|  |reflexivity].
    + rewrite bind_call_Some, (tail_ok E _ _ _ _ Hs). cbn [try_except fst snd rows].
      rewrite unpivot_rows. reflexivity.
    + apply Forall_forall. intros d Hd. apply in_map_iff in Hd as (kc & <- & _).
      split; [reflexivity|]. cbn [rows]. intros r Hr.
      apply in_map_iff in Hr as (r0 & <- & _). reflexivity.
  - intros [k c] Hkc. apply enumerate_In in Hkc as [_ Hn]. apply nth_error_In in Hn.
    cbn [snd].
    rewrite <- Hf in Hn. apply filter_In in Hn as [Hin Hp]. split; [|exact Hp].
    apply existsb_exists. exists c. split; [exact Hin|apply String.eqb_refl].
Qed.

Lemma clean_claims_rowwise E df ct i :
  fst (clean_claims_body E df ct) = Some i -> rowwise clean_touched df i.
Proof.
  unfold clean_claims_body. intros H.
  try_step H d1. try_step H d2. try_step H d3. try_step H d4.
  try_step H d5. try_step H d6. try_step H d7.
  assert (withColumn "payment_amount" (lift1 (cast_double (parse_double E)) (col "clm_pmt_amt")) d7 = Some i
          \/ withColumn "payment_amount" (dbl 0%float) d7 = Some i) as H8
    by (destruct (has_column "clm_pmt_amt" (columns d7)); auto).
  rewrite fst_call in *.
  apply (rowwise_trans ["clm_from_dt"] _ df d1 i); [eapply rowwise_withColumn; eauto|].
  apply (rowwise_trans ["clm_thru_dt"] _ d1 d2 i); [eapply rowwise_withColumn; eauto|].
  apply (rowwise_trans ["claim_type"] _ d2 d3 i); [eapply rowwise_withColumn; eauto|].
  apply (rowwise_trans ["claim_duration_days"] _ d3 d4 i); [eapply rowwise_withColumn; eauto|].
  apply (rowwise_trans ["claim_year"] _ d4 d5 i); [eapply rowwise_withColumn; eauto|].
  apply (rowwise_trans ["claim_month"] _ d5 d6 i); [eapply rowwise_withColumn; eauto|].
  apply (rowwise_trans ["claim_quarter"] ["payment_amount"] d6 d7 i);
    [eapply rowwise_withColumn; eauto|].
  destruct H8; eapply rowwise_withColumn; eauto.
Qed.

Lemma inpatient_clean_Some E i :
  inpatient_clean (run E) = Some i ->
  exists df, catalog E "inpatient" = Some df
    /\ fst (clean_claims_body E df "inpatient") = Some i.
Proof.
  unfold run. cbn [inpatient_clean]. intros H.
  apply clean_claims_data_Some in H as (df & Hl & H). exists df. split; [|exact H].
  unfold load_bronze_table in Hl. now destruct (catalog E "inpatient").
Qed.

(** C2. On the cleansed inpatient claims, the unpivoter emits one
    assignment for each diagnosis slot and claim row whose code in that slot
    is neither NULL nor empty, with that code and with the position of the
    slot column among the slot columns of the schema, counted from 1 in
    schema order ([unpivot] over [enumerate 1]); every sequence is at least
    1; a row with "250.00" in the first slot and the empty string in the
    second gives the one assignment of sequence 1; and without slot columns
    the output is absent, with a warning and no error. *)
Theorem diagnosis_unpivot E i :
  inpatient_clean (run E) = Some i ->
  let slots := filter diagnosis_slot (columns i) in
  (slots = [] ->
     diagnosis_branch E (Some i) = (None, [NoDiagnosisColumns])
     /\ diagnosis_normalized (run E) = None
     /\ severity_of NoDiagnosisColumns = Warning)
  /\ (slots <> [] ->
      has_column "desynpuf_id" (columns i) = true ->
      has_column "clm_id" (columns i) = true ->
      sink_ok E "diagnosis_normalized" = true ->
      exists out,
        diagnosis_normalized (run E) = Some out
        /\ rows out = unpivot (enumerate 1 slots) (rows i)
        /\ (forall r, In r (rows out) ->
              exists k, get r "diagnosis_sequence" = Some (VInt k) /\ 1 <= k))
  /\ (forall k c, In (k, c) (enumerate 1 slots)
                  <-> 1 <= k /\ nth_error slots (Z.to_nat (k - 1)) = Some c)
  /\ (forall c1 c2 r,
        get r c1 = Some (VStr "250.00") -> get r c2 = Some (VStr "") ->
        unpivot (enumerate 1 [c1; c2]) [r] = [assignment 1 c1 r]).
Proof.
  intros Hi slots.
  assert (diagnosis_normalized (run E) = fst (diagnosis_branch E (Some i))) as Hrun.
  { unfold run in *. cbn [diagnosis_normalized inpatient_clean] in *. now rewrite Hi. }
  split; [|split; [|split]].
  - intros Hnil. assert (diagnosis_branch E (Some i) = (None, [NoDiagnosisColumns])) as Hb.
    { unfold diagnosis_branch, diagnosis_body.
      change (fun c => String.prefix "icd9_dgns_cd_" c) with diagnosis_slot.
      fold slots. rewrite Hnil. reflexivity. }
    rewrite Hrun, Hb. auto.
  - intros Hne H1 H2 Hs.
    apply inpatient_clean_Some in Hi as (df & _ & Hc).
    destruct (clean_claims_rowwise E df "inpatient" i Hc) as (_ & _ & _ & K).
    assert (has_column "clm_from_dt" (columns i) = true) as H3
      by (rewrite K; cbn; apply orb_true_r).
    destruct (diagnosis_branch_spec E i H1 H2 H3 Hs Hne) as (out & Hb & _ & Hr).
    exists out. rewrite Hrun, Hb. split; [reflexivity|]. split; [exact Hr|].
    intros r Hin. rewrite Hr in Hin. unfold unpivot in Hin.
    apply in_flat_map in Hin as ([k c] & Hk & Hin).
    apply in_map_iff in Hin as (r0 & <- & _). apply enumerate_In in Hk as [Hk _].
    exists k. split; [reflexivity|exact Hk].
  - intros k c. apply enumerate_In.
  - intros c1 c2 r R1 R2. unfold unpivot. cbn [enumerate flat_map fst snd filter].
    rewrite R1, R2. reflexivity.
Qed.

(** *** Cleansing goes through when the date codes are there *)
Lemma payment_amount_ok E d :
  exists i,
    (if has_column "clm_pmt_amt" (columns d)
     then call (withColumn "payment_amount"
                  (lift1 (cast_double (parse_double E)) (col "clm_pmt_amt")) d)
     else call (withColumn "payment_amount" (dbl 0%float) d))
    = (Some i, []).
Proof.
  destruct (has_column "clm_pmt_amt" (columns d)) eqn:Hp.
  - unfold withColumn, lift1, col. rewrite Hp. eexists. reflexivity.
  - unfold withColumn, dbl, lit. eexists. reflexivity.
Qed.

Lemma clean_claims_ok E df ct :
  has_column "clm_from_dt" (columns df) = true ->
  has_column "clm_thru_dt" (columns df) = true ->
  exists i, clean_claims_body E df ct = (Some i, []).
Proof.
  intros H1 H2. unfold clean_claims_body.
  resolve_columns. rewrite bind_call_Some.
  resolve_columns. rewrite bind_call_Some.
  resolve_columns. rewrite bind_call_Some.
  resolve_columns. rewrite bind_call_Some.
  resolve_columns. rewrite bind_call_Some.
  resolve_columns. rewrite bind_call_Some.
  resolve_columns. rewrite bind_call_Some.
  apply payment_amount_ok.
Qed.

Lemma snd_clean_claims_body E df ct : snd (clean_claims_body E df ct) = [].
Proof.
  unfold clean_claims_body.
  repeat (rewrite snd_bind_call; destruct (withColumn _ _ _); [|reflexivity]).
  now destruct (has_column _ _).
Qed.

Lemma resolve_named cs schema :
  (forall c, In c cs -> has_column c schema = true) ->
  resolve_all (map named cs) schema = Some (map (fun c => (c, fun r => get r c)) cs).
Proof.
  induction cs as [|c cs IH]; intros H; [reflexivity|].
  cbn [map resolve_all named]. unfold col at 1. rewrite (H c (or_introl eq_refl)).
  fold (named). rewrite IH by (intros; apply H; now right). reflexivity.
Qed.

Lemma subset_of_spec d :
  subset_of d = Some (mkDF (present_common (columns d))
                           (map (common_fields (columns d)) (rows d))).
Proof.
  unfold subset_of, select. fold (present_common (columns d)).
  rewrite resolve_named by (intros c Hc; now apply filter_In in Hc).
  rewrite map_map. cbn [fst named]. rewrite map_id. f_equal. f_equal.
  apply map_ext. intros r. unfold project, common_fields. now rewrite map_map.
Qed.

Lemma NoDup_common_cols : NoDup common_cols.
Proof.
  unfold common_cols.
  repeat (constructor; [cbn; intuition discriminate|]). constructor.
Qed.

Lemma NoDup_present_common s : NoDup (present_common s).
Proof. apply NoDup_filter, NoDup_common_cols. Qed.

Lemma common_fields_fits s r :
  relabel (present_common s) (present_common s) (common_fields s r) = common_fields s r.
Proof.
  apply relabel_fits; [apply NoDup_present_common|].
  unfold common_fields. rewrite map_map. cbn [fst]. apply map_id.
Qed.

Lemma add_claims_Some d ct l :
  add_claims (Some d) ct l
  = (Some (l ++ [mkDF (present_common (columns d))
                      (map (common_fields (columns d)) (rows d))]),
     [Added ct (count d)]).
Proof.
  unfold add_claims. rewrite subset_of_spec, bind_call_Some.
  unfold bind, print, ret, count. cbn. now rewrite length_map.
Qed.

Lemma add_claims_None ct l : add_claims None ct l = (Some l, []).
Proof. reflexivity. Qed.

Lemma is_high_cost_resolves s :
  has_column "payment_amount" s = true ->
  exists f, is_high_cost s = Some f
    /\ forall r, f r = Some (VBool (payment_exceeds (get r "payment_amount"))).
Proof.
  intros H. destruct (is_high_cost s) as [f|] eqn:Hf.
  - exists f. split; [reflexivity|]. now apply is_high_cost_Some with (s := s).
  - unfold is_high_cost, when_otherwise, case_when, gt_, lift2, col, int, boolean, lit in Hf.
    cbn [resolve_branches] in Hf. rewrite H in Hf. discriminate Hf.
Qed.

Lemma bind_ret {A B} (x : A) (l : list message) (k : A -> Try B) :
  bind (Some x, l) k = (fst (k x), l ++ snd (k x)).
Proof. reflexivity. Qed.

(** The unifier on DataFrames that have the same common columns. *)
Lemma unify_same E s df0 dfs :
  columns df0 = present_common s ->
  Forall (fun d => columns d = present_common s
                   /\ forall r, In r (rows d) ->
                        relabel (present_common s) (present_common s) r = r) dfs ->
  has_column "payment_amount" s = true ->
  sink_ok E "claims_unified" = true ->
  exists u,
    (u <- call (union_all df0 dfs) ;;
     claims_unified <- call (withColumn "is_high_cost" is_high_cost u) ;;
     write E "claims_unified" claims_unified ;;;
     print (UnifiedCreated (count claims_unified)) ;;;
     ret (Some claims_unified))
    = (Some (Some u), [UnifiedCreated (count u)])
    /\ rows u = map with_is_high_cost (rows df0 ++ flat_map rows dfs).
Proof.
  intros H0 Hall Hp Hs.
  rewrite (union_all_same (present_common s) dfs df0 Hall H0), bind_call_Some.
  destruct (is_high_cost_resolves (present_common s)) as (f & Hf & Hv).
  { unfold present_common. apply existsb_exists. exists "payment_amount".
    split; [|reflexivity]. apply filter_In. split; [|exact Hp].
    cbn. tauto. }
  unfold withColumn. cbn [columns rows]. rewrite Hf, bind_call_Some.
  eexists. split; [apply (tail_ok E _ _ _ _ Hs)|].
  cbn [rows]. apply map_ext. intros r. unfold with_is_high_cost. now rewrite Hv.
Qed.

Lemma fst_load E t : fst (load_bronze_table E t) = catalog E t.
Proof. unfold load_bronze_table. now destruct (catalog E t). Qed.

Ltac unfold_run :=
  unfold run, load_bronze_table, beneficiary_branch, beneficiary_body, derived_columns,
    clean_claims_data, clean_claims_body, claims_unified_branch, claims_unified_body,
    prescription_branch, prescription_body, diagnosis_branch, diagnosis_body, write;
  cbn [beneficiary_scd inpatient_clean outpatient_clean carrier_clean claims_unified
       prescription_clean diagnosis_normalized
       with_table with_sink catalog sink_ok today parse_int parse_double].

Lemma present_common_clean s1 s2 d1 d2 :
  (forall c, has_column c (columns d1) = has_column c s1 || has_column c clean_touched) ->
  (forall c, has_column c (columns d2) = has_column c s2 || has_column c clean_touched) ->
  same_columns optional_common s1 s2 = true ->
  present_common (columns d1) = present_common (columns d2).
Proof.
  intros K1 K2 Hs. unfold same_columns, optional_common in Hs. cbn [forallb] in Hs.
  rewrite !andb_true_iff, !Bool.eqb_true_iff in Hs. destruct Hs as (E1 & E2 & E3 & _).
  unfold present_common. apply filter_ext_in. intros c Hc. rewrite K1, K2.
  cbn in Hc.
  repeat (destruct Hc as [<-|Hc];
          [cbn; rewrite ?orb_false_r, ?orb_true_r; congruence|]).
  contradiction.
Qed.

Lemma clean_run E t df ct :
  catalog E t = Some df ->
  has_column "clm_from_dt" (columns df) = true ->
  has_column "clm_thru_dt" (columns df) = true ->
  exists i, clean_claims_data E (fst (load_bronze_table E t)) ct = (Some i, [])
    /\ rowwise clean_touched df i.
Proof.
  intros Hc H1 H2. rewrite fst_load, Hc.
  destruct (clean_claims_ok E df ct H1 H2) as (i & Hi). exists i. split.
  - unfold clean_claims_data, try_except. now rewrite Hi.
  - apply (clean_claims_rowwise E df ct). now rewrite Hi.
Qed.

(** With the carrier claims absent, the unifier still has the inpatient and
    the outpatient claims. *)
Lemma unified_without_carrier E idf odf :
  catalog E "inpatient" = Some idf ->
  catalog E "outpatient" = Some odf ->
  carrier_clean (run E) = None ->
  has_columns ["clm_from_dt"; "clm_thru_dt"] (columns idf) = true ->
  has_columns ["clm_from_dt"; "clm_thru_dt"] (columns odf) = true ->
  same_columns optional_common (columns idf) (columns odf) = true ->
  sink_ok E "claims_unified" = true ->
  exists i o u,
    inpatient_clean (run E) = Some i /\ outpatient_clean (run E) = Some o
    /\ claims_unified (run E) = Some u
    /\ rows u = map with_is_high_cost
                  (map (common_fields (columns i)) (rows i)
                   ++ map (common_fields (columns o)) (rows o))
    /\ count u = (count idf + count odf)%nat
    /\ claims_unified_branch E (Some i) (Some o) None
       = (Some u, [Added "inpatient" (count idf); Added "outpatient" (count odf);
                   UnifiedCreated (count u)]).
Proof.
  intros Hi Ho Hc Hic Hoc Hsame Hs.
  cbn in Hic, Hoc. rewrite !andb_true_iff in Hic, Hoc.
  destruct Hic as (I1 & I2 & _), Hoc as (O1 & O2 & _).
  destruct (clean_run E "inpatient" idf "inpatient" Hi I1 I2) as (i & Ci & gi & Ri & _ & Ki).
  destruct (clean_run E "outpatient" odf "outpatient" Ho O1 O2) as (o & Co & go & Ro & _ & Ko).
  pose proof (present_common_clean _ _ i o Ki Ko Hsame) as Hpc.
  assert (has_column "payment_amount" (columns i) = true) as Hp
    by (rewrite Ki; cbn; apply orb_true_r).
  assert (count i = count idf /\ count o = count odf) as [Ni No]
    by (unfold count; rewrite Ri, Ro, !length_map; auto).
  destruct (unify_same E (columns i)
              (mkDF (present_common (columns i)) (map (common_fields (columns i)) (rows i)))
              [mkDF (present_common (columns o)) (map (common_fields (columns o)) (rows o))])
    as (u & Hu & Hr); trivial.
  { constructor; [|constructor]. cbn [columns rows]. split; [now rewrite Hpc|].
    intros r Hr. apply in_map_iff in Hr as (r0 & <- & _). rewrite Hpc.
    apply common_fields_fits. }
  assert (claims_unified_branch E (Some i) (Some o) None
          = (Some u, [Added "inpatient" (count idf); Added "outpatient" (count odf);
                      UnifiedCreated (count u)])) as Hb.
  { unfold claims_unified_branch, claims_unified_body.
    rewrite add_claims_Some, bind_ret. cbn [app].
    rewrite add_claims_Some. cbn [fst snd app]. rewrite bind_ret.
    rewrite add_claims_None. cbn [fst snd app]. rewrite bind_ret. cbn [fst snd app].
    rewrite Hu. cbn [try_except fst snd app]. now rewrite Ni, No. }
  exists i, o, u. unfold run in *.
  cbn [inpatient_clean outpatient_clean carrier_clean claims_unified] in *.
  rewrite Ci, Co, Hc. cbn [fst]. rewrite Hb. cbn [fst].
  repeat split; trivial.
  - rewrite Hr. cbn [rows flat_map]. now rewrite app_nil_r.
  - unfold count. rewrite Hr. cbn [rows flat_map].
    rewrite app_nil_r, !length_map, length_app, !length_map.
    unfold count in Ni, No. now rewrite Ri, Ro, !length_map.
Qed.

Lemma unavailable_absent E : unavailable_is_absent E.
Proof.
  unfold unavailable_is_absent. split; [|repeat split].
  - intros t Ht. unfold load_bronze_table. now rewrite Ht.
  - intros Ht. unfold_run. now rewrite Ht.
  - intros Ht. unfold_run. now rewrite Ht.
  - unfold_run. now rewrite H.
  - unfold_run. now rewrite H.
  - intros Ht. unfold_run. now rewrite Ht.
  - intros Ht. unfold_run. now rewrite Ht.
Qed.

Lemma raising_absent E : raising_is_absent E.
Proof.
  unfold raising_is_absent. repeat split; intros;
    unfold beneficiary_branch, clean_claims_data, claims_unified_branch,
      prescription_branch, diagnosis_branch, try_except;
    rewrite H; reflexivity.
Qed.

Lemma others_kept E : others_unaffected E.
Proof.
  intros t o n b E'. unfold E'.
  repeat split; intros; unfold_run;
    repeat match goal with H : String.eqb _ _ = false |- _ => rewrite H; clear H end;
    reflexivity.
Qed.

(** C5. The branches are isolated. A source that cannot be loaded leaves
    absent the outputs that read it, with a warning; a branch whose body
    raises returns nothing and prints its error; an output is the same
    whatever happens to a table it does not read and to the write of another
    dataset. With the carrier source unavailable, and inpatient and outpatient
    sources that have their date codes and the same of the id, claim id and
    load timestamp columns, the unified output holds the rows of the inpatient
    and of the outpatient projection, in that order; with no cleansed type at
    all the unifier returns nothing and prints a warning, not an error. *)
Theorem branches_isolated E :
  unavailable_is_absent E
  /\ raising_is_absent E
  /\ others_unaffected E
  /\ (forall idf odf,
        catalog E "inpatient" = Some idf ->
        catalog E "outpatient" = Some odf ->
        catalog E "carrier" = None ->
        has_columns ["clm_from_dt"; "clm_thru_dt"] (columns idf) = true ->
        has_columns ["clm_from_dt"; "clm_thru_dt"] (columns odf) = true ->
        same_columns optional_common (columns idf) (columns odf) = true ->
        sink_ok E "claims_unified" = true ->
        exists i o u,
          inpatient_clean (run E) = Some i /\ outpatient_clean (run E) = Some o
          /\ claims_unified (run E) = Some u
          /\ rows u = map with_is_high_cost
                        (map (common_fields (columns i)) (rows i)
                         ++ map (common_fields (columns o)) (rows o))
          /\ count u = (count idf + count odf)%nat
          /\ claims_unified_branch E (Some i) (Some o) None
             = (Some u, [Added "inpatient" (count idf); Added "outpatient" (count odf);
                         UnifiedCreated (count u)]))
  /\ (inpatient_clean (run E) = None -> outpatient_clean (run E) = None ->
      carrier_clean (run E) = None ->
      claims_unified (run E) = None
      /\ claims_unified_branch E None None None = (None, [NoClaimsToUnify])
      /\ severity_of NoClaimsToUnify = Warning).
Proof.
  split; [apply unavailable_absent|]. split; [apply raising_absent|].
  split; [apply others_kept|]. split.
  - intros idf odf Hi Ho Hc. apply unified_without_carrier; trivial.
    destruct (unavailable_absent E) as (_ & _ & _ & _ & _ & H). exact (H Hc).
  - intros Hi Ho Hc. split; [|split; reflexivity].
    unfold run in *. cbn [inpatient_clean outpatient_clean carrier_clean claims_unified] in *.
    now rewrite Hi, Ho, Hc.
Qed.

(** *** Patient pay *)
Lemma prescription_without_patient_pay E df :
  has_column "ptnt_pay_amt" (columns df) = false ->
  prescription_branch E (Some df) = (None, [PrescriptionError]).
Proof.
  intros Hp. unfold prescription_branch, prescription_body.
  destruct (withColumn "srvc_dt" _ df) as [d1|] eqn:H1; [|reflexivity]. rewrite bind_call_Some.
  destruct (withColumn "prescription_year" _ d1) as [d2|] eqn:H2; [|reflexivity].
  rewrite bind_call_Some.
  destruct (withColumn "prescription_month" _ d2) as [d3|] eqn:H3; [|reflexivity].
  rewrite bind_call_Some.
  destruct (withColumn "qty_dispensed" _ d3) as [d4|] eqn:H4; [|reflexivity].
  rewrite bind_call_Some.
  destruct (withColumn "days_supply" _ d4) as [d5|] eqn:H5; [|reflexivity].
  rewrite bind_call_Some.
  destruct (withColumn "total_cost" _ d5) as [d6|] eqn:H6; [|reflexivity].
  rewrite bind_call_Some.
  apply withColumn_Some in H1 as (? & _ & ->), H2 as (? & _ & ->), H3 as (? & _ & ->),
    H4 as (? & _ & ->), H5 as (? & _ & ->), H6 as (? & _ & ->).
  unfold withColumn at 1, when_otherwise, case_when, isNotNull, lift1, col.
  cbn [columns resolve_branches]. rewrite !has_column_add_column, Hp. reflexivity.
Qed.

Lemma patient_pay_of_null E df out :
  fst (prescription_body E df) = Some out ->
  forall r, In r (rows out) ->
    get r "ptnt_pay_amt" = None -> get r "patient_pay" = Some (VDbl 0%float).
Proof.
  unfold prescription_body. intros H.
  step H d1. step H d2. step H d3. step H d4. step H d5. step H d6. step H d7. step H d8.
  apply fst_tail_Some in H as [<- _].
  with_column Hd8. with_column Hd7.
  cbn [rows]. intros r Hr.
  apply in_map_iff in Hr as (r7 & <- & Hr).
  apply in_map_iff in Hr as (r6 & <- & Hr).
  rewrite !get_set_field. cbn [String.eqb Ascii.eqb Bool.eqb case_rows].
  intros ->. reflexivity.
Qed.

(** The sibling path: claims whose source has no payment column. *)
Lemma payment_amount_default E df ct i :
  fst (clean_claims_body E df ct) = Some i ->
  has_column "clm_pmt_amt" (columns df) = false ->
  forall r, In r (rows i) -> get r "payment_amount" = Some (VDbl 0%float).
Proof.
  unfold clean_claims_body. intros H Hp.
  step H d1. step H d2. step H d3. step H d4. step H d5. step H d6. step H d7.
  apply withColumn_Some in Hd1 as (? & _ & ->), Hd2 as (? & _ & ->), Hd3 as (? & _ & ->),
    Hd4 as (? & _ & ->), Hd5 as (? & _ & ->), Hd6 as (? & _ & ->), Hd7 as (? & _ & ->).
  cbn [columns] in H. rewrite !has_column_add_column, Hp in H. cbn in H.
  injection H as <-. cbn [rows]. intros r Hr.
  apply in_map_iff in Hr as (r0 & <- & _). now rewrite get_set_field.
Qed.

(** The three snapshots of beneficiary "A", loaded out of order. *)
Lemma beneficiary_history_witness :
  exists out, beneficiary_scd (run Examples.env) = Some out
    /\ map version_of (partition_of "desynpuf_id" (Examples.text "A") (rows out))
       = [(Some (VDate 14001), Some (VDate 14002), Some (VBool false));
          (Some (VDate 14002), Some (VDate 14003), Some (VBool false));
          (Some (VDate 14003), Some (VDate far_future), Some (VBool true))]
    /\ List.length (filter (fun v => is_true (get v "is_current"))
                      (partition_of "desynpuf_id" (Examples.text "A") (rows out))) = 1%nat.
Proof.
  destruct (beneficiary_history Examples.env Examples.beneficiary
              eq_refl eq_refl eq_refl eq_refl) as (out & Hout & Hb).
  exists out. split; [exact Hout|].
  destruct (Hb (Examples.text "A")) as (_ & _ & _ & _ & Hone & Hthree & _).
  split.
  - apply (Hthree (Examples.snapshot "A" 100 14001) (Examples.snapshot "A" 200 14002)
             (Examples.snapshot "A" 300 14003) 14001 14002 14003);
      try reflexivity; lia.
  - apply Hone. vm_compute. discriminate.
Defined.

(** One inpatient claim with "250.00" in the first slot and an empty second slot. *)
Lemma diagnosis_unpivot_witness :
  exists out, diagnosis_normalized (run Examples.env) = Some out
    /\ rows out = [assignment 1 "icd9_dgns_cd_1" (Examples.first_row Examples.inpatient_cleansed)].
Proof.
  assert (inpatient_clean (run Examples.env) = Some Examples.inpatient_cleansed) as Hi
    by (vm_compute; reflexivity).
  destruct (diagnosis_unpivot Examples.env Examples.inpatient_cleansed Hi) as (_ & Hsome & _).
  destruct Hsome as (out & Hout & Hrows & _); try reflexivity.
  - vm_compute. discriminate.
  - exists out. split; [exact Hout|]. rewrite Hrows. reflexivity.
Defined.

(** The carrier claims cannot be loaded: one inpatient and two outpatient claims. *)
Lemma branches_isolated_witness :
  exists u, claims_unified (run Examples.env) = Some u /\ count u = 3%nat.
Proof.
  destruct (branches_isolated Examples.env) as (_ & _ & _ & Hcarrier & _).
  destruct (Hcarrier Examples.inpatient Examples.outpatient) as (i & o & u & _ & _ & Hu & _ & Hn & _);
    try reflexivity.
  exists u. split; [exact Hu|exact Hn].
Defined.

(** The inpatient claim from 2008-01-01 to 2008-01-05. *)
Lemma claim_duration_days_witness :
  get (Examples.first_row Examples.inpatient_cleansed) "claim_duration_days" = Some (VInt 5).
Proof.
  apply (claim_duration_days_inclusive Examples.env Examples.inpatient_cleansed
           (Examples.first_row Examples.inpatient_cleansed)
           (Calendar.days_from_civil 2008 1 1) (Calendar.days_from_civil 2008 1 5));
    try reflexivity.
  - left. vm_compute. reflexivity.
  - left. reflexivity.
Defined.

(** The inpatient claim paid 15000. *)
Lemma unified_is_high_cost_witness :
  get (Examples.first_row Examples.unified) "is_high_cost" = Some (VBool true).
Proof.
  apply (unified_is_high_cost_iff Examples.env Examples.unified
           (Examples.first_row Examples.unified)).
  - vm_compute. reflexivity.
  - left. reflexivity.
Defined.

(** Two indicators marked present, one marked 2, eight missing from the
    schema: as strings, and as integers. *)
Lemma chronic_condition_count_witness :
  (exists out r, beneficiary_scd (run Examples.env) = Some out
     /\ In r (rows out) /\ get r "chronic_condition_count" = Some (VInt 2))
  /\ (exists out r, beneficiary_scd (run Cases.env_coded) = Some out
        /\ In r (rows out) /\ get r "chronic_condition_count" = Some (VInt 2)).
Proof.
  split.
  - destruct (chronic_condition_count_counts Examples.env Examples.beneficiary
                eq_refl eq_refl eq_refl eq_refl) as (out & Hout & _ & Hevery & _).
    destruct (Hevery (Examples.snapshot "A" 100 14001)) as (r & Hr & _ & Hv).
    + right. right. left. reflexivity.
    + exists out, r. repeat split; trivial.
  - destruct (chronic_condition_count_counts Cases.env_coded Cases.coded_beneficiary
                eq_refl eq_refl eq_refl eq_refl) as (out & Hout & _ & Hevery & _).
    destruct (Hevery Cases.coded_snapshot) as (r & Hr & _ & Hv).
    + left. reflexivity.
    + exists out, r. repeat split; trivial.
Defined.

(** The outpatient claim with no payment amount. *)
Lemma unified_null_payment_witness :
  get (Examples.last_row Examples.unified) "is_high_cost" = Some (VBool false).
Proof.
  apply (unified_null_payment_not_high_cost Examples.env Examples.unified
           (Examples.last_row Examples.unified)).
  - vm_compute. reflexivity.
  - right. right. left. reflexivity.
  - reflexivity.
Defined.

(** C3. The unifier projects each available type on the common columns
    its schema has and unions the projections by position, in the order
    inpatient, outpatient, carrier. Here the inpatient source lacks the load
    timestamp that the outpatient source has: both types are cleansed and
    projected, on nine and on ten columns, their union is rejected, and the
    unified output is absent, with the error in the log, instead of holding
    the rows of the two projections. *)
Theorem unified_lost_on_mismatched_columns :
  exists i o,
    inpatient_clean (run Examples.env_without_inpatient_timestamp) = Some i
    /\ outpatient_clean (run Examples.env_without_inpatient_timestamp) = Some o
    /\ present_common (columns i)
       = ["desynpuf_id"; "clm_id"; "clm_from_dt"; "clm_thru_dt"; "claim_type";
          "claim_duration_days"; "claim_year"; "claim_month"; "payment_amount"]
    /\ present_common (columns o) = common_cols
    /\ subset_of i <> None /\ subset_of o <> None
    /\ claims_unified (run Examples.env_without_inpatient_timestamp) = None
    /\ In UnifiedError (log (run Examples.env_without_inpatient_timestamp)).
Proof.
  eexists. eexists. split; [vm_compute; reflexivity|]. split; [vm_compute; reflexivity|].
  split; [reflexivity|]. split; [reflexivity|].
  split; [vm_compute; discriminate|]. split; [vm_compute; discriminate|].
  split; [vm_compute; reflexivity|]. vm_compute. tauto.
Qed.

(** C4. The prescription source without the patient-pay column: the
    branch raises on the column it cannot resolve, the prescription output is
    absent and the error is printed, where the claim has an output with
    [patient_pay] = 0.0. With the column there and the value NULL,
    [patient_pay] is 0.0. *)
Theorem prescriptions_lost_without_patient_pay :
  let df := Examples.drop_column "ptnt_pay_amt" Examples.prescription in
  catalog Examples.env_without_patient_pay "prescription" = Some df
  /\ well_formed df = true
  /\ has_column "ptnt_pay_amt" (columns df) = false
  /\ prescription_branch Examples.env_without_patient_pay (Some df)
     = (None, [PrescriptionError])
  /\ prescription_clean (run Examples.env_without_patient_pay) = None
  /\ In PrescriptionError (log (run Examples.env_without_patient_pay))
  /\ get (Examples.first_row Examples.prescriptions) "ptnt_pay_amt" = None
  /\ get (Examples.first_row Examples.prescriptions) "patient_pay" = Some (VDbl 0%float).
Proof.
  intros df. split; [reflexivity|]. split; [reflexivity|]. split; [reflexivity|].
  split; [apply prescription_without_patient_pay; reflexivity|].
  split; [vm_compute; reflexivity|]. split; [vm_compute; tauto|].
  split; reflexivity.
Qed.

End SilverFacts.

(** ** The calendar reads its dates back *)
Module CalendarFacts.
Import Spark Silver Properties Report Behaviour SparkFacts SilverFacts.

Lemma In_zrange a n x : a <= x < a + Z.of_nat n -> In x (zrange a n).
Proof.
  intros H. unfold zrange. apply in_map_iff. exists (Z.to_nat (x - a)).
  split; [lia|]. apply in_seq. lia.
Qed.

Lemma forallb_zrange (f : Z -> bool) a n :
  forallb f (zrange a n) = true -> forall x, a <= x < a + Z.of_nat n -> f x = true.
Proof.
  intros H x Hx. rewrite forallb_forall in H. now apply H, In_zrange.
Qed.

Lemma cycle_checked :
  forallb (fun yoe => forallb (fun m => forallb (cycle_date_ok yoe m) (zrange 1 31))
                              (zrange 1 12))
          (zrange 0 400) = true.
Proof. vm_cast_no_check (eq_refl true). Qed.

Lemma cycle_date yoe m d :
  0 <= yoe < 400 -> 1 <= m <= 12 -> 1 <= d <= 31 ->
  cycle_date_ok yoe m d = true.
Proof.
  intros Hy Hm Hd.
  apply (forallb_zrange (cycle_date_ok yoe m) 1 31); [|lia].
  apply (forallb_zrange (fun m => forallb (cycle_date_ok yoe m) (zrange 1 31)) 1 12); [|lia].
  apply (forallb_zrange
           (fun yoe => forallb (fun m => forallb (cycle_date_ok yoe m) (zrange 1 31))
                               (zrange 1 12)) 0 400); [|lia].
  exact cycle_checked.
Qed.

Lemma days_from_civil_shift y m d e :
  Calendar.days_from_civil (y + 400 * e) m d = Calendar.days_from_civil y m d + 146097 * e.
Proof.
  unfold Calendar.days_from_civil.
  set (y' := if m <=? 2 then y - 1 else y).
  replace (if m <=? 2 then y + 400 * e - 1 else y + 400 * e) with (y' + e * 400)
    by (unfold y'; destruct (m <=? 2); lia).
  rewrite Z.div_add by lia.
  replace (y' + e * 400 - (y' / 400 + e) * 400) with (y' - y' / 400 * 400) by lia.
  generalize (y' / 400). intros q.
  generalize (y' - q * 400). intros yoe.
  generalize (yoe / 4) (yoe / 100) ((153 * ((m + 9) mod 12) + 2) / 5). intros. lia.
Qed.

Lemma civil_from_days_shift z e :
  Calendar.civil_from_days (z + 146097 * e)
  = let '(y, m, d) := Calendar.civil_from_days z in (y + 400 * e, m, d).
Proof.
  unfold Calendar.civil_from_days. cbv zeta.
  replace (z + 146097 * e + 719468) with (z + 719468 + e * 146097) by lia.
  rewrite Z.div_add by lia.
  replace (z + 719468 + e * 146097 - ((z + 719468) / 146097 + e) * 146097)
    with (z + 719468 - (z + 719468) / 146097 * 146097) by lia.
  generalize ((z + 719468) / 146097). intros era.
  generalize (z + 719468 - era * 146097). intros doe.
  generalize ((doe - doe / 1460 + doe / 36524 - doe / 146096) / 365). intros yoe.
  generalize ((5 * (doe - (365 * yoe + yoe / 4 - yoe / 100)) + 2) / 153). intros mp.
  destruct ((if mp <? 10 then mp + 3 else mp - 9) <=? 2); f_equal; f_equal; lia.
Qed.

Lemma is_leap_shift y e : Calendar.is_leap (y + 400 * e) = Calendar.is_leap y.
Proof.
  unfold Calendar.is_leap.
  replace ((y + 400 * e) mod 4) with (y mod 4)
    by (replace (y + 400 * e) with (y + (100 * e) * 4) by lia; now rewrite Z.mod_add by lia).
  replace ((y + 400 * e) mod 100) with (y mod 100)
    by (replace (y + 400 * e) with (y + (4 * e) * 100) by lia; now rewrite Z.mod_add by lia).
  replace ((y + 400 * e) mod 400) with (y mod 400)
    by (replace (y + 400 * e) with (y + e * 400) by lia; now rewrite Z.mod_add by lia).
  reflexivity.
Qed.

(** The day number of a calendar date reads back as the date. *)
Lemma civil_from_days_of_date y m d :
  1 <= m <= 12 -> 1 <= d <= Calendar.days_in_month y m ->
  Calendar.civil_from_days (Calendar.days_from_civil y m d) = (y, m, d).
Proof.
  intros Hm Hd.
  pose (y' := if m <=? 2 then y - 1 else y).
  pose (e := y' / 400).
  pose (yoe := y' - 400 * e).
  assert (0 <= yoe < 400) as Hyoe
    by (unfold yoe, e; generalize y'; intros; Z.div_mod_to_equations; lia).
  pose (y0 := yoe + (if m <=? 2 then 1 else 0)).
  assert (y = y0 + 400 * e) as Hy
    by (unfold y0, yoe, y'; generalize e; intros; destruct (m <=? 2); lia).
  pose proof (cycle_date yoe m d Hyoe Hm) as Hc.
  unfold cycle_date_ok in Hc. fold y0 in Hc. cbv zeta in Hc.
  clearbody y0. clear Hyoe. clearbody yoe. clearbody e. clear y' yoe. subst y.
  unfold Calendar.days_in_month in Hd. rewrite is_leap_shift in Hd.
  fold (Calendar.days_in_month y0 m) in Hd.
  assert (d <= 31) as Hd31 by (pose proof (days_in_month_le y0 m); lia).
  specialize (Hc ltac:(lia)).
  destruct (Z.leb_spec d (Calendar.days_in_month y0 m)); [|lia].
  apply andb_prop in Hc as [_ Hc].
  rewrite days_from_civil_shift, civil_from_days_shift.
  destruct (Calendar.civil_from_days (Calendar.days_from_civil y0 m d)) as [[a b] c].
  apply andb_prop in Hc as [Hc Hc3]. apply andb_prop in Hc as [Hc1 Hc2].
  apply Z.eqb_eq in Hc1, Hc2, Hc3. now subst.
Qed.

End CalendarFacts.

(** ** The branches, statement by statement *)
Module BranchFacts.
Import Spark Silver Properties Report Behaviour SparkFacts SilverFacts CalendarFacts.

Lemma paired_map (g : Row -> Row) l l' s r :
  l' = map g l -> In (s, r) (combine l l') -> r = g s.
Proof.
  intros ->. induction l as [|x l IH]; cbn; [tauto|].
  intros [[= <- <-]|H]; [reflexivity|now apply IH].
Qed.

Lemma get_set_same c v r : get (set_field c v r) c = v.
Proof. now rewrite get_set_field, String.eqb_refl. Qed.

Lemma get_set_other c v r c' :
  String.eqb c c' = false -> get (set_field c v r) c' = get r c'.
Proof. intros H. now rewrite get_set_field, H. Qed.

(** One more [withColumn] on rows that are read off a source, row by row. *)
Lemma rows_step c e d d' (g : Row -> Row) (l : list Row) :
  withColumn c e d = Some d' -> rows d = map g l ->
  exists f, e (columns d) = Some f
    /\ columns d' = add_column c (columns d)
    /\ rows d' = map (fun s => set_field c (f (g s)) (g s)) l.
Proof.
  intros H R. apply withColumn_Some in H as (f & Hf & ->). exists f.
  cbn [columns rows]. rewrite R, map_map. auto.
Qed.

Lemma rows_start (d : DataFrame) : rows d = map (fun s => s) (rows d).
Proof. symmetry. apply map_id. Qed.

(** The next statement of a branch: [Hd] is its [withColumn], [R] reads the
    rows before it off the source; [g] names the rows after it. *)
Ltac next Hd R g :=
  let f := fresh "f" in
  let Hf := fresh "Hf" in
  let C := fresh "C" in
  let R' := fresh "R" in
  destruct (rows_step _ _ _ _ _ _ Hd R) as (f & Hf & C & R');
  analyze Hf; try (injection Hf as <-);
  cbv beta in R';
  match type of R' with
  | rows _ = map ?F _ => pose (g := F); change F with g in R'
  end.

(** Reading a field of a row built by successive [set_field]s. *)
Ltac peel :=
  repeat first [ rewrite get_set_same | rewrite get_set_other by reflexivity ].

Ltac lookup :=
  repeat (peel;
          match goal with
          | |- context [get (?g _) _] => is_var g; unfold g; cbv beta
          end);
  peel.

Lemma clean_claims_fields E df ct out :
  fst (clean_claims_body E df ct) = Some out ->
  exists g : Row -> Row,
    rows out = map g (rows df)
    /\ forall s,
      get (g s) "clm_from_dt" = to_date_yyyyMMdd (get s "clm_from_dt")
      /\ get (g s) "clm_thru_dt" = to_date_yyyyMMdd (get s "clm_thru_dt")
      /\ get (g s) "claim_type" = Some (VStr ct)
      /\ get (g s) "claim_duration_days"
         = sql_add (sql_datediff (get (g s) "clm_thru_dt") (get (g s) "clm_from_dt"))
                   (Some (VInt 1))
      /\ get (g s) "claim_year" = date_part Calendar.year_of (get (g s) "clm_from_dt")
      /\ get (g s) "claim_month" = date_part Calendar.month_of (get (g s) "clm_from_dt")
      /\ get (g s) "claim_quarter" = date_part Calendar.quarter_of (get (g s) "clm_from_dt")
      /\ get (g s) "payment_amount"
         = (if has_column "clm_pmt_amt" (columns df)
            then cast_double (parse_double E) (get s "clm_pmt_amt")
            else Some (VDbl 0%float)).
Proof.
  unfold clean_claims_body. intros H.
  step H d1. step H d2. step H d3. step H d4. step H d5. step H d6. step H d7.
  pose proof (rows_start df) as R0.
  next Hd1 R0 g1. next Hd2 R g2. next Hd3 R1 g3. next Hd4 R2 g4.
  next Hd5 R3 g5. next Hd6 R4 g6. next Hd7 R5 g7.
  assert (has_column "clm_pmt_amt" (columns d7) = has_column "clm_pmt_amt" (columns df)) as Hp.
  { rewrite C5, C4, C3, C2, C1, C0, C, !has_column_add_column. cbn.
    now rewrite !orb_false_r. }
  rewrite Hp in H.
  destruct (has_column "clm_pmt_amt" (columns df)); rewrite fst_call in H;
    next H R6 g8; exists g8; (split; [exact R7|]);
    intros s; repeat split; lookup; reflexivity.
Qed.

Lemma clean_claims_data_body E df ct out :
  fst (clean_claims_data E (Some df) ct) = Some out ->
  fst (clean_claims_body E df ct) = Some out.
Proof. cbn [clean_claims_data]. now rewrite fst_try_except. Qed.

Lemma clean_claims_without_dates E df ct :
  has_columns claim_date_columns (columns df) = false ->
  clean_claims_body E df ct = (None, []).
Proof.
  unfold has_columns, claim_date_columns. cbn [forallb]. rewrite andb_true_r.
  intros H. unfold clean_claims_body.
  destruct (has_column "clm_from_dt" (columns df)) eqn:H1.
  - cbn [andb] in H.
    unfold withColumn at 1, to_date_fmt, lift1, col. rewrite H1. rewrite bind_call_Some.
    unfold withColumn at 1, to_date_fmt, lift1, col. cbn [columns].
    rewrite has_column_add_column, H. reflexivity.
  - unfold withColumn at 1, to_date_fmt, lift1, col. now rewrite H1.
Qed.

(** X1. Cleansing a source whose columns are named as the catalog names them,
    in lower case and each once, goes through exactly when the source has the
    two date codes: then it returns as many rows as it was given and prints
    nothing; without one of them it returns nothing and prints its error. For
    a source that was not loaded it returns nothing and prints nothing. *)
Theorem clean_claims_data_outcome E df ct :
  catalog_names (columns df) = true ->
  clean_claims_data E None ct = (None, [])
  /\ (has_columns claim_date_columns (columns df) = true ->
      exists out, clean_claims_data E (Some df) ct = (Some out, [])
                  /\ count out = count df)
  /\ (has_columns claim_date_columns (columns df) = false ->
      clean_claims_data E (Some df) ct = (None, [CleaningError ct])).
Proof.
  intros _. split; [reflexivity|]. split.
  - intros H. cbn in H. rewrite andb_true_r in H. apply andb_prop in H as [H1 H2].
    destruct (clean_claims_ok E df ct H1 H2) as (out & Hout).
    exists out. cbn [clean_claims_data]. unfold try_except. rewrite Hout. split; [reflexivity|].
    destruct (clean_claims_rowwise E df ct out) as (g & R & _); [now rewrite Hout|].
    unfold count. now rewrite R, length_map.
  - intros H. cbn [clean_claims_data]. unfold try_except.
    now rewrite (clean_claims_without_dates E df ct H).
Qed.

(** X2. Cleansing keeps the claims: as many rows, in the order of the source;
    every column but the eight that it sets has the value of the source; the
    schema is that of the source with these eight; and every row carries the
    name of its type. *)
Theorem clean_claims_data_keeps E df ct out :
  fst (clean_claims_data E (Some df) ct) = Some out ->
  count out = count df
  /\ (forall s r, In (s, r) (paired df out) ->
        forall c, has_column c clean_touched = false -> get r c = get s c)
  /\ (forall c, has_column c (columns out)
                = has_column c (columns df) || has_column c clean_touched)
  /\ (forall r, In r (rows out) -> get r "claim_type" = Some (VStr ct)).
Proof.
  intros H. apply clean_claims_data_body in H.
  destruct (clean_claims_rowwise E df ct out H) as (g & R & G & K).
  destruct (clean_claims_fields E df ct out H) as (g' & R' & F).
  split; [|split; [|split]].
  - unfold count. now rewrite R, length_map.
  - intros s r Hsr c Hc. rewrite (paired_map g _ _ s r R Hsr). now apply G.
  - exact K.
  - intros r Hr. rewrite R' in Hr. apply in_map_iff in Hr as (s & <- & _).
    now destruct (F s) as (_ & _ & Ht & _).
Qed.

Lemma parse_date_digits code y m d :
  date_digits code = Some (y, m, d) -> calendar_date y m d = true ->
  Calendar.parse_yyyyMMdd code = Some (Calendar.days_from_civil y m d).
Proof.
  unfold date_digits, Calendar.parse_yyyyMMdd, calendar_date, Calendar.make_date.
  destruct (Nat.eqb _ _); [|discriminate].
  destruct (Calendar.digits_value 0 (substring 0 4 code)); [|discriminate].
  destruct (Calendar.digits_value 0 (substring 4 2 code)); [|discriminate].
  destruct (Calendar.digits_value 0 (substring 6 2 code)); [|discriminate].
  intros [= -> -> ->] ->. reflexivity.
Qed.

(** The year, the month and the quarter of the day number of a date. *)
Lemma date_parts y m d :
  calendar_date y m d = true ->
  Calendar.year_of (Calendar.days_from_civil y m d) = y
  /\ Calendar.month_of (Calendar.days_from_civil y m d) = m
  /\ Calendar.quarter_of (Calendar.days_from_civil y m d) = (m - 1) / 3 + 1
  /\ 1 <= (m - 1) / 3 + 1 <= 4.
Proof.
  unfold calendar_date. intros H.
  repeat (apply andb_prop in H as [H ?]).
  unfold Calendar.quarter_of, Calendar.year_of, Calendar.month_of.
  rewrite civil_from_days_of_date by lia. cbn [fst snd].
  repeat split; Z.div_mod_to_equations; lia.
Qed.

(** X3. A claim whose from-date code names the calendar date y-m-d has that
    date as its from-date, y as its year, m as its month and the quarter of m,
    which is one of 1 to 4. *)
Theorem claim_time_dimensions E df ct out :
  fst (clean_claims_data E (Some df) ct) = Some out ->
  forall s r code y m d,
    In (s, r) (paired df out) ->
    get s "clm_from_dt" = Some (VStr code) ->
    date_digits code = Some (y, m, d) -> calendar_date y m d = true ->
    get r "clm_from_dt" = Some (VDate (Calendar.days_from_civil y m d))
    /\ get r "claim_year" = Some (VInt y)
    /\ get r "claim_month" = Some (VInt m)
    /\ get r "claim_quarter" = Some (VInt ((m - 1) / 3 + 1))
    /\ 1 <= (m - 1) / 3 + 1 <= 4.
Proof.
  intros H s r code y m d Hsr Hs Hd Hc. apply clean_claims_data_body in H.
  destruct (clean_claims_fields E df ct out H) as (g & R & F).
  rewrite (paired_map g _ _ s r R Hsr).
  destruct (F s) as (Ff & _ & _ & _ & Fy & Fm & Fq & _).
  destruct (date_parts y m d Hc) as (Py & Pm & Pq & Pr).
  assert (get (g s) "clm_from_dt" = Some (VDate (Calendar.days_from_civil y m d))) as Hf.
  { rewrite Ff, Hs. cbn [to_date_yyyyMMdd]. now rewrite (parse_date_digits code y m d Hd Hc). }
  rewrite Fy, Fm, Fq, Hf. cbn [date_part]. rewrite Py, Pm, Pq. auto.
Qed.

(** X4. A claim without a from-date code, a NULL, is kept, with a NULL
    from-date, duration, year, month and quarter; one without a thru-date code
    has a NULL thru-date and duration. *)
Theorem missing_claim_dates E df ct out :
  fst (clean_claims_data E (Some df) ct) = Some out ->
  count out = count df
  /\ forall s r, In (s, r) (paired df out) ->
       (get s "clm_from_dt" = None ->
          get r "clm_from_dt" = None /\ get r "claim_duration_days" = None
          /\ get r "claim_year" = None /\ get r "claim_month" = None
          /\ get r "claim_quarter" = None)
       /\ (get s "clm_thru_dt" = None ->
             get r "clm_thru_dt" = None /\ get r "claim_duration_days" = None).
Proof.
  intros H. apply clean_claims_data_body in H.
  destruct (clean_claims_fields E df ct out H) as (g & R & F).
  split; [unfold count; now rewrite R, length_map|].
  intros s r Hsr. rewrite (paired_map g _ _ s r R Hsr).
  destruct (F s) as (Ff & Ft & _ & Fd & Fy & Fm & Fq & _).
  split.
  - intros Hn. rewrite Fd, Fy, Fm, Fq, Ff, Hn. cbn.
    repeat split. now destruct (get (g s) "clm_thru_dt") as [[]|].
  - intros Hn. rewrite Fd, Ft, Hn. cbn. auto.
Qed.

Lemma to_date_shape a :
  to_date_yyyyMMdd a = None \/ exists z, to_date_yyyyMMdd a = Some (VDate z).
Proof.
  destruct a as [[]|]; cbn; eauto.
  - destruct (Calendar.parse_yyyyMMdd s); cbn; eauto.
  - destruct (_ && _); [|eauto]. destruct (Calendar.make_date _ _ _); cbn; eauto.
Qed.

(** X6. The payment amount of a cleansed claim is the amount of the source as
    a double when the source has the amount column, NULL where that amount is
    missing or is not a number, and 0.0 on every claim of a source that has no
    amount column. *)
Theorem payment_amount_standardized E df ct out :
  fst (clean_claims_data E (Some df) ct) = Some out ->
  forall s r, In (s, r) (paired df out) ->
    (has_column "clm_pmt_amt" (columns df) = true ->
       get r "payment_amount" = cast_double (parse_double E) (get s "clm_pmt_amt"))
    /\ (has_column "clm_pmt_amt" (columns df) = false ->
          get r "payment_amount" = Some (VDbl 0%float))
    /\ (get r "payment_amount" = None \/ exists x, get r "payment_amount" = Some (VDbl x)).
Proof.
  intros H s r Hsr. apply clean_claims_data_body in H.
  destruct (clean_claims_fields E df ct out H) as (g & R & F).
  rewrite (paired_map g _ _ s r R Hsr).
  destruct (F s) as (_ & _ & _ & _ & _ & _ & _ & Fp). rewrite Fp.
  split; [|split].
  - now intros ->.
  - now intros ->.
  - destruct (has_column "clm_pmt_amt" (columns df)); [apply cast_double_shape|eauto].
Qed.

(** *** The window keeps the rows *)
Lemma flat_map_cons_row (p : string) (r : Row) l ks :
  (List.length (filter (cell_eqb (get r p)) ks) <= 1)%nat ->
  Permutation (flat_map (fun k => partition_of p k (r :: l)) ks)
              ((if existsb (cell_eqb (get r p)) ks then [r] else [])
                 ++ flat_map (fun k => partition_of p k l) ks).
Proof.
  induction ks as [|k ks IH]; intros Hc; [reflexivity|].
  cbn [flat_map existsb filter] in *. unfold partition_of at 1. cbn [filter].
  fold (partition_of p k l).
  destruct (cell_eqb (get r p) k) eqn:Hk; cbn [orb].
  - cbn [List.length] in Hc.
    assert (filter (cell_eqb (get r p)) ks = []) as Hnil
      by (destruct (filter (cell_eqb (get r p)) ks); [reflexivity|cbn in Hc; lia]).
    assert (existsb (cell_eqb (get r p)) ks = false) as Hex.
    { destruct (existsb (cell_eqb (get r p)) ks) eqn:Hex; [|reflexivity].
      apply existsb_exists in Hex as (x & Hx & Hb).
      assert (In x (filter (cell_eqb (get r p)) ks)) as Hin by (apply filter_In; auto).
      rewrite Hnil in Hin. contradiction. }
    rewrite IH by (rewrite Hnil; cbn; lia). rewrite Hex. reflexivity.
  - rewrite (IH Hc). rewrite !app_assoc. apply Permutation_app_tail, Permutation_app_comm.
Qed.

Lemma partition_perm p l ks :
  (forall b, (List.length (filter (cell_eqb b) ks) <= 1)%nat) ->
  (forall r, In r l -> existsb (cell_eqb (get r p)) ks = true) ->
  Permutation (flat_map (fun k => partition_of p k l) ks) l.
Proof.
  intros Hc. induction l as [|r l IH]; intros Hex.
  - clear Hex. induction ks as [|k ks IHk]; [reflexivity|]. cbn. apply IHk.
    intros b. specialize (Hc b). cbn in Hc. destruct (cell_eqb b k); cbn in Hc; lia.
  - rewrite flat_map_cons_row by apply Hc.
    rewrite (Hex r (or_introl eq_refl)). cbn [app]. constructor.
    apply IH. intros x Hx. apply Hex. now right.
Qed.

(** The partitions of the window, one after the other, are the rows. *)
Lemma partitions_perm p l :
  Permutation
    (flat_map (fun k => partition_of p k l) (distinct_keys (map (fun r => get r p) l))) l.
Proof.
  apply partition_perm.
  - intros b. rewrite distinct_keys_count. destruct (existsb _ _); lia.
  - intros r Hr.
    pose proof (distinct_keys_count (get r p) (map (fun r => get r p) l)) as Hc.
    replace (existsb (cell_eqb (get r p)) (map (fun r => get r p) l)) with true in Hc.
    + destruct (filter _ _) as [|k ks] eqn:Hf; [discriminate Hc|].
      assert (In k (filter (cell_eqb (get r p)) (distinct_keys (map (fun r => get r p) l))))
        as Hk by (rewrite Hf; now left).
      apply filter_In in Hk as [Hk Hb]. apply existsb_exists. eauto.
    + symmetry. apply existsb_exists. exists (get r p). split; [|apply cell_eqb_refl].
      now apply (in_map (fun r => get r p)).
Qed.

Lemma flat_map_perm {A B} (F G : A -> list B) ks :
  (forall k, Permutation (F k) (G k)) -> Permutation (flat_map F ks) (flat_map G ks).
Proof.
  intros H. induction ks as [|k ks IH]; [reflexivity|]. cbn. now apply Permutation_app.
Qed.

Lemma map_flat_map {A B C} (h : B -> C) (F : A -> list B) ks :
  map h (flat_map F ks) = flat_map (fun k => map h (F k)) ks.
Proof. induction ks as [|k ks IH]; [reflexivity|]. cbn. now rewrite map_app, IH. Qed.

Lemma lead_rows_view {V} (h : Row -> V) c src l :
  (forall r v, h (set_field c v r) = h r) -> map h (lead_rows c src l) = map h l.
Proof.
  intros Hh. induction l as [|r l IH]; [reflexivity|]. cbn. now rewrite Hh, IH.
Qed.

(** Seen through anything that does not read the end date, the rows after
    [lead] over the window are the rows before it, rearranged. *)
Lemma lead_over_window_view {V} (h : Row -> V) l :
  (forall r v, h (set_field "effective_end_date" v r) = h r) ->
  Permutation (map h (lead_over_window l)) (map h l).
Proof.
  intros Hh. unfold lead_over_window. rewrite map_flat_map.
  transitivity (map h (flat_map (fun k => partition_of "desynpuf_id" k l)
                         (distinct_keys (map (fun r => get r "desynpuf_id") l))));
    [|apply Permutation_map, partitions_perm].
  rewrite map_flat_map. apply flat_map_perm. intros k.
  rewrite lead_rows_view by exact Hh. apply Permutation_map, window_order_perm.
Qed.

Lemma lead_over_window_length l : List.length (lead_over_window l) = List.length l.
Proof.
  rewrite <- (length_map (fun _ => tt) (lead_over_window l)), <- (length_map (fun _ => tt) l).
  apply Permutation_length, lead_over_window_view. reflexivity.
Qed.

Lemma restrict_ext cs r r' :
  (forall c, In c cs -> get r' c = get r c) -> restrict cs r' = restrict cs r.
Proof. intros H. unfold restrict. apply map_ext_in. intros c Hc. now rewrite H. Qed.

Lemma get_set_other' c v r c' :
  String.eqb c' c = false -> get (set_field c v r) c' = get r c'.
Proof. intros H. apply get_set_other. now rewrite String.eqb_sym. Qed.

(** Reading a column that none of the successive [set_field]s sets. *)
Ltac lookup_other :=
  repeat (repeat (rewrite get_set_other' by assumption);
          match goal with
          | |- context [get (?g _) _] => is_var g; unfold g; cbv beta
          end);
  repeat (rewrite get_set_other' by assumption).

(** The schema facts that the analysis of the statements has left, read on
    the schema of the source. *)
Ltac on_source :=
  repeat match goal with
         | C : columns ?d = _ |- _ => rewrite C in *; clear C
         end;
  rewrite ?has_column_add_column in *;
  cbn [String.eqb Ascii.eqb Bool.eqb] in *;
  rewrite ?orb_false_r in *.

Lemma gender_label code :
  (if is_true (sql_eq (Some (VStr code)) (Some (VStr "1"))) then Some (VStr "Male")
   else if is_true (sql_eq (Some (VStr code)) (Some (VStr "2"))) then Some (VStr "Female")
   else Some (VStr "Unknown"))
  = Some (VStr (gender_of code)).
Proof.
  unfold gender_of. cbn [sql_eq]. rewrite !is_true_bool.
  now destruct (String.eqb code "1"), (String.eqb code "2").
Qed.

Lemma race_label code :
  (if is_true (sql_eq (Some (VStr code)) (Some (VStr "1"))) then Some (VStr "White")
   else if is_true (sql_eq (Some (VStr code)) (Some (VStr "2"))) then Some (VStr "Black")
   else if is_true (sql_eq (Some (VStr code)) (Some (VStr "3"))) then Some (VStr "Other")
   else if is_true (sql_eq (Some (VStr code)) (Some (VStr "5"))) then Some (VStr "Hispanic")
   else Some (VStr "Unknown"))
  = Some (VStr (race_of code)).
Proof.
  unfold race_of. cbn [sql_eq]. rewrite !is_true_bool.
  now destruct (String.eqb code "1"), (String.eqb code "2"), (String.eqb code "3"),
    (String.eqb code "5").
Qed.

Lemma beneficiary_body_inv E df out :
  fst (beneficiary_body E df) = Some out ->
  has_columns required_beneficiary_columns (columns df) = true
  /\ sink_ok E "beneficiary_clean" = true
  /\ exists g : Row -> Row,
       rows out = map close_version (lead_over_window (map start_version (map g (rows df))))
       /\ forall s,
            get (g s) "bene_birth_dt" = to_date_yyyyMMdd (get s "bene_birth_dt")
            /\ get (g s) "bene_death_dt" = to_date_yyyyMMdd (get s "bene_death_dt")
            /\ get (g s) "age" = age_of (today E) (get (g s) "bene_birth_dt")
            /\ get (g s) "is_deceased"
               = Some (VBool (negb (is_null (get (g s) "bene_death_dt"))))
            /\ (forall code, get s "bene_sex_ident_cd" = Some (VStr code) ->
                  get (g s) "gender" = Some (VStr (gender_of code)))
            /\ (get s "bene_sex_ident_cd" = None -> get (g s) "gender" = Some (VStr "Unknown"))
            /\ (forall code, get s "bene_race_cd" = Some (VStr code) ->
                  get (g s) "race" = Some (VStr (race_of code)))
            /\ (get s "bene_race_cd" = None -> get (g s) "race" = Some (VStr "Unknown"))
            /\ (forall c, has_column c beneficiary_touched = false -> get (g s) c = get s c).
Proof.
  unfold beneficiary_body. intros H.
  try_step H d2. try_step H d6. try_step H d7. try_step H d11.
  apply fst_tail_Some in H as [<- Hsink].
  unfold standardize_dates in Hd2. step Hd2 d1. rewrite fst_call in Hd2.
  unfold derived_columns in Hd6. step Hd6 d3. step Hd6 d4. step Hd6 d5.
  rewrite fst_call in Hd6, Hd7.
  pose proof (rows_start df) as R0.
  next Hd1 R0 g1. next Hd2 R g2. next Hd3 R1 g3. next Hd4 R2 g4.
  next Hd5 R3 g5. next Hd6 R4 g6.
  destruct (with_chronic_condition_count_Some d6) as (f & Hf & _).
  rewrite Hf in Hd7. injection Hd7 as <-.
  set (d7 := mkDF _ _) in Hd11.
  assert (rows d7 = map (fun s => set_field "chronic_condition_count" (f (g6 s)) (g6 s))
                        (rows df)) as R6
    by (unfold d7; cbn [rows]; now rewrite R5, map_map).
  pose (g7 := fun s => set_field "chronic_condition_count" (f (g6 s)) (g6 s)).
  change (fun s => set_field "chronic_condition_count" (f (g6 s)) (g6 s)) with g7 in R6.
  assert (columns d7 = add_column "chronic_condition_count" (columns d6)) as C5
    by reflexivity.
  clearbody d7.
  assert (has_column "bronze_load_date" (columns d7) = true
          /\ has_column "desynpuf_id" (columns d7) = true
          /\ has_column "bronze_load_timestamp" (columns d7) = true) as (S1 & S2 & S3).
  { pose proof Hd11 as Hs. unfold scd_type2 in Hs. step Hs e1. step Hs e2.
    apply withColumn_Some in He1 as (f1 & Hf1 & ->). analyze Hf1.
    apply withColumn_lead_Some in He2 as (_ & L2 & L3 & _). cbn [columns] in L2, L3.
    rewrite has_column_add_column in L2, L3. cbn in L2, L3.
    rewrite orb_false_r in L2, L3. auto. }
  destruct (scd_type2_spec d7 S1 S2 S3) as (out & Hout & Rout).
  rewrite Hout in Hd11. injection Hd11 as <-.
  split; [|split; [exact Hsink|]].
  - on_source. cbn. now rewrite Heqb, Heqb0, Heqb3, Heqb4, S1, S2, S3.
  - exists g7. split; [now rewrite Rout, R6|]. intros s.
    assert (get (g2 s) "bene_birth_dt" = to_date_yyyyMMdd (get s "bene_birth_dt")) as Hb
      by (lookup; reflexivity).
    assert (get (g2 s) "bene_death_dt" = to_date_yyyyMMdd (get s "bene_death_dt")) as Hd.
    { lookup. now destruct (get s "bene_death_dt"). }
    assert (get (g7 s) "bene_birth_dt" = get (g2 s) "bene_birth_dt") as Hb7
      by (unfold g7, g6, g5, g4, g3; now peel).
    assert (get (g7 s) "bene_death_dt" = get (g2 s) "bene_death_dt") as Hd7
      by (unfold g7, g6, g5, g4, g3; now peel).
    assert (get (g4 s) "bene_sex_ident_cd" = get s "bene_sex_ident_cd") as Hg
      by (lookup; reflexivity).
    assert (get (g5 s) "bene_race_cd" = get s "bene_race_cd") as Hr
      by (lookup; reflexivity).
    split; [now rewrite Hb7|]. split; [now rewrite Hd7|].
    split; [rewrite Hb7; unfold g7, g6, g5, g4, g3; cbv beta; peel; reflexivity|].
    split; [rewrite Hd7; unfold g7, g6, g5, g4; cbv beta; peel;
            unfold g3; cbv beta; peel; reflexivity|].
    split; [intros code Hc; unfold g7, g6, g5; cbv beta; peel; rewrite Hg, Hc;
            apply gender_label|].
    split; [intros Hc; unfold g7, g6, g5; cbv beta; peel; rewrite Hg, Hc; reflexivity|].
    split; [intros code Hc; unfold g7, g6; cbv beta; peel; rewrite Hr, Hc;
            apply race_label|].
    split; [intros Hc; unfold g7, g6; cbv beta; peel; rewrite Hr, Hc; reflexivity|].
    intros c Hc. cbn in Hc. rewrite orb_false_r in Hc.
    repeat (apply orb_false_elim in Hc as [? Hc]).
    lookup_other. reflexivity.
Qed.

Lemma fst_bind {A B} (x : Try A) (k : A -> Try B) :
  fst (bind x k) = match fst x with Some a => fst (k a) | None => None end.
Proof. unfold bind. now destruct (fst x). Qed.

Lemma snd_bind {A B} (x : Try A) (k : A -> Try B) :
  snd (bind x k) = snd x ++ match fst x with Some a => snd (k a) | None => [] end.
Proof. unfold bind. destruct (fst x); cbn; [reflexivity|now rewrite app_nil_r]. Qed.

(** What a [try] block returns, from the value and the lines of its body. *)
Lemma try_except_eq {A} (x : Try A) m :
  try_except x m
  = (fst x, snd x ++ match fst x with Some _ => [] | None => [m] end).
Proof. unfold try_except. destruct (fst x); [now rewrite app_nil_r|reflexivity]. Qed.

(** The beneficiary branch prints its count when it goes through, and
    nothing before. *)
Lemma snd_beneficiary_body E df :
  snd (beneficiary_body E df)
  = match fst (beneficiary_body E df) with
    | Some out => [BeneficiaryProcessed (count out)]
    | None => []
    end.
Proof.
  unfold beneficiary_body.
  rewrite snd_bind, fst_bind, snd_standardize_dates.
  destruct (fst (standardize_dates df)) as [d1|]; [|reflexivity].
  rewrite snd_bind, fst_bind, snd_derived_columns.
  destruct (fst (derived_columns E d1)) as [d2|]; [|reflexivity].
  rewrite snd_bind, fst_bind. cbn [fst snd call app].
  destruct (with_chronic_condition_count d2) as [d3|]; [|reflexivity].
  rewrite snd_bind, fst_bind, snd_scd_type2.
  destruct (fst (scd_type2 d3)) as [d4|]; [|reflexivity].
  unfold write. now destruct (sink_ok E "beneficiary_clean").
Qed.

Lemma close_version_view {V} (h : Row -> V) l :
  (forall r v, h (set_field "effective_end_date" v r) = h r) ->
  (forall r v, h (set_field "is_current" v r) = h r) ->
  map h (map close_version l) = map h l.
Proof.
  intros H1 H2. rewrite map_map. apply map_ext. intros r.
  unfold close_version. now rewrite H1, H2.
Qed.

Lemma count_versions l :
  List.length (map close_version (lead_over_window (map start_version l))) = List.length l.
Proof. now rewrite length_map, lead_over_window_length, length_map. Qed.

(** X7. On a source whose columns are named as the catalog names them, in
    lower case and each once, the beneficiary branch goes through exactly when
    the source has the seven columns that it names and the write of its output
    goes through: then it returns one version for each snapshot of the source
    and prints their number; otherwise it returns nothing and prints its
    error. For a source that was not loaded it returns nothing and prints
    nothing. *)
Theorem beneficiary_branch_outcome E df :
  catalog_names (columns df) = true ->
  beneficiary_branch E None = (None, [])
  /\ (has_columns required_beneficiary_columns (columns df)
      && sink_ok E "beneficiary_clean" = true ->
      exists out, beneficiary_branch E (Some df)
                  = (Some out, [BeneficiaryProcessed (count df)])
                  /\ count out = count df)
  /\ (has_columns required_beneficiary_columns (columns df)
      && sink_ok E "beneficiary_clean" = false ->
      beneficiary_branch E (Some df) = (None, [BeneficiaryError])).
Proof.
  intros _. split; [reflexivity|]. split.
  - intros H. apply andb_prop in H as [Hc Hs].
    destruct (beneficiary_body_spec E df Hc Hs) as (g & out & Hb & R & _).
    assert (count out = count df) as Hn
      by (unfold count; now rewrite R, count_versions, length_map).
    exists out. cbn [beneficiary_branch]. unfold try_except. rewrite Hb. cbn [fst snd].
    now rewrite Hn.
  - intros H. cbn [beneficiary_branch]. rewrite try_except_eq, snd_beneficiary_body.
    destruct (fst (beneficiary_body E df)) as [out|] eqn:Hb; [|reflexivity].
    apply beneficiary_body_inv in Hb as (Hc & Hs & _). now rewrite Hc, Hs in H.
Qed.

Lemma beneficiary_branch_body E df out :
  fst (beneficiary_branch E (Some df)) = Some out ->
  fst (beneficiary_body E df) = Some out.
Proof. cbn [beneficiary_branch]. now rewrite fst_try_except. Qed.

Lemma not_set c :
  has_column c beneficiary_set = false ->
  has_column c beneficiary_touched = false
  /\ String.eqb c "effective_start_date" = false
  /\ String.eqb c "effective_end_date" = false
  /\ String.eqb c "is_current" = false.
Proof.
  unfold beneficiary_set. rewrite has_column_app. intros H.
  apply orb_false_elim in H as [H1 H2]. cbn in H2. rewrite orb_false_r in H2.
  apply orb_false_elim in H2 as [H2 H3]. apply orb_false_elim in H3 as [H3 H4]. auto.
Qed.

(** X8. Every snapshot of the source comes out once: seen through columns that
    the branch does not set, the versions are the snapshots, rearranged by the
    window. *)
Theorem beneficiary_snapshots_kept E df out :
  fst (beneficiary_branch E (Some df)) = Some out ->
  count out = count df
  /\ forall cs, (forall c, In c cs -> has_column c beneficiary_set = false) ->
       Permutation (map (restrict cs) (rows out)) (map (restrict cs) (rows df)).
Proof.
  intros H. apply beneficiary_branch_body, beneficiary_body_inv in H
    as (_ & _ & g & R & F).
  split; [unfold count; now rewrite R, count_versions, length_map|].
  intros cs Hcs. rewrite R.
  assert (forall c r v, In c cs -> String.eqb c v = false ->
            forall x, get (set_field v x r) c = get r c) as Hset
    by (intros c r v Hc Hv x; now apply get_set_other').
  rewrite close_version_view;
    [|intros r v; apply restrict_ext; intros c Hc; apply Hset; trivial;
      now destruct (not_set c (Hcs c Hc)) as (_ & _ & ? & ?)..].
  rewrite lead_over_window_view
    by (intros r v; apply restrict_ext; intros c Hc; apply Hset; trivial;
        now destruct (not_set c (Hcs c Hc)) as (_ & _ & ? & ?)).
  rewrite !map_map. apply Permutation_refl'. apply map_ext. intros s.
  apply restrict_ext. intros c Hc. destruct (not_set c (Hcs c Hc)) as (Ht & Hs & _ & _).
  unfold start_version. rewrite Hset by trivial.
  now destruct (F s) as (_ & _ & _ & _ & _ & _ & _ & _ & Hu); apply Hu.
Qed.

(** Where a version comes from: a snapshot of the source, its columns set by
    the branch, its end date set by the window. *)
Lemma version_origin (g : Row -> Row) l r :
  In r (map close_version (lead_over_window (map start_version (map g l)))) ->
  exists s v, In s l
    /\ r = close_version (set_field "effective_end_date" v (start_version (g s))).
Proof.
  intros H. apply in_map_iff in H as (r1 & <- & H).
  apply lead_over_window_In in H as (r0 & v & H & ->).
  rewrite map_map in H. apply in_map_iff in H as (s & <- & H). eauto.
Qed.

Lemma get_version (g : Row -> Row) s v c :
  String.eqb c "effective_start_date" = false ->
  String.eqb c "effective_end_date" = false ->
  String.eqb c "is_current" = false ->
  get (close_version (set_field "effective_end_date" v (start_version (g s)))) c
  = get (g s) c.
Proof.
  intros H1 H2 H3. unfold close_version, start_version.
  now rewrite !get_set_other' by assumption.
Qed.

(** X9. The gender and the race of a version are the labels of its codes: of a
    code that is none of the listed ones, and of a missing code, "Unknown". *)
Theorem gender_and_race_labels E df out :
  fst (beneficiary_branch E (Some df)) = Some out ->
  forall r, In r (rows out) ->
    (forall code, get r "bene_sex_ident_cd" = Some (VStr code) ->
       get r "gender" = Some (VStr (gender_of code)))
    /\ (get r "bene_sex_ident_cd" = None -> get r "gender" = Some (VStr "Unknown"))
    /\ (forall code, get r "bene_race_cd" = Some (VStr code) ->
          get r "race" = Some (VStr (race_of code)))
    /\ (get r "bene_race_cd" = None -> get r "race" = Some (VStr "Unknown")).
Proof.
  intros H r Hr. apply beneficiary_branch_body, beneficiary_body_inv in H
    as (_ & _ & g & R & F).
  rewrite R in Hr. apply version_origin in Hr as (s & v & _ & ->).
  destruct (F s) as (_ & _ & _ & _ & G1 & G2 & R1 & R2 & Hu).
  repeat split; [intros code Hc|intros Hc|intros code Hc|intros Hc];
    rewrite get_version in * by reflexivity; rewrite Hu in Hc by reflexivity; auto.
Qed.

Lemma age_of_date today z : exists n, age_of today (Some (VDate z)) = Some (VInt n).
Proof. unfold age_of. cbn. eauto. Qed.

(** X10. Every version comes from a snapshot of the source: its birth and
    death dates are the date codes of the snapshot as dates, NULL for a code
    that is not read; it is deceased exactly when it has a death date; and its
    age is NULL exactly when it has no birth date. *)
Theorem beneficiary_dates E df out :
  fst (beneficiary_branch E (Some df)) = Some out ->
  forall r, In r (rows out) ->
    (exists s, In s (rows df)
       /\ get r "bene_birth_dt" = to_date_yyyyMMdd (get s "bene_birth_dt")
       /\ get r "bene_death_dt" = to_date_yyyyMMdd (get s "bene_death_dt")
       /\ forall c, has_column c beneficiary_set = false -> get r c = get s c)
    /\ get r "is_deceased" = Some (VBool (negb (is_null (get r "bene_death_dt"))))
    /\ get r "age" = age_of (today E) (get r "bene_birth_dt")
    /\ (get r "age" = None <-> get r "bene_birth_dt" = None).
Proof.
  intros H r Hr. apply beneficiary_branch_body, beneficiary_body_inv in H
    as (_ & _ & g & R & F).
  rewrite R in Hr. apply version_origin in Hr as (s & v & Hs & ->).
  rewrite !get_version by reflexivity.
  destruct (F s) as (Fb & Fd & Fa & Fi & _ & _ & _ & _ & Hu).
  split; [|split; [exact Fi|split; [exact Fa|]]].
  - exists s. split; [exact Hs|]. split; [exact Fb|]. split; [exact Fd|].
    intros c Hc. destruct (not_set c Hc) as (Ht & H1 & H2 & H3).
    rewrite get_version by assumption. now apply Hu.
  - rewrite Fa, Fb. destruct (to_date_shape (get s "bene_birth_dt")) as [->|[z ->]].
    + split; reflexivity.
    + destruct (age_of_date (today E) z) as [n ->]. split; discriminate.
Qed.

(** X11. When the load date of the source is a date column, with dates in
    any order and possibly missing on some snapshots, every version starts at
    its own load date, has an end date, and is current or not; a current
    version ends on 9999-12-31; and every beneficiary that has a snapshot has
    a current version. *)
Theorem versions_closed E df out :
  fst (beneficiary_branch E (Some df)) = Some out ->
  date_column "bronze_load_date" df = true ->
  (forall r, In r (rows out) ->
     get r "effective_start_date" = get r "bronze_load_date"
     /\ get r "effective_end_date" <> None
     /\ exists b, get r "is_current" = Some (VBool b)
          /\ (b = true -> get r "effective_end_date" = Some (VDate far_future)))
  /\ (forall b, snapshots_of b df <> [] ->
        exists v, In v (partition_of "desynpuf_id" b (rows out))
                  /\ get v "is_current" = Some (VBool true)).
Proof.
  intros H _. apply beneficiary_branch_body, beneficiary_body_inv in H
    as (_ & _ & g & R & F).
  split.
  - intros r Hr. rewrite R in Hr. apply version_origin in Hr as (s & v & _ & ->).
    unfold close_version, start_version. peel.
    split; [reflexivity|]. split.
    + destruct v; cbn; discriminate.
    + exists (is_null v). split; [reflexivity|]. now intros ->.
  - intros b Hne.
    rewrite (versions_of_beneficiary g out df b R)
      by (intros r c; now destruct (F r) as (_ & _ & _ & _ & _ & _ & _ & _ & Hu); apply Hu).
    assert (ordered_snapshots b df <> []) as Hw.
    { intros Hnil. apply Hne.
      apply Permutation_nil. rewrite <- Hnil.
      apply (window_order_perm "bronze_load_timestamp" (snapshots_of b df)). }
    destruct (ordered_snapshots b df) as [|s0 w]; [congruence|]. clear Hw.
    cbn [map]. generalize (start_version (g s0)) as r0.
    generalize (map (fun s => start_version (g s)) w) as l. clear.
    induction l as [|r1 l IH]; intros r0.
    + eexists. split; [left; reflexivity|]. unfold close_version. now peel.
    + destruct (IH r1) as (v & Hv & Hc). exists v. split; [|exact Hc].
      cbn [lead_rows map]. cbn [lead_rows map] in Hv. now right.
Qed.

Lemma prescription_body_inv E df out :
  fst (prescription_body E df) = Some out ->
  has_columns required_prescription_columns (columns df) = true
  /\ sink_ok E "prescriptions_clean" = true
  /\ exists g : Row -> Row,
       rows out = map g (rows df)
       /\ forall s,
            get (g s) "srvc_dt" = to_date_yyyyMMdd (get s "srvc_dt")
            /\ get (g s) "prescription_year"
               = date_part Calendar.year_of (get (g s) "srvc_dt")
            /\ get (g s) "prescription_month"
               = date_part Calendar.month_of (get (g s) "srvc_dt")
            /\ get (g s) "qty_dispensed" = cast_int (parse_int E) (get s "qty_dspnsd_num")
            /\ get (g s) "days_supply" = cast_int (parse_int E) (get s "days_suply_num")
            /\ get (g s) "total_cost" = cast_double (parse_double E) (get s "tot_rx_cst_amt")
            /\ get (g s) "patient_pay" = patient_pay_of E (get s "ptnt_pay_amt")
            /\ (forall c, has_column c prescription_touched = false ->
                  get (g s) c = get s c).
Proof.
  unfold prescription_body. intros H.
  step H d1. step H d2. step H d3. step H d4. step H d5. step H d6. step H d7. step H d8.
  apply fst_tail_Some in H as [<- Hsink].
  pose proof (rows_start df) as R0.
  next Hd1 R0 g1. next Hd2 R g2. next Hd3 R1 g3. next Hd4 R2 g4.
  next Hd5 R3 g5. next Hd6 R4 g6. next Hd7 R5 g7. next Hd8 R6 g8.
  split; [|split; [exact Hsink|]].
  - on_source. cbn.
    repeat match goal with H : has_column _ (columns df) = true |- _ => rewrite H; clear H end.
    reflexivity.
  - exists g8. split; [exact R7|]. intros s.
    split; [lookup; reflexivity|]. split; [lookup; reflexivity|].
    split; [lookup; reflexivity|]. split; [lookup; reflexivity|].
    split; [lookup; reflexivity|]. split; [lookup; reflexivity|].
    split; [lookup; unfold patient_pay_of; now destruct (get s "ptnt_pay_amt")|].
    intros c Hc. cbn in Hc. rewrite orb_false_r in Hc.
    repeat (apply orb_false_elim in Hc as [? Hc]).
    lookup_other. reflexivity.
Qed.

Lemma snd_prescription_body E df :
  snd (prescription_body E df)
  = match fst (prescription_body E df) with
    | Some out => [PrescriptionsProcessed (count out)]
    | None => []
    end.
Proof.
  unfold prescription_body.
  repeat (rewrite snd_bind, fst_bind; cbn [fst snd call app];
          destruct (withColumn _ _ _); [|reflexivity]).
  unfold write. now destruct (sink_ok E "prescriptions_clean").
Qed.

Lemma prescription_body_ok E df :
  has_columns required_prescription_columns (columns df) = true ->
  sink_ok E "prescriptions_clean" = true ->
  exists out, fst (prescription_body E df) = Some out.
Proof.
  intros Hc Hs. cbn in Hc. rewrite !andb_true_iff in Hc.
  destruct Hc as (C1 & C2 & C3 & C4 & C5 & _).
  unfold prescription_body.
  resolve_columns. rewrite bind_call_Some.
  resolve_columns. rewrite bind_call_Some.
  resolve_columns. rewrite bind_call_Some.
  resolve_columns. rewrite bind_call_Some.
  resolve_columns. rewrite bind_call_Some.
  resolve_columns. rewrite bind_call_Some.
  resolve_columns. rewrite bind_call_Some.
  resolve_columns. rewrite bind_call_Some.
  rewrite (tail_ok E _ _ _ _ Hs). eexists. reflexivity.
Qed.

(** X12. On a source whose columns are named as the catalog names them, in
    lower case and each once, the prescription branch goes through exactly
    when the source has the five columns that it names, the patient-pay amount
    among them, and the write of its output goes through: then it returns one
    row for each row of the source and prints their number; otherwise it
    returns nothing and prints its error. *)
Theorem prescription_branch_outcome E df :
  catalog_names (columns df) = true ->
  prescription_branch E None = (None, [])
  /\ (has_columns required_prescription_columns (columns df)
      && sink_ok E "prescriptions_clean" = true ->
      exists out, prescription_branch E (Some df)
                  = (Some out, [PrescriptionsProcessed (count df)])
                  /\ count out = count df)
  /\ (has_columns required_prescription_columns (columns df)
      && sink_ok E "prescriptions_clean" = false ->
      prescription_branch E (Some df) = (None, [PrescriptionError])).
Proof.
  intros _. split; [reflexivity|]. split.
  - intros H. apply andb_prop in H as [Hc Hs].
    destruct (prescription_body_ok E df Hc Hs) as (out & Hout).
    assert (count out = count df) as Hn.
    { destruct (prescription_body_inv E df out Hout) as (_ & _ & g & R & _).
      unfold count. now rewrite R, length_map. }
    exists out. split; [|exact Hn].
    cbn [prescription_branch]. rewrite try_except_eq, snd_prescription_body, Hout.
    now rewrite Hn.
  - intros H. cbn [prescription_branch]. rewrite try_except_eq, snd_prescription_body.
    destruct (fst (prescription_body E df)) as [out|] eqn:Hb; [|reflexivity].
    apply prescription_body_inv in Hb as (Hc & Hs & _). now rewrite Hc, Hs in H.
Qed.

Lemma prescription_branch_body E df out :
  fst (prescription_branch E (Some df)) = Some out ->
  fst (prescription_body E df) = Some out.
Proof. cbn [prescription_branch]. now rewrite fst_try_except. Qed.

(** C8. Every prescription event of the source comes out with its days of
    supply and its total cost, the amounts of the source cast to an integer
    and to a double, and with [cost_per_day]: the quotient of the total cost
    by the days of supply when both are positive, and 0.0 otherwise, that is
    with 0 days or fewer, with a cost that is not positive, and with days or
    a cost that is missing or not a number. The division is reached with a
    positive divisor only and [cost_per_day] is never NULL: a total cost of
    300 is 10.0 a day over 30 days of supply and 0.0 over 0 days. *)
Theorem cost_per_day_guarded E df out :
  catalog E "prescription" = Some df ->
  prescription_clean (run E) = Some out ->
  count out = count df
  /\ forall s r, In (s, r) (events df out) ->
       get r "days_supply" = days_supply_of E s
       /\ get r "total_cost" = total_cost_of E s
       /\ get r "cost_per_day" = cost_per_day_of (days_supply_of E s) (total_cost_of E s)
       /\ (forall n x, days_supply_of E s = Some (VInt n) ->
             total_cost_of E s = Some (VDbl x) ->
             0 < n -> Dbl.gt x 0%float = true ->
             get r "cost_per_day" = Some (VDbl (x / Dbl.of_Z n)%float))
       /\ (forall n, days_supply_of E s = Some (VInt n) -> n <= 0 ->
             get r "cost_per_day" = Some (VDbl 0%float))
       /\ (forall x, total_cost_of E s = Some (VDbl x) -> Dbl.gt x 0%float = false ->
             get r "cost_per_day" = Some (VDbl 0%float))
       /\ (days_supply_of E s = None \/ total_cost_of E s = None ->
             get r "cost_per_day" = Some (VDbl 0%float))
       /\ exists x, get r "cost_per_day" = Some (VDbl x).
Proof.
  intros Hcat H. unfold run in H. cbn [prescription_clean] in H.
  unfold load_bronze_table in H. rewrite Hcat in H. cbn [fst] in H.
  apply prescription_branch_body in H.
  pose proof (prescription_rows E df out H) as Hv.
  destruct (prescription_body_inv E df out H) as (_ & _ & g & R & F).
  split; [unfold count; now rewrite R, length_map|].
  intros s r Hsr. unfold events in Hsr.
  assert (In r (rows out)) as Hr by (eapply in_combine_r; exact Hsr).
  specialize (Hv r Hr). rewrite (paired_map g _ _ s r R Hsr) in *.
  destruct (F s) as (_ & _ & _ & _ & Fd & Ft & _).
  fold (days_supply_of E s) in Fd. fold (total_cost_of E s) in Ft.
  rewrite Fd, Ft in Hv. rewrite Hv.
  split; [exact Fd|]. split; [exact Ft|]. split; [reflexivity|].
  unfold days_supply_of, total_cost_of.
  destruct (cast_int_shape (parse_int E) (get s "days_suply_num")) as [->|[n ->]];
    destruct (cast_double_shape (parse_double E) (get s "tot_rx_cst_amt")) as [->|[x ->]];
    cbn [cost_per_day_of].
  - repeat split; try discriminate; eauto.
  - repeat split; try discriminate; eauto.
  - repeat split; try discriminate; eauto.
  - split; [|split; [|split; [|split]]].
    + intros n' x' [= <-] [= <-] Hn Hx. destruct (Z.ltb_spec 0 n); [|lia]. now rewrite Hx.
    + intros n' [= <-] Hn. destruct (Z.ltb_spec 0 n); [lia|reflexivity].
    + intros x' [= <-] Hx. rewrite Hx, andb_false_r. reflexivity.
    + intros [|]; discriminate.
    + destruct ((0 <? n) && Dbl.gt x 0); eauto.
Qed.

(** X13. The prescription branch keeps the events, in the order of the source:
    the quantity and the days of supply are those of the source as integers,
    the total cost is that of the source as a double, each NULL where the
    source has no number; the patient pay is 0.0 where the source has no
    amount, the amount as a double otherwise, and so NULL for an amount that
    is not a number; every column but the eight that the branch sets has the
    value of the source. *)
Theorem prescription_amounts E df out :
  fst (prescription_branch E (Some df)) = Some out ->
  count out = count df
  /\ forall s r, In (s, r) (paired df out) ->
       get r "qty_dispensed" = cast_int (parse_int E) (get s "qty_dspnsd_num")
       /\ get r "days_supply" = cast_int (parse_int E) (get s "days_suply_num")
       /\ get r "total_cost" = cast_double (parse_double E) (get s "tot_rx_cst_amt")
       /\ (get s "ptnt_pay_amt" = None -> get r "patient_pay" = Some (VDbl 0%float))
       /\ (get s "ptnt_pay_amt" <> None ->
             get r "patient_pay" = cast_double (parse_double E) (get s "ptnt_pay_amt"))
       /\ (forall c, has_column c prescription_touched = false -> get r c = get s c).
Proof.
  intros H. apply prescription_branch_body, prescription_body_inv in H
    as (_ & _ & g & R & F).
  split; [unfold count; now rewrite R, length_map|].
  intros s r Hsr. rewrite (paired_map g _ _ s r R Hsr).
  destruct (F s) as (_ & _ & _ & Fq & Fd & Ft & Fp & Fu).
  rewrite Fq, Fd, Ft, Fp. unfold patient_pay_of.
  repeat split; trivial.
  - now intros ->.
  - intros Hn. now destruct (get s "ptnt_pay_amt").
Qed.

(** X14. A prescription event whose service-date code names the calendar date
    y-m-d has that date as its service date, y as its year and m as its month;
    one whose code is not read as a date has the three NULL. *)
Theorem prescription_time_dimensions E df out :
  fst (prescription_branch E (Some df)) = Some out ->
  forall s r, In (s, r) (paired df out) ->
    (forall code y m d,
       get s "srvc_dt" = Some (VStr code) ->
       date_digits code = Some (y, m, d) -> calendar_date y m d = true ->
       get r "srvc_dt" = Some (VDate (Calendar.days_from_civil y m d))
       /\ get r "prescription_year" = Some (VInt y)
       /\ get r "prescription_month" = Some (VInt m) /\ 1 <= m <= 12)
    /\ (to_date_yyyyMMdd (get s "srvc_dt") = None ->
          get r "srvc_dt" = None /\ get r "prescription_year" = None
          /\ get r "prescription_month" = None).
Proof.
  intros H s r Hsr. apply prescription_branch_body, prescription_body_inv in H
    as (_ & _ & g & R & F).
  rewrite (paired_map g _ _ s r R Hsr).
  destruct (F s) as (Fs & Fy & Fm & _). rewrite Fy, Fm, Fs. split.
  - intros code y m d Hs Hd Hc. rewrite Hs. cbn [to_date_yyyyMMdd].
    rewrite (parse_date_digits code y m d Hd Hc). cbn [option_map date_part].
    destruct (date_parts y m d Hc) as (-> & -> & _).
    repeat split; unfold calendar_date in Hc; repeat (apply andb_prop in Hc as [Hc ?]); lia.
  - intros ->. auto.
Qed.

(** *** The unifier *)
Lemma add_claims_eq clean ct l :
  add_claims clean ct l
  = (Some (l ++ map projected (available [clean])),
     match clean with Some d => [Added ct (count d)] | None => [] end).
Proof.
  destruct clean as [d|].
  - rewrite add_claims_Some. reflexivity.
  - rewrite add_claims_None. cbn. now rewrite app_nil_r.
Qed.

(** The unifier after it has added the types that are there. *)
Lemma claims_unified_body_eq E i o c :
  claims_unified_body E i o c
  = let r := match map projected (available [i; o; c]) with
             | df0 :: dfs =>
                 u <- call (union_all df0 dfs) ;;
                 claims_unified <- call (withColumn "is_high_cost" is_high_cost u) ;;
                 write E "claims_unified" claims_unified ;;;
                 print (UnifiedCreated (count claims_unified)) ;;;
                 ret (Some claims_unified)
             | [] => print NoClaimsToUnify ;;; ret None
             end in
    (fst r, added i o c ++ snd r).
Proof.
  unfold claims_unified_body. rewrite !add_claims_eq, !bind_ret. cbn [fst snd app].
  rewrite !add_claims_eq, !bind_ret. cbn [fst snd app].
  rewrite !add_claims_eq, !bind_ret. cbn [fst snd app].
  cbv zeta. f_equal.
  - destruct i, o, c; reflexivity.
  - rewrite !app_assoc. f_equal.
    + destruct i, o, c; reflexivity.
    + destruct i, o, c; reflexivity.
Qed.

Lemma union_shape a b u :
  union a b = Some u ->
  columns u = columns a
  /\ List.length (rows u) = (List.length (rows a) + List.length (rows b))%nat.
Proof.
  unfold union. destruct (Nat.eqb _ _); [|discriminate]. intros [= <-]. cbn.
  now rewrite length_app, length_map.
Qed.

Lemma total_count_cons d l : total_count (d :: l) = (count d + total_count l)%nat.
Proof. reflexivity. Qed.

Lemma union_all_shape l :
  forall a u, union_all a l = Some u ->
    columns u = columns a /\ count u = (count a + total_count l)%nat.
Proof.
  induction l as [|b l IH]; intros a u; cbn [union_all].
  - intros [= <-]. split; [reflexivity|]. cbn. lia.
  - destruct (union a b) as [x|] eqn:Hx; [|discriminate]. intros Hu.
    apply union_shape in Hx as [Cx Nx]. apply IH in Hu as [Cu Nu].
    split; [congruence|]. rewrite total_count_cons, Nu. unfold count. lia.
Qed.

Lemma total_count_projected l : total_count (map projected l) = total_count l.
Proof.
  induction l as [|d l IH]; [reflexivity|]. cbn [map]. rewrite !total_count_cons, IH.
  unfold count, projected, projection. cbn [rows]. now rewrite length_map.
Qed.

Lemma not_common_is_high_cost s : has_column "is_high_cost" (present_common s) = false.
Proof.
  destruct (has_column "is_high_cost" (present_common s)) eqn:H; [|reflexivity].
  apply existsb_exists in H as (c & Hc & He). apply String.eqb_eq in He. subst c.
  apply filter_In in Hc as [Hc _]. cbn in Hc. intuition discriminate.
Qed.

Lemma unified_columns s : add_column "is_high_cost" (present_common s)
                          = present_common s ++ ["is_high_cost"].
Proof. unfold add_column. now rewrite not_common_is_high_cost. Qed.

(** The parts of a unified output. *)
Lemma claims_unified_branch_inv E i o c u :
  fst (claims_unified_branch E i o c) = Some u ->
  exists d0 ds u0,
    available [i; o; c] = d0 :: ds
    /\ union_all (projected d0) (map projected ds) = Some u0
    /\ withColumn "is_high_cost" is_high_cost u0 = Some u
    /\ sink_ok E "claims_unified" = true.
Proof.
  unfold claims_unified_branch. cbn [fst]. intros H.
  apply fst_branch_Some in H. rewrite claims_unified_body_eq in H. cbn [fst] in H.
  destruct (available [i; o; c]) as [|d0 ds]; [discriminate H|]. cbn [map] in H.
  step H u0. step H u1. apply fst_tail_Some in H as [[= ->] Hs].
  exists d0, ds, u0. auto.
Qed.

Lemma run_unified E :
  claims_unified (run E)
  = fst (claims_unified_branch E (inpatient_clean (run E)) (outpatient_clean (run E))
           (carrier_clean (run E))).
Proof. reflexivity. Qed.

Lemma unified_count E u :
  claims_unified (run E) = Some u -> count u = total_count (cleansed_types (run E)).
Proof.
  rewrite run_unified. intros H.
  apply claims_unified_branch_inv in H as (d0 & ds & u0 & Hav & Hu0 & Hu & _).
  apply union_all_shape in Hu0 as [_ Nu0].
  apply withColumn_Some in Hu as (f & _ & ->).
  unfold cleansed_types. rewrite Hav.
  rewrite total_count_cons, <- (total_count_projected ds).
  unfold count at 1. cbn [rows]. rewrite length_map. fold (count u0). rewrite Nu0.
  unfold projected at 1, projection, count. cbn [rows]. now rewrite length_map.
Qed.

(** X15. Whenever the unified output is there, its columns are the common
    columns of the first cleansed type that is there, and [is_high_cost]: no
    other column of a claim type, and not the quarter; and it has as many rows
    as the cleansed types together. *)
Theorem unified_schema E u :
  claims_unified (run E) = Some u ->
  (exists d0 ds, cleansed_types (run E) = d0 :: ds
     /\ columns u = present_common (columns d0) ++ ["is_high_cost"])
  /\ (forall c, has_column c (columns u) = true ->
        has_column c common_cols = true \/ c = "is_high_cost")
  /\ has_column "claim_quarter" (columns u) = false
  /\ count u = total_count (cleansed_types (run E)).
Proof.
  intros Hrun. pose proof (unified_count E u Hrun) as Hn.
  rewrite run_unified in Hrun.
  apply claims_unified_branch_inv in Hrun as (d0 & ds & u0 & Hav & Hu0 & Hu & _).
  apply union_all_shape in Hu0 as [Cu0 _].
  apply withColumn_Some in Hu as (f & _ & ->). cbn [columns].
  assert (add_column "is_high_cost" (columns u0)
          = present_common (columns d0) ++ ["is_high_cost"]) as Hcols
    by (rewrite Cu0; apply unified_columns).
  rewrite Hcols. split; [unfold cleansed_types; rewrite Hav; eauto|].
  split; [|split; [|exact Hn]].
  - intros c Hc. rewrite has_column_app in Hc. apply orb_prop in Hc as [Hc|Hc].
    + left. apply existsb_exists in Hc as (x & Hx & He). apply filter_In in Hx as [Hx _].
      apply existsb_exists. eauto.
    + right. cbn in Hc. rewrite orb_false_r in Hc. now apply String.eqb_eq in Hc.
  - rewrite has_column_app. apply orb_false_intro; [|reflexivity].
    destruct (has_column "claim_quarter" (present_common (columns d0))) eqn:Hq; [|reflexivity].
    apply existsb_exists in Hq as (x & Hx & He). apply String.eqb_eq in He. subst x.
    apply filter_In in Hx as [Hx _]. cbn in Hx. intuition discriminate.
Qed.

Lemma cleansed_by E src ct d :
  fst (clean_claims_data E src ct) = Some d ->
  exists df, fst (clean_claims_data E (Some df) ct) = Some d.
Proof. destruct src as [df|]; [eauto|discriminate]. Qed.

Lemma cleansed_typed E df ct d :
  fst (clean_claims_data E (Some df) ct) = Some d -> typed ct d.
Proof.
  intros H. apply clean_claims_data_body in H.
  destruct (clean_claims_rowwise E df ct d H) as (_ & _ & _ & K).
  destruct (clean_claims_fields E df ct d H) as (g & R & F).
  split.
  - intros c Hc. rewrite K, Hc. apply orb_true_r.
  - intros r Hr. rewrite R in Hr. apply in_map_iff in Hr as (s & <- & _).
    now destruct (F s) as (_ & _ & Ht & _).
Qed.

Lemma run_typed E :
  (forall d, inpatient_clean (run E) = Some d -> typed "inpatient" d)
  /\ (forall d, outpatient_clean (run E) = Some d -> typed "outpatient" d)
  /\ (forall d, carrier_clean (run E) = Some d -> typed "carrier" d).
Proof.
  unfold run. cbn [inpatient_clean outpatient_clean carrier_clean].
  split; [|split]; intros d H; apply cleansed_by in H as (df & H);
    now apply cleansed_typed in H.
Qed.

Lemma present_common_agree d d' :
  (forall c, has_column c clean_touched = true -> has_column c (columns d) = true) ->
  (forall c, has_column c clean_touched = true -> has_column c (columns d') = true) ->
  same_columns optional_common (columns d) (columns d') = true ->
  present_common (columns d) = present_common (columns d').
Proof.
  intros K K' Hs. unfold same_columns, optional_common in Hs. cbn [forallb] in Hs.
  rewrite !andb_true_iff, !Bool.eqb_true_iff in Hs. destruct Hs as (E1 & E2 & E3 & _).
  unfold present_common. apply filter_ext_in. intros c Hc. cbn in Hc.
  destruct Hc as [<-|[<-|Hc]]; [exact E1|exact E2|].
  repeat (destruct Hc as [<-|Hc];
          [match goal with
           | |- has_column ?c _ = _ =>
               first [exact (eq_trans (K c eq_refl) (eq_sym (K' c eq_refl))) | exact E3]
           end|]).
  contradiction.
Qed.

Lemma get_fields (f : string -> cell) cs c :
  get (map (fun k => (k, f k)) cs) c = if has_column c cs then f c else None.
Proof.
  induction cs as [|k cs IH]; [reflexivity|]. cbn [map get]. unfold has_column. cbn [existsb].
  rewrite (String.eqb_sym c k). destruct (String.eqb_spec k c) as [->|_]; [reflexivity|].
  exact IH.
Qed.

Lemma typed_labels ct d :
  typed ct d ->
  map (fun r => get (with_is_high_cost r) "claim_type") (projection d)
  = repeat (Some (VStr ct)) (count d).
Proof.
  intros [K T]. unfold projection, count. rewrite map_map.
  assert (has_column "claim_type" (present_common (columns d)) = true) as Hp.
  { apply existsb_exists. exists "claim_type". split; [|reflexivity].
    apply filter_In. split; [cbn; tauto|]. now apply K. }
  induction (rows d) as [|r l IH]; [reflexivity|]. cbn [map List.length repeat].
  rewrite IH by (intros x Hx; apply T; now right). f_equal.
  unfold with_is_high_cost. rewrite get_set_other by reflexivity.
  unfold common_fields. rewrite get_fields, Hp. apply T. now left.
Qed.

(** The unifier on types that have the same common columns. *)
Lemma unify_agreeing E d0 ds :
  (forall d, In d ds -> present_common (columns d) = present_common (columns d0)) ->
  has_column "payment_amount" (columns d0) = true ->
  sink_ok E "claims_unified" = true ->
  exists u,
    (u <- call (union_all (projected d0) (map projected ds)) ;;
     claims_unified <- call (withColumn "is_high_cost" is_high_cost u) ;;
     write E "claims_unified" claims_unified ;;;
     print (UnifiedCreated (count claims_unified)) ;;;
     ret (Some claims_unified))
    = (Some (Some u), [UnifiedCreated (count u)])
    /\ rows u = map with_is_high_cost (flat_map projection (d0 :: ds)).
Proof.
  intros Hall Hp Hs.
  destruct (unify_same E (columns d0) (projected d0) (map projected ds))
    as (u & Hu & Hr); trivial.
  - apply Forall_forall. intros x Hx. apply in_map_iff in Hx as (d & <- & Hd).
    cbn [projected columns rows]. split; [now apply Hall|].
    intros r Hr. unfold projection in Hr. apply in_map_iff in Hr as (r0 & <- & _).
    rewrite <- (Hall d Hd). apply common_fields_fits.
  - exists u. split; [exact Hu|]. rewrite Hr. cbn [projected rows flat_map]. f_equal. f_equal.
    clear. induction ds as [|d ds IH]; [reflexivity|]. cbn. now rewrite IH.
Qed.

Lemma type_labels_eq E :
  map (fun r => get (with_is_high_cost r) "claim_type")
      (flat_map projection (cleansed_types (run E)))
  = type_labels (run E).
Proof.
  destruct (run_typed E) as (Ti & To & Tc).
  unfold cleansed_types, type_labels, available.
  destruct (inpatient_clean (run E)) as [i|], (outpatient_clean (run E)) as [o|],
    (carrier_clean (run E)) as [c|];
    cbn [flat_map fst snd app]; rewrite ?app_nil_r, ?map_app;
    rewrite ?(typed_labels "inpatient" i (Ti i eq_refl)),
      ?(typed_labels "outpatient" o (To o eq_refl)),
      ?(typed_labels "carrier" c (Tc c eq_refl)); reflexivity.
Qed.

Lemma cleansed_types_typed E d :
  In d (cleansed_types (run E)) -> exists ct, typed ct d.
Proof.
  destruct (run_typed E) as (Ti & To & Tc).
  unfold cleansed_types, available.
  destruct (inpatient_clean (run E)) as [i|], (outpatient_clean (run E)) as [o|],
    (carrier_clean (run E)) as [c|]; cbn [flat_map app In];
    intuition (subst; eauto).
Qed.

Lemma log_unified E m :
  In m (snd (claims_unified_branch E (inpatient_clean (run E)) (outpatient_clean (run E))
               (carrier_clean (run E)))) ->
  In m (log (run E)).
Proof.
  unfold run. cbn [log inpatient_clean outpatient_clean carrier_clean].
  intros H. rewrite !in_app_iff. tauto.
Qed.

(** X16. When the cleansed types that are there have the same of the id, claim
    id and load timestamp columns, and the write goes through, the unified
    output is there: its rows are the rows of these types on their common
    columns, each with its mark, type after type in the order inpatient,
    outpatient, carrier, every row under the name of its type; none is lost
    and none is merged with another. *)
Theorem unified_of_agreeing_types E :
  cleansed_types (run E) <> [] ->
  (forall d d', In d (cleansed_types (run E)) -> In d' (cleansed_types (run E)) ->
     same_columns optional_common (columns d) (columns d') = true) ->
  sink_ok E "claims_unified" = true ->
  exists u, claims_unified (run E) = Some u
    /\ rows u = map with_is_high_cost (flat_map projection (cleansed_types (run E)))
    /\ map (fun r => get r "claim_type") (rows u) = type_labels (run E)
    /\ count u = total_count (cleansed_types (run E))
    /\ In (UnifiedCreated (count u)) (log (run E)).
Proof.
  intros Hne Hsame Hs.
  destruct (cleansed_types (run E)) as [|d0 ds] eqn:Hav; [congruence|].
  assert (forall d, In d (d0 :: ds) ->
            forall c, has_column c clean_touched = true -> has_column c (columns d) = true)
    as Hk.
  { intros d Hd. rewrite <- Hav in Hd. apply cleansed_types_typed in Hd as (ct & K & _).
    exact K. }
  destruct (unify_agreeing E d0 ds) as (u & Hu & Hr); trivial.
  - intros d Hd. apply present_common_agree.
    + apply Hk. now right.
    + apply Hk. now left.
    + apply Hsame; [now right|now left].
  - apply (Hk d0); [now left|reflexivity].
  - assert (claims_unified_branch E (inpatient_clean (run E)) (outpatient_clean (run E))
              (carrier_clean (run E))
            = (Some u, added (inpatient_clean (run E)) (outpatient_clean (run E))
                         (carrier_clean (run E)) ++ [UnifiedCreated (count u)])) as Hb.
    { unfold claims_unified_branch. rewrite claims_unified_body_eq.
      unfold cleansed_types in Hav. rewrite Hav. cbn [map]. rewrite Hu. reflexivity. }
    assert (claims_unified (run E) = Some u) as Hrun by (now rewrite run_unified, Hb).
    exists u. split; [exact Hrun|]. split; [exact Hr|]. split; [|split].
    + rewrite Hr, map_map, <- Hav. apply type_labels_eq.
    + now rewrite (unified_count E u Hrun), Hav.
    + apply log_unified. rewrite Hb. cbn [snd]. apply in_or_app. right. now left.
Qed.

(** *** The unpivoter, case by case *)
Lemma diag_df_missing i k c :
  has_columns diagnosis_key_columns (columns i) = false -> diag_df i k c = None.
Proof.
  unfold has_columns, diagnosis_key_columns. cbn [forallb]. rewrite andb_true_r.
  intros H. unfold diag_df, select_filter, named. cbn [resolve_all]. unfold col at 1 2 3.
  destruct (has_column "desynpuf_id" (columns i)); [|reflexivity].
  destruct (has_column "clm_id" (columns i)); [|reflexivity].
  destruct (has_column "clm_from_dt" (columns i)); [discriminate H|].
  now destruct (col c (columns i)).
Qed.

Lemma unpivot_length slots l :
  (List.length (unpivot slots l) <= List.length slots * List.length l)%nat.
Proof.
  unfold unpivot. induction slots as [|kc slots IH]; [cbn; lia|].
  cbn [flat_map List.length]. rewrite length_app, length_map.
  pose proof (filter_length_le (fun r => nonempty_code (get r (snd kc))) l). lia.
Qed.

Lemma enumerate_length {A} (l : list A) k : List.length (enumerate k l) = List.length l.
Proof. revert k. induction l as [|a l IH]; intros k; cbn; [reflexivity|now rewrite IH]. Qed.

(** The unpivoter on a cleansed inpatient set that has slot columns. *)
Lemma diagnosis_branch_slots E i :
  filter diagnosis_slot (columns i) <> [] ->
  diagnosis_branch E (Some i)
  = if has_columns diagnosis_key_columns (columns i) && sink_ok E "diagnosis_normalized"
    then (Some (mkDF diagnosis_schema
                     (unpivot (enumerate 1 (filter diagnosis_slot (columns i))) (rows i))),
          [DiagnosesNormalized
             (List.length (unpivot (enumerate 1 (filter diagnosis_slot (columns i)))
                             (rows i)))])
    else (None, [DiagnosisError]).
Proof.
  intros Hne.
  destruct (has_columns diagnosis_key_columns (columns i)) eqn:Hc; cbn [andb].
  - pose proof Hc as Hc'. cbn in Hc'. rewrite andb_true_r in Hc'.
    apply andb_prop in Hc' as [H1 H23]. apply andb_prop in H23 as [H2 H3].
    destruct (sink_ok E "diagnosis_normalized") eqn:Hs.
    + destruct (diagnosis_branch_spec E i H1 H2 H3 Hs Hne) as (out & Hb & Co & Ro).
      rewrite Hb. unfold count. rewrite Ro. destruct out as [co ro]. cbn in Co, Ro.
      now subst.
    + unfold diagnosis_branch, diagnosis_body.
      change (fun c => String.prefix "icd9_dgns_cd_" c) with diagnosis_slot.
      destruct (filter diagnosis_slot (columns i)) as [|c0 slots] eqn:Hf; [congruence|].
      rewrite diagnosis_records_of_spec; trivial.
      * rewrite bind_call_Some. cbn [enumerate map fst snd].
        rewrite (union_all_same diagnosis_schema); [|  |reflexivity].
        -- rewrite bind_call_Some. unfold write. rewrite Hs. reflexivity.
        -- apply Forall_forall. intros d Hd. apply in_map_iff in Hd as (kc & <- & _).
           split; [reflexivity|]. cbn [rows]. intros r Hr.
           apply in_map_iff in Hr as (r0 & <- & _). reflexivity.
      * intros [k c] Hkc. apply enumerate_In in Hkc as [_ Hn]. apply nth_error_In in Hn.
        cbn [snd].
        rewrite <- Hf in Hn. apply filter_In in Hn as [Hin Hp]. split; [|exact Hp].
        apply existsb_exists. exists c. split; [exact Hin|apply String.eqb_refl].
  - unfold diagnosis_branch, diagnosis_body.
    change (fun c => String.prefix "icd9_dgns_cd_" c) with diagnosis_slot.
    destruct (filter diagnosis_slot (columns i)) as [|c0 slots] eqn:Hf; [congruence|].
    cbn [enumerate diagnosis_records_of]. rewrite (diag_df_missing i 1 c0 Hc). reflexivity.
Qed.

Lemma diagnosis_branch_no_slots E i :
  filter diagnosis_slot (columns i) = [] ->
  diagnosis_branch E (Some i) = (None, [NoDiagnosisColumns]).
Proof.
  intros Hnil. unfold diagnosis_branch, diagnosis_body.
  change (fun c => String.prefix "icd9_dgns_cd_" c) with diagnosis_slot.
  now rewrite Hnil.
Qed.

(** X17. The unpivoter, case by case, on cleansed inpatient claims whose
    columns are named as the catalog names them, in lower case and each once.
    Without cleansed inpatient claims it
    prints nothing; without slot columns it prints a warning; with slot
    columns, it goes through exactly when the claims have the three columns
    that it copies and the write goes through, and prints its error otherwise.
    When it goes through, its output has the five columns of an assignment and
    at most one row for each slot and claim, and none for no claim: an output
    without rows, not a warning. *)
Theorem diagnosis_branch_outcome E i :
  catalog_names (columns i) = true ->
  diagnosis_branch E None = (None, [])
  /\ (filter diagnosis_slot (columns i) = [] ->
      diagnosis_branch E (Some i) = (None, [NoDiagnosisColumns]))
  /\ (filter diagnosis_slot (columns i) <> [] ->
      has_columns diagnosis_key_columns (columns i) && sink_ok E "diagnosis_normalized"
      = true ->
      exists out,
        diagnosis_branch E (Some i) = (Some out, [DiagnosesNormalized (count out)])
        /\ columns out = diagnosis_schema
        /\ (count out
            <= List.length (filter diagnosis_slot (columns i)) * count i)%nat
        /\ (rows i = [] -> rows out = []))
  /\ (filter diagnosis_slot (columns i) <> [] ->
      has_columns diagnosis_key_columns (columns i) && sink_ok E "diagnosis_normalized"
      = false ->
      diagnosis_branch E (Some i) = (None, [DiagnosisError])).
Proof.
  intros _. split; [reflexivity|]. split; [apply diagnosis_branch_no_slots|]. split.
  - intros Hne Hok. rewrite (diagnosis_branch_slots E i Hne), Hok.
    exists (mkDF diagnosis_schema
                 (unpivot (enumerate 1 (filter diagnosis_slot (columns i))) (rows i))).
    split; [reflexivity|]. split; [reflexivity|]. unfold count. cbn [rows]. split.
    + rewrite <- (enumerate_length (filter diagnosis_slot (columns i)) 1).
      apply unpivot_length.
    + intros ->. unfold unpivot.
      induction (enumerate 1 (filter diagnosis_slot (columns i))) as [|kc l IH];
        [reflexivity|exact IH].
  - intros Hne Hok. now rewrite (diagnosis_branch_slots E i Hne), Hok.
Qed.

(** *** The lines of the log, branch by branch *)
Lemma load_eq E t : load_bronze_table E t = (catalog E t, [load_line E t]).
Proof. unfold load_bronze_table, load_line. now destruct (catalog E t). Qed.

Lemma beneficiary_lines E o :
  snd (beneficiary_branch E o)
  = match o, fst (beneficiary_branch E o) with
    | None, _ => []
    | Some _, Some out => [BeneficiaryProcessed (count out)]
    | Some _, None => [BeneficiaryError]
    end.
Proof.
  destruct o as [df|]; [|reflexivity]. cbn [beneficiary_branch].
  rewrite try_except_eq. cbn [fst snd]. rewrite snd_beneficiary_body.
  now destruct (fst (beneficiary_body E df)).
Qed.

Lemma prescription_lines E o :
  snd (prescription_branch E o)
  = match o, fst (prescription_branch E o) with
    | None, _ => []
    | Some _, Some out => [PrescriptionsProcessed (count out)]
    | Some _, None => [PrescriptionError]
    end.
Proof.
  destruct o as [df|]; [|reflexivity]. cbn [prescription_branch].
  rewrite try_except_eq. cbn [fst snd]. rewrite snd_prescription_body.
  now destruct (fst (prescription_body E df)).
Qed.

Lemma clean_lines E o ct :
  snd (clean_claims_data E o ct)
  = match o, fst (clean_claims_data E o ct) with
    | None, _ => []
    | Some _, Some _ => []
    | Some _, None => [CleaningError ct]
    end.
Proof.
  destruct o as [df|]; [|reflexivity]. cbn [clean_claims_data].
  rewrite try_except_eq. cbn [fst snd]. rewrite snd_clean_claims_body.
  now destruct (fst (clean_claims_body E df ct)).
Qed.

Lemma unified_lines E i o c :
  snd (claims_unified_branch E i o c)
  = added i o c
      ++ match available [i; o; c], fst (claims_unified_branch E i o c) with
         | [], _ => [NoClaimsToUnify]
         | _ :: _, Some u => [UnifiedCreated (count u)]
         | _ :: _, None => [UnifiedError]
         end.
Proof.
  unfold claims_unified_branch. cbn [fst snd]. rewrite try_except_eq.
  rewrite claims_unified_body_eq. cbn [fst snd]. rewrite <- app_assoc. f_equal.
  destruct (available [i; o; c]) as [|d0 ds]; [reflexivity|]. cbn [map].
  rewrite !snd_bind, !fst_bind. cbn [fst snd call app].
  destruct (union_all _ _) as [u0|]; [|reflexivity].
  rewrite !snd_bind, !fst_bind. cbn [fst snd call app].
  destruct (withColumn _ _ _) as [u|]; [|reflexivity].
  unfold write. now destruct (sink_ok E "claims_unified").
Qed.

Lemma diagnosis_lines E o :
  snd (diagnosis_branch E o)
  = match o with
    | None => []
    | Some i =>
        match filter diagnosis_slot (columns i), fst (diagnosis_branch E o) with
        | [], _ => [NoDiagnosisColumns]
        | _ :: _, Some out => [DiagnosesNormalized (count out)]
        | _ :: _, None => [DiagnosisError]
        end
    end.
Proof.
  destruct o as [i|]; [|reflexivity].
  destruct (filter diagnosis_slot (columns i)) as [|c0 slots] eqn:Hf.
  - now rewrite (diagnosis_branch_no_slots E i Hf).
  - rewrite (diagnosis_branch_slots E i) by congruence.
    now destruct (_ && _).
Qed.

(** The outputs of a run, from the catalog. *)
Lemma run_outputs E :
  beneficiary_scd (run E) = fst (beneficiary_branch E (catalog E "beneficiary"))
  /\ inpatient_clean (run E) = fst (clean_claims_data E (catalog E "inpatient") "inpatient")
  /\ outpatient_clean (run E) = fst (clean_claims_data E (catalog E "outpatient") "outpatient")
  /\ carrier_clean (run E) = fst (clean_claims_data E (catalog E "carrier") "carrier")
  /\ prescription_clean (run E) = fst (prescription_branch E (catalog E "prescription"))
  /\ diagnosis_normalized (run E) = fst (diagnosis_branch E (inpatient_clean (run E))).
Proof.
  unfold run. cbn [beneficiary_scd inpatient_clean outpatient_clean carrier_clean
                   prescription_clean diagnosis_normalized].
  rewrite !fst_load. repeat split.
Qed.

(** The log of a run: the lines of the five loads, then those of the
    branches, in the order of the job. *)
Lemma log_eq E :
  log (run E)
  = map (load_line E) ["beneficiary"; "inpatient"; "outpatient"; "carrier"; "prescription"]
    ++ snd (beneficiary_branch E (catalog E "beneficiary"))
    ++ snd (clean_claims_data E (catalog E "inpatient") "inpatient")
    ++ snd (clean_claims_data E (catalog E "outpatient") "outpatient")
    ++ snd (clean_claims_data E (catalog E "carrier") "carrier")
    ++ snd (claims_unified_branch E (inpatient_clean (run E)) (outpatient_clean (run E))
              (carrier_clean (run E)))
    ++ snd (prescription_branch E (catalog E "prescription"))
    ++ snd (diagnosis_branch E (inpatient_clean (run E))).
Proof.
  unfold run. cbn [log inpatient_clean outpatient_clean carrier_clean].
  rewrite !fst_load, !load_eq. reflexivity.
Qed.

(** Whether a given line is among the lines of a branch. *)
Ltac lines H :=
  rewrite ?beneficiary_lines, ?prescription_lines, ?clean_lines, ?unified_lines,
    ?diagnosis_lines in H;
  unfold added, load_line in H; cbn [map flat_map fst snd] in H;
  repeat match type of H with
         | context [match ?x with _ => _ end] => destruct x eqn:?
         end;
  cbn [app In] in H; rewrite ?in_app_iff in H; cbn [In] in H;
  repeat match type of H with
         | _ \/ _ => destruct H as [H|H]
         end;
  try contradiction; try discriminate H.

Ltac in_log H :=
  rewrite log_eq, !in_app_iff in H;
  repeat match type of H with
         | _ \/ _ => destruct H as [H|H]
         end;
  lines H.

Ltac to_log :=
  rewrite log_eq, !in_app_iff; cbn [map In]; unfold load_line;
  rewrite ?beneficiary_lines, ?prescription_lines, ?clean_lines, ?unified_lines,
    ?diagnosis_lines.

(** The line of a load that failed. *)
Lemma could_not_load E t :
  In t ["beneficiary"; "inpatient"; "outpatient"; "carrier"; "prescription"] ->
  catalog E t = None -> In (CouldNotLoad t) (log (run E)).
Proof.
  intros Ht Hc. rewrite log_eq. apply in_or_app. left.
  apply in_map_iff. exists t. split; [|exact Ht]. unfold load_line. now rewrite Hc.
Qed.

(** X18. An output that is absent is accounted for in the log: the source
    could not be loaded, or the branch printed its error; the unified output
    is absent when there was nothing to unify or the unifier printed its
    error; the diagnoses are absent when the cleansed inpatient claims are,
    when they have no slot column, or when the unpivoter printed its error.
    And conversely: each of these lines tells that the output is absent. *)
Theorem absent_outputs_are_logged E :
  (beneficiary_scd (run E) = None
   <-> In (CouldNotLoad "beneficiary") (log (run E)) \/ In BeneficiaryError (log (run E)))
  /\ (inpatient_clean (run E) = None
      <-> In (CouldNotLoad "inpatient") (log (run E))
          \/ In (CleaningError "inpatient") (log (run E)))
  /\ (outpatient_clean (run E) = None
      <-> In (CouldNotLoad "outpatient") (log (run E))
          \/ In (CleaningError "outpatient") (log (run E)))
  /\ (carrier_clean (run E) = None
      <-> In (CouldNotLoad "carrier") (log (run E))
          \/ In (CleaningError "carrier") (log (run E)))
  /\ (claims_unified (run E) = None
      <-> In NoClaimsToUnify (log (run E)) \/ In UnifiedError (log (run E)))
  /\ (prescription_clean (run E) = None
      <-> In (CouldNotLoad "prescription") (log (run E))
          \/ In PrescriptionError (log (run E)))
  /\ (diagnosis_normalized (run E) = None
      <-> inpatient_clean (run E) = None
          \/ In NoDiagnosisColumns (log (run E)) \/ In DiagnosisError (log (run E))).
Proof.
  pose proof (run_unified E) as Ru.
  destruct (run_outputs E) as (Rb & Ri & Ro & Rc & Rp & Rd).
  repeat split.
  - rewrite Rb. intros H. to_log.
    destruct (catalog E "beneficiary"); [rewrite H|]; cbn [In]; tauto.
  - rewrite Rb. intros [H|H]; in_log H; reflexivity.
  - rewrite Ri. intros H. to_log.
    destruct (catalog E "inpatient"); [rewrite H|]; cbn [In]; tauto.
  - rewrite Ri. intros [H|H]; in_log H; reflexivity.
  - rewrite Ro. intros H. to_log.
    destruct (catalog E "outpatient"); [rewrite H|]; cbn [In]; tauto.
  - rewrite Ro. intros [H|H]; in_log H; reflexivity.
  - rewrite Rc. intros H. to_log.
    destruct (catalog E "carrier"); [rewrite H|]; cbn [In]; tauto.
  - rewrite Rc. intros [H|H]; in_log H; reflexivity.
  - rewrite Ru. intros H. to_log. rewrite H.
    destruct (available _); cbn [In]; rewrite !in_app_iff; cbn [In]; tauto.
  - rewrite Ru. intros [H|H]; in_log H; try reflexivity;
      match goal with Hl : available _ = [] |- _ => cbn in Hl; discriminate Hl end.
  - rewrite Rp. intros H. to_log.
    destruct (catalog E "prescription"); [rewrite H|]; cbn [In]; tauto.
  - rewrite Rp. intros [H|H]; in_log H; reflexivity.
  - rewrite Rd. intros H. to_log.
    destruct (inpatient_clean (run E)) as [i|]; [right|now left].
    rewrite H. destruct (filter diagnosis_slot (columns i)); cbn [In]; tauto.
  - rewrite Rd. intros [H|[H|H]]; [now rewrite H| |]; in_log H; try reflexivity.
    match goal with
    | Hl : filter diagnosis_slot (columns ?i) = [] |- _ =>
        now rewrite (diagnosis_branch_no_slots E i Hl)
    end.
Qed.

(** X19. The warning that no diagnosis code was found is never printed: with
    slot columns there is always a selection to write, be it without rows. *)
Theorem no_codes_warning_is_dead E : ~ In NoDiagnosisCodes (log (run E)).
Proof. intros H. in_log H. Qed.

(** *** The summary *)
Lemma cleansed_count E t ct d :
  fst (clean_claims_data E (catalog E t) ct) = Some d -> count d = loaded E t.
Proof.
  unfold loaded. destruct (catalog E t) as [df|]; [|discriminate]. intros H.
  apply clean_claims_data_body in H.
  destruct (clean_claims_rowwise E df ct d H) as (g & R & _).
  unfold count_or_zero, count. now rewrite R, length_map.
Qed.

Lemma cleansed_total E :
  (total_count (cleansed_types (run E))
   <= loaded E "inpatient" + loaded E "outpatient" + loaded E "carrier")%nat.
Proof.
  destruct (run_outputs E) as (_ & Ri & Ro & Rc & _).
  unfold cleansed_types, available. cbn [flat_map].
  destruct (inpatient_clean (run E)) as [i|], (outpatient_clean (run E)) as [o|],
    (carrier_clean (run E)) as [c|]; cbn [app];
    rewrite ?total_count_cons;
    rewrite ?(cleansed_count E "inpatient" "inpatient" i) by (now symmetry);
    rewrite ?(cleansed_count E "outpatient" "outpatient" o) by (now symmetry);
    rewrite ?(cleansed_count E "carrier" "carrier" c) by (now symmetry);
    cbn [total_count fold_right]; lia.
Qed.

(** X20. The counts of the summary. An output that is absent counts for 0. The
    beneficiary records are as many as the beneficiary snapshots that were
    loaded, the prescriptions as many as the prescription events, the unified
    claims as many as the rows of the cleansed types, which are no more than
    the claims that were loaded; and the normalized diagnoses are no more than
    one for each slot column and inpatient claim. *)
Theorem summary_counts E :
  (beneficiary_scd (run E) = None -> beneficiary_scd_records (summary (run E)) = 0%nat)
  /\ (beneficiary_scd (run E) <> None ->
      beneficiary_scd_records (summary (run E)) = loaded E "beneficiary")
  /\ (prescription_clean (run E) = None -> prescriptions (summary (run E)) = 0%nat)
  /\ (prescription_clean (run E) <> None ->
      prescriptions (summary (run E)) = loaded E "prescription")
  /\ (claims_unified (run E) = None -> unified_claims (summary (run E)) = 0%nat)
  /\ (claims_unified (run E) <> None ->
      unified_claims (summary (run E)) = total_count (cleansed_types (run E)))
  /\ (unified_claims (summary (run E))
      <= loaded E "inpatient" + loaded E "outpatient" + loaded E "carrier")%nat
  /\ (diagnosis_normalized (run E) = None ->
      normalized_diagnoses (summary (run E)) = 0%nat)
  /\ (forall i, inpatient_clean (run E) = Some i ->
        (normalized_diagnoses (summary (run E))
         <= List.length (filter diagnosis_slot (columns i)) * loaded E "inpatient")%nat).
Proof.
  destruct (run_outputs E) as (Rb & Ri & Ro & Rc & Rp & Rd).
  unfold summary. cbn [beneficiary_scd_records unified_claims prescriptions
                       normalized_diagnoses].
  split; [now intros ->|]. split.
  { rewrite Rb. unfold loaded. destruct (catalog E "beneficiary") as [df|]; [|now intros []].
    intros Hn. destruct (fst (beneficiary_branch E (Some df))) as [out|] eqn:Hb; [|now destruct Hn].
    apply beneficiary_branch_body, beneficiary_body_inv in Hb as (_ & _ & g & R & _).
    cbn [count_or_zero]. unfold count. now rewrite R, count_versions, length_map. }
  split; [now intros ->|]. split.
  { rewrite Rp. unfold loaded. destruct (catalog E "prescription") as [df|]; [|now intros []].
    intros Hn. destruct (fst (prescription_branch E (Some df))) as [out|] eqn:Hb; [|now destruct Hn].
    apply prescription_branch_body, prescription_body_inv in Hb as (_ & _ & g & R & _).
    cbn [count_or_zero]. unfold count. now rewrite R, length_map. }
  split; [now intros ->|].
  assert (claims_unified (run E) <> None ->
          count_or_zero (claims_unified (run E)) = total_count (cleansed_types (run E))) as Hu.
  { destruct (claims_unified (run E)) as [u|] eqn:Hu; [|now intros []].
    intros _. now apply unified_count. }
  split; [exact Hu|]. split.
  { destruct (claims_unified (run E)) as [u|] eqn:Hc; [|cbn; lia].
    rewrite Hu by discriminate. apply cleansed_total. }
  split; [now intros ->|].
  intros i Hi. rewrite Rd, Hi.
  rewrite <- (cleansed_count E "inpatient" "inpatient" i) by (now rewrite <- Ri).
  destruct (filter diagnosis_slot (columns i)) as [|c0 slots] eqn:Hf.
  - now rewrite (diagnosis_branch_no_slots E i Hf).
  - rewrite (diagnosis_branch_slots E i) by congruence. rewrite Hf.
    destruct (_ && _); cbn [fst count_or_zero]; [|lia].
    unfold count. cbn [rows].
    rewrite <- (enumerate_length (c0 :: slots) 1). apply unpivot_length.
Qed.

(** *** A run on sources that have all that the job reads *)
Lemma beneficiary_branch_ok E df :
  has_columns required_beneficiary_columns (columns df) = true ->
  sink_ok E "beneficiary_clean" = true ->
  exists out, beneficiary_branch E (Some df)
              = (Some out, [BeneficiaryProcessed (count df)]).
Proof.
  intros Hc Hs. destruct (beneficiary_body_spec E df Hc Hs) as (g & out & Hb & R & _).
  exists out. cbn [beneficiary_branch]. unfold try_except. rewrite Hb. cbn [fst snd].
  unfold count. now rewrite R, count_versions, length_map.
Qed.

Lemma prescription_branch_ok E df :
  has_columns required_prescription_columns (columns df) = true ->
  sink_ok E "prescriptions_clean" = true ->
  exists out, prescription_branch E (Some df)
              = (Some out, [PrescriptionsProcessed (count df)]).
Proof.
  intros Hc Hs. destruct (prescription_body_ok E df Hc Hs) as (out & Hout).
  exists out. cbn [prescription_branch].
  rewrite try_except_eq, snd_prescription_body, Hout.
  destruct (prescription_body_inv E df out Hout) as (_ & _ & g & R & _).
  unfold count. now rewrite R, length_map.
Qed.

Lemma clean_claims_data_ok E df ct :
  has_columns claim_source_columns (columns df) = true ->
  exists out, clean_claims_data E (Some df) ct = (Some out, [])
    /\ count out = count df /\ typed ct out
    /\ has_columns claim_source_columns (columns out) = true
    /\ forall c, has_column c (columns out)
                 = has_column c (columns df) || has_column c clean_touched.
Proof.
  intros Hc. pose proof Hc as Hc'. cbn in Hc'. rewrite !andb_true_iff in Hc'.
  destruct Hc' as (C1 & C2 & C3 & C4 & C5 & _).
  destruct (clean_claims_ok E df ct C3 C4) as (out & Hout). exists out.
  assert (fst (clean_claims_data E (Some df) ct) = Some out) as Hd
    by (cbn [clean_claims_data]; now rewrite fst_try_except, Hout).
  destruct (clean_claims_rowwise E df ct out) as (g & R & _ & K); [now rewrite Hout|].
  split; [cbn [clean_claims_data]; unfold try_except; now rewrite Hout|].
  split; [unfold count; now rewrite R, length_map|].
  split; [now apply (cleansed_typed E df)|]. split; [|exact K].
  cbn. now rewrite !K, C1, C2, C3, C4, C5.
Qed.

Lemma slot_kept s s' :
  (forall c, has_column c s' = has_column c s || has_column c clean_touched) ->
  filter diagnosis_slot s <> [] -> filter diagnosis_slot s' <> [].
Proof.
  intros K Hne Hnil. destruct (filter diagnosis_slot s) as [|c l] eqn:Hf; [congruence|].
  assert (In c (filter diagnosis_slot s)) as Hc by (rewrite Hf; now left).
  apply filter_In in Hc as [Hc Hp].
  assert (has_column c s' = true) as Hs'.
  { rewrite K. apply orb_true_intro. left. apply existsb_exists. exists c.
    split; [exact Hc|apply String.eqb_refl]. }
  apply existsb_exists in Hs' as (x & Hx & He). apply String.eqb_eq in He. subst x.
  assert (In c (filter diagnosis_slot s')) as Hin by (apply filter_In; auto).
  now rewrite Hnil in Hin.
Qed.

(** X21. On sources that have all that the job reads, every output is there
    and the log has the twelve lines of a run without a warning or an error:
    the five loads, the beneficiary records, the three types added to the
    unified claims with their total, the prescriptions and the diagnoses, each
    with the number of rows that were loaded. *)
Theorem conforming_run E b i o c p :
  conforming E b i o c p ->
  exists n,
    log (run E)
    = [Loaded "beneficiary" (count b); Loaded "inpatient" (count i);
       Loaded "outpatient" (count o); Loaded "carrier" (count c);
       Loaded "prescription" (count p);
       BeneficiaryProcessed (count b);
       Added "inpatient" (count i); Added "outpatient" (count o);
       Added "carrier" (count c);
       UnifiedCreated (count i + count o + count c);
       PrescriptionsProcessed (count p);
       DiagnosesNormalized n]
    /\ Forall (fun m => severity_of m = Info) (log (run E))
    /\ beneficiary_scd_records (summary (run E)) = count b
    /\ unified_claims (summary (run E)) = (count i + count o + count c)%nat
    /\ prescriptions (summary (run E)) = count p
    /\ normalized_diagnoses (summary (run E)) = n
    /\ beneficiary_scd (run E) <> None /\ claims_unified (run E) <> None
    /\ prescription_clean (run E) <> None /\ diagnosis_normalized (run E) <> None.
Proof.
  intros (Hb & Hi & Ho & Hc & Hp & Cb & Ci & Co & Cc & Hslot & Cp & Hsink).
  destruct (beneficiary_branch_ok E b Cb (Hsink _)) as (ob & Bb).
  destruct (prescription_branch_ok E p Cp (Hsink _)) as (op & Bp).
  destruct (clean_claims_data_ok E i "inpatient" Ci) as (ci & Bi & Ni & Ti & Si & Ki).
  destruct (clean_claims_data_ok E o "outpatient" Co) as (co & Bo & No & To & So & Ko).
  destruct (clean_claims_data_ok E c "carrier" Cc) as (cc & Bc & Nc & Tc & Sc & Kc).
  destruct (run_outputs E) as (Rb & Ri & Ro & Rc & Rp & Rd).
  rewrite Hb, Bb in Rb. rewrite Hi, Bi in Ri. rewrite Ho, Bo in Ro. rewrite Hc, Bc in Rc.
  rewrite Hp, Bp in Rp. cbn [fst] in Rb, Ri, Ro, Rc, Rp. rewrite Ri in Rd.
  assert (forall d d', has_columns claim_source_columns (columns d) = true ->
            has_columns claim_source_columns (columns d') = true ->
            same_columns optional_common (columns d) (columns d') = true) as Hsame.
  { intros d d' H1 H2. cbn in H1, H2. rewrite !andb_true_iff in H1, H2.
    destruct H1 as (A1 & A2 & _ & _ & A5 & _), H2 as (B1 & B2 & _ & _ & B5 & _).
    cbn. now rewrite A1, A2, A5, B1, B2, B5. }
  destruct (unify_agreeing E ci [co; cc]) as (u & Hu & Hr); trivial.
  { intros d [<-|[<-|[]]]; apply present_common_agree;
      try (apply To || apply Tc || apply Ti); now apply Hsame. }
  { apply Ti. reflexivity. }
  assert (claims_unified_branch E (Some ci) (Some co) (Some cc)
          = (Some u, [Added "inpatient" (count i); Added "outpatient" (count o);
                      Added "carrier" (count c); UnifiedCreated (count u)])) as Bu.
  { unfold claims_unified_branch. rewrite claims_unified_body_eq. cbn [available flat_map app map].
    cbn [map] in Hu. rewrite Hu. unfold added. cbn. now rewrite Ni, No, Nc. }
  assert (count u = (count i + count o + count c)%nat) as Nu.
  { unfold count at 1. rewrite Hr. cbn [flat_map]. unfold projection.
    rewrite length_map, !length_app, !length_map. cbn [List.length].
    unfold count in Ni, No, Nc. unfold count. lia. }
  pose proof (run_unified E) as Ru. rewrite Ri, Ro, Rc, Bu in Ru. cbn [fst] in Ru.
  assert (has_columns diagnosis_key_columns (columns ci) && sink_ok E "diagnosis_normalized"
          = true) as Hkey.
  { rewrite Hsink, andb_true_r. cbn in Si |- *. rewrite !andb_true_iff in Si.
    destruct Si as (A1 & A2 & A3 & _). now rewrite A1, A2, A3. }
  pose proof (diagnosis_branch_slots E ci (slot_kept _ _ Ki Hslot)) as Bg.
  rewrite Hkey in Bg.
  eexists. split; [|split].
  - rewrite log_eq. unfold load_line. cbn [map]. rewrite Hb, Hi, Ho, Hc, Hp.
    rewrite Bb, Bi, Bo, Bc, Bp, Ri, Ro, Rc, Bu, Bg, Nu. cbn [snd app]. reflexivity.
  - rewrite log_eq. unfold load_line. cbn [map]. rewrite Hb, Hi, Ho, Hc, Hp.
    rewrite Bb, Bi, Bo, Bc, Bp, Ri, Ro, Rc, Bu, Bg. cbn [snd app].
    repeat constructor.
  - unfold summary. cbn [beneficiary_scd_records unified_claims prescriptions
                         normalized_diagnoses].
    rewrite Rb, Ru, Rp, Rd, Bg. cbn [fst count_or_zero].
    assert (count ob = count b /\ count op = count p) as [Nb Np].
    { split.
      - pose proof (f_equal fst Bb) as Fb. cbn [fst] in Fb.
        apply beneficiary_branch_body, beneficiary_body_inv in Fb as (_ & _ & g & R & _).
        unfold count. now rewrite R, count_versions, length_map.
      - pose proof (f_equal fst Bp) as Fp. cbn [fst] in Fp.
        apply prescription_branch_body, prescription_body_inv in Fp as (_ & _ & g & R & _).
        unfold count. now rewrite R, length_map. }
    rewrite Nb, Np, Nu. repeat split; discriminate.
Qed.

(** *** The theorems at work *)

(** The inpatient claims; and the prescriptions, which have no claim dates. *)
Lemma clean_claims_data_outcome_witness :
  (exists out, clean_claims_data Examples.env (Some Examples.inpatient) "inpatient"
               = (Some out, []) /\ count out = 1%nat)
  /\ clean_claims_data Examples.env (Some Examples.prescription) "carrier"
     = (None, [CleaningError "carrier"]).
Proof.
  split.
  - apply (clean_claims_data_outcome Examples.env Examples.inpatient "inpatient");
      reflexivity.
  - apply (clean_claims_data_outcome Examples.env Examples.prescription "carrier");
      reflexivity.
Defined.

(** The beneficiaries; and the prescriptions in their place. *)
Lemma beneficiary_branch_outcome_witness :
  (exists out, beneficiary_branch Examples.env (Some Examples.beneficiary)
               = (Some out, [BeneficiaryProcessed 4]) /\ count out = 4%nat)
  /\ beneficiary_branch Examples.env (Some Examples.prescription)
     = (None, [BeneficiaryError]).
Proof.
  split.
  - apply (beneficiary_branch_outcome Examples.env Examples.beneficiary); reflexivity.
  - apply (beneficiary_branch_outcome Examples.env Examples.prescription); reflexivity.
Defined.

(** The prescriptions, with and without the patient-pay amount. *)
Lemma prescription_branch_outcome_witness :
  (exists out, prescription_branch Examples.env (Some Examples.prescription)
               = (Some out, [PrescriptionsProcessed 2]) /\ count out = 2%nat)
  /\ prescription_branch Examples.env
       (Some (Examples.drop_column "ptnt_pay_amt" Examples.prescription))
     = (None, [PrescriptionError]).
Proof.
  split.
  - apply (prescription_branch_outcome Examples.env Examples.prescription); reflexivity.
  - apply (prescription_branch_outcome Examples.env
             (Examples.drop_column "ptnt_pay_amt" Examples.prescription)); reflexivity.
Defined.

(** The cleansed inpatient claims, with and without the claim id. *)
Lemma diagnosis_branch_outcome_witness :
  (exists out, diagnosis_branch Examples.env (Some Examples.inpatient_cleansed)
               = (Some out, [DiagnosesNormalized (count out)])
               /\ columns out = diagnosis_schema)
  /\ diagnosis_branch Examples.env
       (Some (Examples.drop_column "clm_id" Examples.inpatient_cleansed))
     = (None, [DiagnosisError]).
Proof.
  split.
  - destruct (diagnosis_branch_outcome Examples.env Examples.inpatient_cleansed eq_refl)
      as (_ & _ & H & _).
    destruct H as (out & Hb & Hc & _); [vm_compute; discriminate|reflexivity|].
    exists out. split; [exact Hb|exact Hc].
  - destruct (diagnosis_branch_outcome Examples.env
                (Examples.drop_column "clm_id" Examples.inpatient_cleansed) eq_refl)
      as (_ & _ & _ & H).
    apply H; [vm_compute; discriminate|reflexivity].
Defined.

(** The prescriptions of total cost 300: over 0 days of supply, and over 30. *)
Lemma cost_per_day_witness :
  get (Examples.first_row Examples.prescriptions) "cost_per_day" = Some (VDbl 0%float)
  /\ get (Examples.last_row Examples.prescriptions) "cost_per_day" = Some (VDbl 10%float).
Proof.
  destruct (cost_per_day_guarded Examples.env Examples.prescription Examples.prescriptions
              eq_refl ltac:(vm_compute; reflexivity)) as (_ & H).
  split.
  - destruct (H (Examples.first_row Examples.prescription)
                (Examples.first_row Examples.prescriptions)) as (_ & _ & _ & _ & H0 & _).
    + left. reflexivity.
    + apply (H0 0); [reflexivity|lia].
  - destruct (H (Examples.last_row Examples.prescription)
                (Examples.last_row Examples.prescriptions)) as (_ & _ & _ & Hq & _).
    + right. left. reflexivity.
    + rewrite (Hq 30 300%float); reflexivity.
Defined.

Lemma clean_claims_data_keeps_witness :
  count Examples.inpatient_cleansed = count Examples.inpatient
  /\ get (Examples.first_row Examples.inpatient_cleansed) "claim_type"
     = Some (VStr "inpatient").
Proof.
  destruct (clean_claims_data_keeps Examples.env Examples.inpatient "inpatient"
              Examples.inpatient_cleansed) as (Hn & _ & _ & Ht).
  - vm_compute. reflexivity.
  - split; [exact Hn|]. apply Ht. left. reflexivity.
Defined.

(** The inpatient claim from 2008-01-01. *)
Lemma claim_time_dimensions_witness :
  get (Examples.first_row Examples.inpatient_cleansed) "claim_year" = Some (VInt 2008)
  /\ get (Examples.first_row Examples.inpatient_cleansed) "claim_quarter" = Some (VInt 1).
Proof.
  destruct (claim_time_dimensions Examples.env Examples.inpatient "inpatient"
              Examples.inpatient_cleansed ltac:(vm_compute; reflexivity)
              (Examples.first_row Examples.inpatient)
              (Examples.first_row Examples.inpatient_cleansed) "20080101" 2008 1 1)
    as (_ & Hy & _ & Hq & _); try reflexivity.
  - left. reflexivity.
  - split; [exact Hy|exact Hq].
Defined.

(** A claim without a from-date code. *)
Lemma missing_claim_dates_witness :
  get (Examples.first_row Cases.undated_cleansed) "claim_year" = None
  /\ get (Examples.first_row Cases.undated_cleansed) "claim_duration_days" = None.
Proof.
  destruct (missing_claim_dates Examples.env Cases.undated "outpatient"
              Cases.undated_cleansed ltac:(vm_compute; reflexivity)) as (_ & H).
  destruct (H (Examples.first_row Cases.undated)
              (Examples.first_row Cases.undated_cleansed)) as (Hf & _).
  - left. reflexivity.
  - destruct (Hf eq_refl) as (_ & Hd & Hy & _). split; [exact Hy|exact Hd].
Defined.

(** The inpatient claim paid "15000". *)
Lemma payment_amount_standardized_witness :
  get (Examples.first_row Examples.inpatient_cleansed) "payment_amount"
  = Some (VDbl 15000%float).
Proof.
  destruct (payment_amount_standardized Examples.env Examples.inpatient "inpatient"
              Examples.inpatient_cleansed ltac:(vm_compute; reflexivity)
              (Examples.first_row Examples.inpatient)
              (Examples.first_row Examples.inpatient_cleansed)) as (Hp & _).
  - left. reflexivity.
  - rewrite Hp by reflexivity. vm_compute. reflexivity.
Defined.

(** The beneficiaries "C" and "D". *)
Lemma beneficiary_snapshots_kept_witness :
  count Cases.registrant_versions = 2%nat
  /\ Permutation (map (restrict ["desynpuf_id"; "bene_race_cd"]) (rows Cases.registrant_versions))
                 (map (restrict ["desynpuf_id"; "bene_race_cd"]) (rows Cases.registrants)).
Proof.
  destruct (beneficiary_snapshots_kept Examples.env Cases.registrants
              Cases.registrant_versions) as (Hn & Hp).
  - vm_compute. reflexivity.
  - split; [exact Hn|]. apply Hp. intros c [<-|[<-|[]]]; reflexivity.
Defined.

(** Beneficiary "C", of gender code "2" and race code "4". *)
Lemma gender_and_race_labels_witness :
  get (Examples.first_row Cases.registrant_versions) "gender" = Some (VStr "Female")
  /\ get (Examples.first_row Cases.registrant_versions) "race" = Some (VStr "Unknown").
Proof.
  destruct (gender_and_race_labels Examples.env Cases.registrants
              Cases.registrant_versions ltac:(vm_compute; reflexivity)
              (Examples.first_row Cases.registrant_versions)) as (Hg & _ & Hr & _).
  - left. reflexivity.
  - split; [apply (Hg "2")|apply (Hr "4")]; reflexivity.
Defined.

(** Beneficiary "D", whose birth and death date codes are empty. *)
Lemma beneficiary_dates_witness :
  get (Examples.last_row Cases.registrant_versions) "is_deceased" = Some (VBool false)
  /\ get (Examples.last_row Cases.registrant_versions) "age" = None.
Proof.
  destruct (beneficiary_dates Examples.env Cases.registrants
              Cases.registrant_versions ltac:(vm_compute; reflexivity)
              (Examples.last_row Cases.registrant_versions)) as (_ & Hd & _ & Ha).
  - right. left. reflexivity.
  - split; [exact Hd|]. apply Ha. reflexivity.
Defined.

(** Beneficiary "F", whose later snapshot has no load date. *)
Lemma versions_closed_witness :
  get (Examples.first_row Cases.late_load_versions) "effective_end_date"
  = Some (VDate far_future)
  /\ exists v, In v (partition_of "desynpuf_id" (Examples.text "F")
                      (rows Cases.late_load_versions))
               /\ get v "is_current" = Some (VBool true).
Proof.
  destruct (versions_closed Examples.env Cases.late_loads
              Cases.late_load_versions ltac:(vm_compute; reflexivity) eq_refl) as (Hr & Hl).
  split.
  - destruct (Hr (Examples.first_row Cases.late_load_versions)) as (_ & _ & b & Hb & He).
    + left. reflexivity.
    + apply He. vm_compute in Hb. congruence.
  - apply Hl. vm_compute. discriminate.
Defined.

(** The prescription of 30 units for 0 days, with no patient-pay amount. *)
Lemma prescription_amounts_witness :
  get (Examples.first_row Examples.prescriptions) "patient_pay" = Some (VDbl 0%float)
  /\ get (Examples.first_row Examples.prescriptions) "qty_dispensed" = Some (VInt 30).
Proof.
  destruct (prescription_amounts Examples.env Examples.prescription
              Examples.prescriptions ltac:(vm_compute; reflexivity)) as (_ & H).
  destruct (H (Examples.first_row Examples.prescription)
              (Examples.first_row Examples.prescriptions)) as (Hq & _ & _ & Hp & _).
  - left. reflexivity.
  - split; [apply Hp; reflexivity|]. rewrite Hq. reflexivity.
Defined.

(** The prescription served on 2008-02-01. *)
Lemma prescription_time_dimensions_witness :
  get (Examples.last_row Examples.prescriptions) "prescription_year" = Some (VInt 2008)
  /\ get (Examples.last_row Examples.prescriptions) "prescription_month" = Some (VInt 2).
Proof.
  destruct (prescription_time_dimensions Examples.env Examples.prescription
              Examples.prescriptions ltac:(vm_compute; reflexivity)
              (Examples.last_row Examples.prescription)
              (Examples.last_row Examples.prescriptions)) as (H & _).
  - right. left. reflexivity.
  - destruct (H "20080201" 2008 2 1) as (_ & Hy & Hm & _); try reflexivity.
    split; [exact Hy|exact Hm].
Defined.

(** The inpatient and the outpatient claims, without carrier claims. *)
Lemma unified_schema_witness :
  columns Examples.unified = common_cols ++ ["is_high_cost"]
  /\ count Examples.unified = 3%nat.
Proof.
  destruct (unified_schema Examples.env Examples.unified ltac:(vm_compute; reflexivity))
    as ((d0 & ds & Hav & Hc) & _ & _ & Hn).
  split; [reflexivity|]. rewrite Hn. vm_compute. reflexivity.
Defined.

Lemma unified_of_agreeing_types_witness :
  exists u, claims_unified (run Examples.env) = Some u
    /\ map (fun r => get r "claim_type") (rows u)
       = [Some (VStr "inpatient"); Some (VStr "outpatient"); Some (VStr "outpatient")].
Proof.
  destruct (unified_of_agreeing_types Examples.env) as (u & Hu & _ & Hl & _).
  - vm_compute. discriminate.
  - vm_compute. intros d d' [<-|[<-|[]]] [<-|[<-|[]]]; reflexivity.
  - reflexivity.
  - exists u. split; [exact Hu|]. rewrite Hl. vm_compute. reflexivity.
Defined.

(** The run of the examples with carrier claims: one inpatient claim and
    twice the two outpatient claims. *)
Lemma conforming_run_witness :
  unified_claims (summary (run Cases.env_with_carrier)) = 5%nat
  /\ Forall (fun m => severity_of m = Info) (log (run Cases.env_with_carrier)).
Proof.
  destruct (conforming_run Cases.env_with_carrier Examples.beneficiary Examples.inpatient
              Examples.outpatient Examples.outpatient Examples.prescription)
    as (n & _ & Hinfo & _ & Hu & _).
  - unfold conforming. repeat (split; [reflexivity|]).
    split; [vm_compute; discriminate|]. split; [reflexivity|]. intros n. reflexivity.
  - split; [exact Hu|exact Hinfo].
Defined.

End BranchFacts.
